(** * The thoughts/folders REST server (src/index.js over src/db-setup.sql)

    A shallow embedding of the Express application of [src/index.js]:
    the authentication middleware, the eight route handlers and the route
    table, running over a model of the relational store whose schema is
    [src/db-setup.sql].

    What is modelled and what is not:
    - an inbound request passes [cors()] and [express.json()] (index.js:68-69)
      before it reaches a route: [listener] is the whole application, [app]
      the routes behind the two.  The JSON parser itself is a library: what
      it makes of a body (an object, or an error with its status) is part
      of the inbound request.  Fields of a parsed body are JavaScript
      values ([jsval]);
    - a string is the UTF-8 text that goes over the wire, one [ascii] per
      byte;
    - [admin.auth().verifyIdToken], the text-to-integer input function of
      the store, the wall clock and the time zone in which the driver reads
      a timestamp back are collaborators outside the repository: they are
      variables of the section below;
    - every [pool.query] is one autocommitted statement, sent with its
      parameters and planned with them; requests are handled one at a time
      (no interleaving of two requests);
    - the store enforces the constraints of [db-setup.sql]: primary keys,
      NOT NULL, UNIQUE(user_id, name), the foreign keys with their
      ON DELETE actions, SERIAL ids drawn from a sequence, and, for the
      texts a request body supplies, the width of VARCHAR(n) columns and
      the ban on NUL characters.  The id and the email of an identity are
      the verifier's and are taken to fit their columns;
    - a table is a list of rows in the order of their insertion, and an
      UPDATE rewrites a row where it stands.  PostgreSQL promises no order
      for a SELECT without ORDER BY and in practice lists an updated row
      after the others: the position of a row in a list says nothing about
      that;
    - sequence exhaustion and non-integral numbers are not modelled, nor
      are [console.log] / [console.error]. *)

From stdpp Require Import gmap strings list.
From Stdlib Require Import ZArith Ascii DecimalString.

Open Scope Z_scope.

(** ** JavaScript values *)

(** The values a field of a parsed JSON body can hold, plus [undefined]
    for an absent field.  [JNum n] is the number an integer literal [n]
    denotes, that is the double nearest to [n]; [JObj] stands for an object
    or an array and carries the text the database driver sends for it. *)
Inductive jsval : Type :=
| JUndefined
| JNull
| JBool (b : bool)
| JNum (n : Z)
| JStr (s : string)
| JObj (rendered : string).

#[global] Instance jsval_eq_dec : EqDecision jsval.
Proof. solve_decision. Defined.

(** JavaScript truthiness, as tested by [!v], [v || w] and [v ? a : b]. *)
Definition truthy (v : jsval) : bool :=
  match v with
  | JUndefined | JNull => false
  | JBool b => b
  | JNum n => negb (n =? 0)
  | JStr s => negb (String.eqb s "")
  | JObj _ => true
  end.

(** [v || null] *)
Definition or_null (v : jsval) : jsval := if truthy v then v else JNull.

(** [s.split(sep)] for a non-empty separator: the pieces of [s] between
    successive, non-overlapping occurrences of [sep], scanned from the
    left.  [skip] counts the characters of a separator occurrence still to
    be dropped; [cur] is the piece being collected. *)
Fixpoint split_go (sep s : string) (skip : nat) (cur : string) : list string :=
  match s with
  | EmptyString => [cur]
  | String c s' =>
      match skip with
      | S k => split_go sep s' k cur
      | O =>
          if String.prefix sep s
          then cur :: split_go sep s' (Nat.pred (String.length sep)) ""
          else split_go sep s' O (cur +:+ String c "")
      end
  end.

Definition js_split (sep s : string) : list string := split_go sep s O "".

(** ** Values on their way to the store *)

Definition string_of_Z (n : Z) : string := NilZero.string_of_int (Z.to_int n).

(** *** [String(x)] for a number

    JavaScript prints the fewest significant digits that read back as the
    same double, in full up to 21 digits and as d.ddde+x beyond. *)

(** The exponent of the spacing of the doubles around [a]: below 2^53
    every integer is a double, from there on every 2^e-th. *)
Definition ulp_exponent (a : Z) : Z := Z.max 0 (Z.log2 a - 52).

(** The double nearest to the integer [a > 0], ties to the even
    significand. *)
Definition to_double (a : Z) : Z :=
  let e := ulp_exponent a in
  if e =? 0 then a
  else
    let q := Z.shiftr a e in
    let r := a - Z.shiftl q e in
    let half := Z.shiftl 1 (e - 1) in
    let q' := if (half <? r) || ((half =? r) && Z.odd q) then q + 1 else q in
    Z.shiftl q' e.

(** Twice the bounds of the reals that are read as the double [v], and
    whether the bounds themselves are (they are when the significand is
    even). *)
Definition read_as (v : Z) : Z * Z * bool :=
  let e := ulp_exponent v in
  let m := Z.shiftr v e in
  let ulp := Z.shiftl 1 e in
  let below := if (m =? 2 ^ 52) && (0 <? e) then Z.shiftl 1 (e - 1) else ulp in
  (2 * v - below, 2 * v + ulp, Z.even m).

Definition within (bounds : Z * Z * bool) (c : Z) : bool :=
  let '(lo, hi, closed) := bounds in
  if closed then (lo <=? 2 * c) && (2 * c <=? hi)
  else (lo <? 2 * c) && (2 * c <? hi).

(** The multiple of [P] that is read as [v], the nearest to [v] if
    there are several. *)
Definition shortest_at (bounds : Z * Z * bool) (v P : Z) : option Z :=
  let c1 := v / P * P in
  let c2 := c1 + P in
  match within bounds c1, within bounds c2 with
  | true, true =>
      if v - c1 <? c2 - v then Some c1
      else if c2 - v <? v - c1 then Some c2
      else if Z.even (c1 / P) then Some c1 else Some c2
  | true, false => Some c1
  | false, true => Some c2
  | false, false => None
  end.

(** The integer with the fewest significant digits that is read as [v]:
    the multiple of the greatest power of ten, tried from [P = 10^p]
    downwards. *)
Fixpoint shortest (bounds : Z * Z * bool) (v P : Z) (p : nat) : Z :=
  match shortest_at bounds v P with
  | Some c => c
  | None =>
      match p with
      | S p' => shortest bounds v (P / 10) p'
      | O => v
      end
  end.

Fixpoint strip_zeros (rev_digits : string) : string :=
  match rev_digits with
  | String "0" s => strip_zeros s
  | _ => rev_digits
  end.

(** d.ddde+x, for a number of more than 21 digits. *)
Definition exponential (digits : string) : string :=
  match String.rev (strip_zeros (String.rev digits)) with
  | EmptyString => "0"
  | String d rest =>
      String d (match rest with EmptyString => "" | _ => "." +:+ rest end)
      +:+ "e+" +:+ string_of_Z (Z.of_nat (String.length digits - 1))
  end.

Definition number_text_pos (a : Z) : string :=
  let v := to_double a in
  if 2 ^ 1024 <=? v then "Infinity"
  else
    let p := Z.log2 v in
    let digits := string_of_Z (shortest (read_as v) v (10 ^ p) (Z.to_nat p)) in
    if (String.length digits <=? 21)%nat then digits else exponential digits.

(** [String(n)] for the number that the integer literal [n] denotes. *)
Definition number_text (n : Z) : string :=
  if n <? 0 then "-" +:+ number_text_pos (- n) else number_text_pos n.

(** The driver's [prepareValue]: [undefined] and [null] become SQL NULL
    ([None]); everything else is sent as text. *)
Definition prepareValue (v : jsval) : option string :=
  match v with
  | JUndefined | JNull => None
  | JBool true => Some "true"
  | JBool false => Some "false"
  | JNum n => Some (number_text n)
  | JStr s => Some s
  | JObj r => Some r
  end.

(** *** Text as the store takes it *)

(** The store refuses a text with a NUL character. *)
Fixpoint has_nul (s : string) : bool :=
  match s with
  | EmptyString => false
  | String c s' => Ascii.eqb c "000" || has_nul s'
  end.

(** A byte 10xxxxxx continues the character before it. *)
Definition continuation (c : ascii) : bool :=
  let n := nat_of_ascii c in (128 <=? n)%nat && (n <? 192)%nat.

Fixpoint all_spaces (s : string) : bool :=
  match s with
  | EmptyString => true
  | String c s' => Ascii.eqb c " " && all_spaces s'
  end.

(** Assignment to a VARCHAR(n) column: a text of at most [n] characters
    is stored as it is; a longer one is refused, unless what exceeds [n]
    characters is all spaces, which are then cut off. *)
Fixpoint varchar (n : nat) (s : string) : option string :=
  match s with
  | EmptyString => Some EmptyString
  | String c s' =>
      if continuation c then String c <$> varchar n s'
      else
        match n with
        | O => if all_spaces s then Some EmptyString else None
        | S k => String c <$> varchar k s'
        end
  end.

Definition int4_min : Z := -2147483648.
Definition int4_max : Z := 2147483647.

(** ** The store: rows of src/db-setup.sql *)

(** users (id PRIMARY KEY, username NOT NULL, email, password_hash,
    created_at) *)
Record user : Type := mkUser {
  u_id : string;
  u_username : string;
  u_email : option string;
  u_password_hash : option string;
  u_created_at : option string
}.

(** folders (id SERIAL PRIMARY KEY, user_id NOT NULL REFERENCES users,
    name NOT NULL, timestamp, UNIQUE(user_id, name)) *)
Record folder : Type := mkFolder {
  f_id : Z;
  f_user_id : string;
  f_name : string;
  f_timestamp : option string
}.

(** thoughts (id SERIAL PRIMARY KEY, user_id NOT NULL REFERENCES users,
    text NOT NULL, section NOT NULL, folder REFERENCES folders(id)
    ON DELETE SET NULL, timestamp) *)
Record thought : Type := mkThought {
  t_id : Z;
  t_user_id : string;
  t_text : string;
  t_section : string;
  t_folder : option Z;
  t_timestamp : option string
}.

(** thought_updates (id SERIAL PRIMARY KEY, thought_id NOT NULL
    REFERENCES thoughts(id) ON DELETE CASCADE, text NOT NULL, timestamp) *)
Record thought_update : Type := mkThoughtUpdate {
  tu_id : Z;
  tu_thought_id : Z;
  tu_text : string;
  tu_timestamp : option string
}.

(** The four tables, each with its rows in the order of their insertion,
    and the last value handed out by each of the two SERIAL sequences the
    handlers draw from. *)
Record store : Type := mkStore {
  users : list user;
  folders : list folder;
  thoughts : list thought;
  thought_updates : list thought_update;
  folders_id_seq : Z;
  thoughts_id_seq : Z
}.

Definition empty_store : store := mkStore [] [] [] [] 0 0.

Definition set_users (l : list user) (st : store) : store :=
  mkStore l (folders st) (thoughts st) (thought_updates st)
          (folders_id_seq st) (thoughts_id_seq st).

Definition set_folders (l : list folder) (st : store) : store :=
  mkStore (users st) l (thoughts st) (thought_updates st)
          (folders_id_seq st) (thoughts_id_seq st).

Definition set_thoughts (l : list thought) (st : store) : store :=
  mkStore (users st) (folders st) l (thought_updates st)
          (folders_id_seq st) (thoughts_id_seq st).

Definition set_thought_updates (l : list thought_update) (st : store) : store :=
  mkStore (users st) (folders st) (thoughts st) l
          (folders_id_seq st) (thoughts_id_seq st).

Definition set_folders_id_seq (n : Z) (st : store) : store :=
  mkStore (users st) (folders st) (thoughts st) (thought_updates st)
          n (thoughts_id_seq st).

Definition set_thoughts_id_seq (n : Z) (st : store) : store :=
  mkStore (users st) (folders st) (thoughts st) (thought_updates st)
          (folders_id_seq st) n.

(** Field updates of a thought row. *)
Definition with_folder (fo : option Z) (t : thought) : thought :=
  mkThought (t_id t) (t_user_id t) (t_text t) (t_section t) fo (t_timestamp t).

Definition with_name (n : string) (f : folder) : folder :=
  mkFolder (f_id f) (f_user_id f) n (f_timestamp f).

(** SQL [COALESCE(p, old)] *)
Definition coalesce {A : Type} (p : option A) (old : A) : A :=
  match p with Some x => x | None => old end.

(** ** Requests, responses and the handler monad *)

(** What [verifyIdToken] resolves to: the fields of the decoded token the
    handlers read ([req.user.uid], [req.user.email]). *)
Record decoded_token : Type := mkToken {
  uid : string;
  email : option string
}.

Inductive method : Type := GET | HEAD | POST | PUT | DELETE | PATCH.

#[global] Instance method_eq_dec : EqDecision method.
Proof. solve_decision. Defined.

Record request : Type := mkRequest {
  r_method : method;
  r_path : string;
  r_authorization : option string;     (* req.headers.authorization *)
  r_body : gmap string jsval           (* req.body *)
}.

(** [const { k } = req.body] *)
Definition field (b : gmap string jsval) (k : string) : jsval :=
  default JUndefined (b !! k).

(** The JSON documents the handlers send. *)
Inductive body : Type :=
| BError (msg : string)               (* { error: msg } *)
| BThoughts (rows : list thought)     (* { thoughts: rows } *)
| BThought (row : option thought)     (* { thought: rows[0] } *)
| BFolders (rows : list folder)       (* { folders: rows } *)
| BFolder (row : option folder)       (* { folder: rows[0] } *)
| BDeleted                            (* { deleted: true } *)
| BEmpty                              (* no content *)
| BErrorPage.                         (* the page of Express's error handler *)

Record response : Type := mkResponse {
  status : Z;
  json : body
}.

(** Calls that leave the process, in the order they are made. *)
Inductive event : Type :=
| EVerify (idToken : jsval)
| EQuery (sql : string) (params : list jsval).

Definition is_query (e : event) : bool :=
  match e with EQuery _ _ => true | EVerify _ => false end.

Record world : Type := mkWorld {
  db : store;
  log : list event;
  ticks : nat                          (* clock readings taken so far *)
}.

Definition fresh (st : store) : world := mkWorld st [] O.

(** A computation either returns ([Some]) or throws ([None]); either way
    it leaves a world behind. *)
Definition M (A : Type) : Type := world → option A * world.

#[global] Instance M_ret : MRet M := λ A a w, (Some a, w).

#[global] Instance M_bind : MBind M := λ A B f m w,
  match m w with
  | (Some a, w') => f a w'
  | (None, w') => (None, w')
  end.

(** [try { body } catch (error) { handler }] *)
Definition try_catch {A : Type} (body handler : M A) : M A := λ w,
  match body w with
  | (Some a, w') => (Some a, w')
  | (None, w') => handler w'
  end.

Definition emit (e : event) (w : world) : world :=
  mkWorld (db w) (log w ++ [e]) (ticks w).

(** [await pool.query(sql, params)]: the statement is recorded and run on
    the store; a store error is thrown. *)
Definition query {A : Type} (sql : string) (params : list jsval)
    (run : store → option A * store) : M A := λ w,
  let '(r, st') := run (db w) in
  (r, mkWorld st' (log w ++ [EQuery sql params]) (ticks w)).

(** [res.status(code).json(doc)] *)
Definition send (code : Z) (doc : body) : M response :=
  mret (mkResponse code doc).

(** ASCII lower case, for Express's case-insensitive path matching. *)
Definition lower_ascii (c : ascii) : ascii :=
  let n := nat_of_ascii c in
  if (65 <=? n)%nat && (n <=? 90)%nat then ascii_of_nat (n + 32) else c.

Fixpoint lower (s : string) : string :=
  match s with
  | EmptyString => EmptyString
  | String c s' => String (lower_ascii c) (lower s')
  end.

(** ** Sample collaborators, used by the examples at the end *)

(** A verifier that knows two tokens: identity "A" with an email and
    identity "B" without one. *)
Definition sample_verifier (idToken : string) : option decoded_token :=
  if String.eqb idToken "tokA"
  then Some (mkToken "A" (Some "alice@example.com"))
  else if String.eqb idToken "tokB" then Some (mkToken "B" None)
  else None.

(** Plain decimal digits, within the range of a 32-bit integer. *)
Fixpoint sample_digits (s : string) (acc : Z) : option Z :=
  match s with
  | EmptyString => Some acc
  | String c s' =>
      let n := Z.of_nat (nat_of_ascii c) in
      if (48 <=? n) && (n <=? 57)
      then sample_digits s' (10 * acc + (n - 48))
      else None
  end.

Definition sample_int4in (s : string) : option Z :=
  match s with
  | EmptyString => None
  | _ => match sample_digits s 0 with
         | Some n => if n <=? int4_max then Some n else None
         | None => None
         end
  end.

Definition sample_clock (k : nat) : string := "2024-01-01T00:00:00.000Z".

(** A server process that runs in UTC reads back the instant it sent. *)
Definition sample_timestamp_json (sent : string) : string := sent.

(** A server process one hour east of UTC, at the one instant
    [sample_clock] shows. *)
Definition east_timestamp_json (sent : string) : string :=
  if String.eqb sent "2024-01-01T00:00:00.000Z"
  then "2023-12-31T23:00:00.000Z" else sent.

(** A text of 51 characters. *)
Definition fifty_one : string :=
  "123456789012345678901234567890123456789012345678901".

Definition alice : decoded_token := mkToken "A" (Some "alice@example.com").
Definition bob : decoded_token := mkToken "B" None.

(** Sample requests: alice stores a thought, creates folder "work",
    files the thought under it and stores a second thought there; bob
    stores a thought under alice's folder. *)
Definition sent (m : method) (p token : string) (b : gmap string jsval)
    : request :=
  mkRequest m p (Some ("Bearer " +:+ token)) b.

Definition setup_requests : list request :=
  [ sent POST "/api/thoughts" "tokA"
      {[ "text" := JStr "buy milk"; "section" := JStr "todo" ]};
    sent POST "/api/folders" "tokA" {[ "name" := JStr "work" ]};
    sent PUT "/api/thoughts" "tokA" {[ "id" := JNum 1; "folder" := JNum 1 ]};
    sent POST "/api/thoughts" "tokA"
      {[ "text" := JStr "call home"; "section" := JStr "todo";
         "folder" := JNum 1 ]};
    sent POST "/api/thoughts" "tokB"
      {[ "text" := JStr "plan"; "section" := JStr "ideas";
         "folder" := JNum 1 ]} ].

(** The store those five requests leave behind (see
    [setup_reaches_filed_store]). *)
Definition filed_store : store :=
  let now := Some "2024-01-01T00:00:00.000Z" in
  mkStore
    [ mkUser "A" "alice" (Some "alice@example.com") None now;
      mkUser "B" "anonymous" None None now ]
    [ mkFolder 1 "A" "work" now ]
    [ mkThought 1 "A" "buy milk" "todo" (Some 1) now;
      mkThought 2 "A" "call home" "todo" (Some 1) now;
      mkThought 3 "B" "plan" "ideas" (Some 1) now ]
    [] 1 3.

(** A store in which only alice is known. *)
Definition alice_store : store :=
  let now := Some "2024-01-01T00:00:00.000Z" in
  mkStore [ mkUser "A" "alice" (Some "alice@example.com") None now ]
          [ mkFolder 1 "A" "work" now ]
          [ mkThought 1 "A" "buy milk" "todo" None now ]
          [] 1 1.

Section Server.

(** The collaborators outside the repository. *)
Variable verifyIdToken : string → option decoded_token.
                          (* [None]: the returned promise rejects *)
Variable int4in : string → option Z.
                          (* the store's integer input function *)
Variable clock : nat → string.
                          (* the k-th [new Date().toISOString()] *)
Variable timestamp_json : string → string.
                          (* the text with which a TIMESTAMP column that was
                             given this text comes back in a response: the
                             column keeps date and time without the zone,
                             the driver reads them in the time zone of the
                             server process, [res.json] prints the instant
                             in UTC *)

(** A parameter bound to an INTEGER placeholder: outer [None] is the
    store rejecting the value, [Some None] is NULL.  An integer-valued
    number is sent as its decimal digits, which the store reads back as
    that integer when it fits 32 bits; a string goes through the store's
    input function, unless it holds a NUL character, which the store
    refuses before that; booleans, objects and arrays are sent as text that
    is never an integer. *)
Definition pg_int (v : jsval) : option (option Z) :=
  match v with
  | JUndefined | JNull => Some None
  | JNum n =>
      if decide (int4_min ≤ n ≤ int4_max) then Some (Some n) else None
  | JStr s => if has_nul s then None else Some <$> int4in s
  | JBool _ | JObj _ => None
  end.

(** A parameter bound to a TEXT placeholder: outer [None] is the store
    rejecting the value when it binds it (a NUL character), [Some None] is
    NULL. *)
Definition pg_text (v : jsval) : option (option string) :=
  match prepareValue v with
  | None => Some None
  | Some s => if has_nul s then None else Some (Some s)
  end.

(** A parameter assigned to a VARCHAR(n) column.  The statement is
    planned with the value of the parameter, so a text that is too long is
    refused whether or not a row is in scope. *)
Definition pg_varchar (n : nat) (v : jsval) : option (option string) :=
  match pg_text v with
  | Some (Some s) => Some <$> varchar n s
  | other => other
  end.

(** *** The eleven statements of src/index.js *)

(** The values a thoughts.folder reference may take without violating
    its foreign key: the ids present in folders. *)
Definition folder_keys (st : store) : list (option Z) :=
  Some ∘ f_id <$> folders st.

(** SELECT * FROM thoughts WHERE user_id = $1 *)
Definition select_thoughts (user_id : string) (st : store)
    : option (list thought) * store :=
  (Some (filter (λ t, t_user_id t = user_id) (thoughts st)), st).

(** SELECT * FROM users WHERE id = $1 *)
Definition select_user (id : string) (st : store)
    : option (list user) * store :=
  (Some (filter (λ u, u_id u = id) (users st)), st).

(** INSERT INTO users (id, username, email, password_hash, created_at)
    VALUES ($1, $2, $3, $4, $5).  Fails on a duplicate primary key.  A
    timestamp is kept as the text under which it will be read back. *)
Definition insert_user (id username : string)
    (email password_hash : option string) (created_at : string) (st : store)
    : option (list user) * store :=
  if decide (id ∈ u_id <$> users st) then (None, st)
  else
    let row := mkUser id username email password_hash
                      (Some (timestamp_json created_at)) in
    (Some [], set_users (users st ++ [row]) st).

(** INSERT INTO thoughts (user_id, text, section, folder, timestamp)
    VALUES ($1, $2, $3, $4, $5) RETURNING *.  A parameter the store cannot
    take (a folder that is no integer, a NUL character, a section wider
    than VARCHAR(50)) stops the statement before it runs.  Otherwise the
    id is drawn from the sequence (and stays drawn when the insert fails);
    text and section are NOT NULL; user_id and folder are foreign keys. *)
Definition insert_thought (user_id : string) (text section folder : jsval)
    (timestamp : string) (st : store) : option (list thought) * store :=
  match pg_text text, pg_varchar 50 section, pg_int folder with
  | Some otx, Some ose, Some fo =>
      let id := thoughts_id_seq st + 1 in
      let st1 := set_thoughts_id_seq id st in
      match otx, ose with
      | Some tx, Some se =>
          let row := mkThought id user_id tx se fo
                               (Some (timestamp_json timestamp)) in
          if decide (id ∈ t_id <$> thoughts st) then (None, st1)
          else if decide (user_id ∉ u_id <$> users st) then (None, st1)
          else if decide (fo ≠ None ∧ (fo ∉ folder_keys st)) then (None, st1)
          else (Some [row], set_thoughts (thoughts st ++ [row]) st1)
      | _, _ => (None, st1)
      end
  | _, _, _ => (None, st)
  end.

(** UPDATE thoughts SET text = COALESCE($1, text),
    section = COALESCE($2, section), folder = COALESCE($3, folder)
    WHERE id = $4 AND user_id = $5 RETURNING *.  A parameter the store
    cannot take stops the statement before it runs; the foreign key on
    folder is checked for the rows whose folder changes. *)
Definition update_thought_row (tx se : option string) (fo : option Z)
    (t : thought) : thought :=
  mkThought (t_id t) (t_user_id t)
            (coalesce tx (t_text t)) (coalesce se (t_section t))
            (match fo with Some f => Some f | None => t_folder t end)
            (t_timestamp t).

Definition update_thought (text section folder id : jsval) (user_id : string)
    (st : store) : option (list thought) * store :=
  match pg_text text, pg_varchar 50 section, pg_int folder, pg_int id with
  | Some tx, Some se, Some fo, Some oi =>
      let hit t := oi = Some (t_id t) ∧ t_user_id t = user_id in
      let upd := update_thought_row tx se fo in
      let hits := filter hit (thoughts st) in
      if decide (fo ≠ None ∧ (fo ∉ folder_keys st)
                 ∧ Exists (λ t, t_folder t ≠ fo) hits)
      then (None, st)
      else (Some (upd <$> hits),
            set_thoughts
              ((λ t, if decide (hit t) then upd t else t) <$> thoughts st) st)
  | _, _, _, _ => (None, st)
  end.

(** DELETE FROM thoughts WHERE id = $1 AND user_id = $2 RETURNING *.
    thought_updates rows of a deleted thought go with it (ON DELETE
    CASCADE). *)
Definition delete_thought (id : jsval) (user_id : string) (st : store)
    : option (list thought) * store :=
  match pg_int id with
  | Some oi =>
      let hit t := oi = Some (t_id t) ∧ t_user_id t = user_id in
      let hits := filter hit (thoughts st) in
      (Some hits,
       set_thought_updates
         (filter (λ tu, tu_thought_id tu ∉ t_id <$> hits) (thought_updates st))
         (set_thoughts (filter (λ t, ¬ hit t) (thoughts st)) st))
  | None => (None, st)
  end.

(** SELECT * FROM folders WHERE user_id = $1 *)
Definition select_folders (user_id : string) (st : store)
    : option (list folder) * store :=
  (Some (filter (λ f, f_user_id f = user_id) (folders st)), st).

(** INSERT INTO folders (user_id, name, timestamp) VALUES ($1, $2, $3)
    RETURNING *.  A name the store cannot take (a NUL character, wider than
    VARCHAR(255)) stops the statement before it runs.  name is NOT NULL,
    user_id is a foreign key into users, (user_id, name) is unique. *)
Definition insert_folder (user_id : string) (name : jsval)
    (timestamp : string) (st : store) : option (list folder) * store :=
  match pg_varchar 255 name with
  | Some on =>
      let id := folders_id_seq st + 1 in
      let st1 := set_folders_id_seq id st in
      match on with
      | Some n =>
          let row := mkFolder id user_id n (Some (timestamp_json timestamp)) in
          if decide (id ∈ f_id <$> folders st) then (None, st1)
          else if decide (user_id ∉ u_id <$> users st) then (None, st1)
          else if decide (Exists (λ f, f_user_id f = user_id ∧ f_name f = n)
                                 (folders st))
               then (None, st1)
          else (Some [row], set_folders (folders st ++ [row]) st1)
      | None => (None, st1)
      end
  | None => (None, st)
  end.

(** UPDATE folders SET name = $1 WHERE id = $2 AND user_id = $3
    RETURNING *.  A parameter the store cannot take stops the statement
    before it runs.  Fails when a renamed row would share (user_id, name)
    with another row. *)
Definition update_folder (name id : jsval) (user_id : string) (st : store)
    : option (list folder) * store :=
  match pg_int id, pg_varchar 255 name with
  | Some oi, Some (Some n) =>
      let hit f := oi = Some (f_id f) ∧ f_user_id f = user_id in
      let hits := filter hit (folders st) in
      if decide (hits ≠ [] ∧
                 (Exists (λ f, ¬ hit f ∧ f_user_id f = user_id ∧ f_name f = n)
                         (folders st)
                  ∨ (1 < length hits)%nat))
      then (None, st)
      else (Some (with_name n <$> hits),
            set_folders
              ((λ f, if decide (hit f) then with_name n f else f)
                 <$> folders st) st)
  | Some oi, Some None =>
      (* name = NULL violates NOT NULL on a row that is hit *)
      let hit f := oi = Some (f_id f) ∧ f_user_id f = user_id in
      if decide (filter hit (folders st) = []) then (Some [], st)
      else (None, st)
  | _, _ => (None, st)
  end.

(** UPDATE thoughts SET folder = NULL WHERE folder = $1 AND user_id = $2 *)
Definition detach_folder (id : jsval) (user_id : string) (st : store)
    : option (list thought) * store :=
  match pg_int id with
  | Some oi =>
      let hit t := oi ≠ None ∧ t_folder t = oi ∧ t_user_id t = user_id in
      (Some [],
       set_thoughts
         ((λ t, if decide (hit t) then with_folder None t else t)
            <$> thoughts st) st)
  | None => (None, st)
  end.

(** DELETE FROM folders WHERE id = $1 AND user_id = $2 RETURNING *.
    Thoughts that reference a deleted folder get folder = NULL (ON DELETE
    SET NULL), whoever owns them. *)
Definition delete_folder (id : jsval) (user_id : string) (st : store)
    : option (list folder) * store :=
  match pg_int id with
  | Some oi =>
      let hit f := oi = Some (f_id f) ∧ f_user_id f = user_id in
      let hits := filter hit (folders st) in
      (Some hits,
       set_thoughts
         ((λ t, if decide (t_folder t ∈ Some ∘ f_id <$> hits)
                then with_folder None t else t) <$> thoughts st)
         (set_folders (filter (λ f, ¬ hit f) (folders st)) st))
  | None => (None, st)
  end.

(** *** The authentication middleware (index.js:72-87) *)

(** [new Date().toISOString()] *)
Definition date_now : M string := λ w,
  (Some (clock (ticks w)), mkWorld (db w) (log w) (S (ticks w))).

(** [await admin.auth().verifyIdToken(idToken)]; a token that is not a
    string is rejected by the verifier. *)
Definition verify (idToken : jsval) : M decoded_token := λ w,
  (match idToken with JStr s => verifyIdToken s | _ => None end,
   emit (EVerify idToken) w).

(** [parts[i]] of an array of strings *)
Definition at_index (parts : list string) (i : nat) : jsval :=
  match parts !! i with Some s => JStr s | None => JUndefined end.

Definition unauthorized : response := mkResponse 401 (BError "Unauthorized").

(** [next()] starts the route handler, an async function with a
    try/catch of its own: nothing it raises reaches the catch below, so the
    handler is run after the try block has produced the decoded token. *)
Definition authenticateUser (req : request)
    (next : decoded_token → M response) : M response :=
  match r_authorization req with
  | None => mret unauthorized
  | Some authHeader =>
      if negb (truthy (JStr authHeader))
         || negb (String.prefix "Bearer " authHeader)
      then mret unauthorized
      else
        decoded ← try_catch
          (let idToken := at_index (js_split "Bearer " authHeader) 1 in
           decodedToken ← verify idToken;
           mret (Some decodedToken))
          (mret None);
        match decoded with
        | Some decodedToken => next decodedToken
        | None => mret unauthorized
        end
  end.

(** *** The route handlers (index.js:90-277) *)

Definition internal_error : M response :=
  send 500 (BError "Internal Server Error").

(** [req.user.email || null] *)
Definition email_or_null (user : decoded_token) : option string :=
  match email user with
  | Some e => if truthy (JStr e) then Some e else None
  | None => None
  end.

Definition js_of_option (o : option string) : jsval :=
  match o with Some s => JStr s | None => JNull end.

(** [userEmail ? userEmail.split('@')[0] : 'anonymous'] *)
Definition user_name (userEmail : option string) : string :=
  match userEmail with
  | Some e => match js_split "@" e with x :: _ => x | [] => "" end
  | None => "anonymous"
  end.

(** GET /api/thoughts *)
Definition get_thoughts (user : decoded_token) (b : gmap string jsval)
    : M response :=
  try_catch
    (let userId := uid user in
     rows ← query "SELECT * FROM thoughts WHERE user_id = $1"
                  [JStr userId] (select_thoughts userId);
     send 200 (BThoughts rows))
    internal_error.

(** POST /api/thoughts *)
Definition post_thoughts (user : decoded_token) (b : gmap string jsval)
    : M response :=
  try_catch
    (let userId := uid user in
     let userEmail := email_or_null user in
     let userName := user_name userEmail in
     createdAt ← date_now;
     userCheck ← query "SELECT * FROM users WHERE id = $1"
                       [JStr userId] (select_user userId);
     _ ← (if (length userCheck =? 0)%nat
          then query "INSERT INTO users (id, username, email, password_hash, created_at) VALUES ($1, $2, $3, $4, $5)"
                     [JStr userId; JStr userName; js_of_option userEmail;
                      JNull; JStr createdAt]
                     (insert_user userId userName userEmail None createdAt)
          else mret []);
     let text := field b "text" in
     let section := field b "section" in
     let folder := field b "folder" in
     timestamp ← date_now;
     rows ← query "INSERT INTO thoughts (user_id, text, section, folder, timestamp) VALUES ($1, $2, $3, $4, $5) RETURNING *"
                  [JStr userId; text; section; or_null folder; JStr timestamp]
                  (insert_thought userId text section (or_null folder)
                                  timestamp);
     send 201 (BThought (head rows)))
    internal_error.

(** PUT /api/thoughts *)
Definition put_thoughts (user : decoded_token) (b : gmap string jsval)
    : M response :=
  try_catch
    (let userId := uid user in
     let id := field b "id" in
     let text := field b "text" in
     let section := field b "section" in
     let folder := field b "folder" in
     if negb (truthy id) then send 400 (BError "Missing thought ID")
     else
       rows ← query "UPDATE thoughts SET text = COALESCE($1, text), section = COALESCE($2, section), folder = COALESCE($3, folder) WHERE id = $4 AND user_id = $5 RETURNING *"
                    [text; section; folder; id; JStr userId]
                    (update_thought text section folder id userId);
       if (length rows =? 0)%nat
       then send 404 (BError "Thought not found or unauthorized")
       else send 200 (BThought (head rows)))
    internal_error.

(** DELETE /api/thoughts *)
Definition delete_thoughts (user : decoded_token) (b : gmap string jsval)
    : M response :=
  try_catch
    (let userId := uid user in
     let id := field b "id" in
     if negb (truthy id) then send 400 (BError "Missing thought ID")
     else
       rows ← query "DELETE FROM thoughts WHERE id = $1 AND user_id = $2 RETURNING *"
                    [id; JStr userId] (delete_thought id userId);
       if (length rows =? 0)%nat
       then send 404 (BError "Thought not found or unauthorized")
       else send 200 BDeleted)
    internal_error.

(** GET /api/folders *)
Definition get_folders (user : decoded_token) (b : gmap string jsval)
    : M response :=
  try_catch
    (let userId := uid user in
     rows ← query "SELECT * FROM folders WHERE user_id = $1"
                  [JStr userId] (select_folders userId);
     send 200 (BFolders rows))
    internal_error.

(** POST /api/folders *)
Definition post_folders (user : decoded_token) (b : gmap string jsval)
    : M response :=
  try_catch
    (let userId := uid user in
     let name := field b "name" in
     if negb (truthy name) then send 400 (BError "Folder name is required")
     else
       timestamp ← date_now;
       rows ← query "INSERT INTO folders (user_id, name, timestamp) VALUES ($1, $2, $3) RETURNING *"
                    [JStr userId; name; JStr timestamp]
                    (insert_folder userId name timestamp);
       send 201 (BFolder (head rows)))
    internal_error.

(** PUT /api/folders *)
Definition put_folders (user : decoded_token) (b : gmap string jsval)
    : M response :=
  try_catch
    (let userId := uid user in
     let id := field b "id" in
     let name := field b "name" in
     if negb (truthy id) || negb (truthy name)
     then send 400 (BError "Folder ID and name are required")
     else
       rows ← query "UPDATE folders SET name = $1 WHERE id = $2 AND user_id = $3 RETURNING *"
                    [name; id; JStr userId] (update_folder name id userId);
       if (length rows =? 0)%nat
       then send 404 (BError "Folder not found or unauthorized")
       else send 200 (BFolder (head rows)))
    internal_error.

(** DELETE /api/folders *)
Definition delete_folders (user : decoded_token) (b : gmap string jsval)
    : M response :=
  try_catch
    (let userId := uid user in
     let id := field b "id" in
     if negb (truthy id) then send 400 (BError "Folder ID is required")
     else
       _ ← query "UPDATE thoughts SET folder = NULL WHERE folder = $1 AND user_id = $2"
                 [id; JStr userId] (detach_folder id userId);
       rows ← query "DELETE FROM folders WHERE id = $1 AND user_id = $2 RETURNING *"
                    [id; JStr userId] (delete_folder id userId);
       if (length rows =? 0)%nat
       then send 404 (BError "Folder not found or unauthorized")
       else send 200 BDeleted)
    internal_error.

(** *** The route table and dispatch *)

Definition handler : Type := decoded_token → gmap string jsval → M response.

(** The registrations [app.METHOD(path, authenticateUser, handler)], in
    source order. *)
Definition routes : list (method * string * handler) :=
  [ (GET,    "/api/thoughts", get_thoughts);
    (POST,   "/api/thoughts", post_thoughts);
    (PUT,    "/api/thoughts", put_thoughts);
    (DELETE, "/api/thoughts", delete_thoughts);
    (GET,    "/api/folders",  get_folders);
    (POST,   "/api/folders",  post_folders);
    (PUT,    "/api/folders",  put_folders);
    (DELETE, "/api/folders",  delete_folders) ].

(** Express's default matching: a HEAD request is served by a GET route;
    the path is compared without regard to case and may carry one
    trailing slash. *)
Definition method_matches (registered requested : method) : bool :=
  bool_decide (registered = requested)
  || (bool_decide (requested = HEAD) && bool_decide (registered = GET)).

Definition path_matches (registered requested : string) : bool :=
  String.eqb (lower requested) (lower registered)
  || String.eqb (lower requested) (lower registered +:+ "/").

Definition route_matches (req : request) (r : method * string * handler)
    : bool :=
  method_matches (fst (fst r)) (r_method req)
  && path_matches (snd (fst r)) (r_path req).

(** The routes of the application, for a request that has passed the
    middleware of lines 68-69: [None] when no registered route matches
    (Express then answers with its own not-found page); otherwise the
    authentication middleware followed by the handler. *)
Definition app (req : request) : option (M response) :=
  match find (route_matches req) routes with
  | Some (_, _, h) => Some (authenticateUser req (λ user, h user (r_body req)))
  | None => None
  end.

(** Serving requests one after the other, each in the world the
    previous one left; the responses come back in order ([None] for a
    request no route matches). *)
Fixpoint serve (reqs : list request) (w : world)
    : list (option response) * world :=
  match reqs with
  | [] => ([], w)
  | req :: rest =>
      match app req with
      | Some m =>
          let '(r, w1) := m w in
          let '(rs, w') := serve rest w1 in
          (r :: rs, w')
      | None =>
          let '(rs, w') := serve rest w in
          (None :: rs, w')
      end
  end.

(** *** The middleware in front of the routes (index.js:68-69) *)

(** An inbound request, by what the two middlewares make of it:
    - [cors()] answers an OPTIONS request itself, with 204 and no content,
      and passes every other request on;
    - [express.json()] then reads the body.  When the body is not
      acceptable it raises an error, which Express's error handler answers
      with the status of the error (400 for a text that does not parse, 413
      for one over the size limit, 415 for an unsupported charset or
      encoding);
    - otherwise [req.body] is set (to an empty object when the request
      carries no JSON) and the request goes to the routes. *)
Inductive inbound : Type :=
| Preflight (path : string) (authorization : option string)
| Unparsable (m : method) (path : string) (authorization : option string)
             (status : Z)
| Parsed (req : request).

(** [req.headers.authorization] of an inbound request *)
Definition i_authorization (i : inbound) : option string :=
  match i with
  | Preflight _ a | Unparsable _ _ a _ => a
  | Parsed req => r_authorization req
  end.

(** The application as it listens: [cors()], [express.json()], then the
    routes. *)
Definition listener (i : inbound) : option (M response) :=
  match i with
  | Preflight _ _ => Some (send 204 BEmpty)
  | Unparsable _ _ _ s => Some (send s BErrorPage)
  | Parsed req => app req
  end.

(** ** Vocabulary of the properties *)

(** The token the middleware hands to the verifier:
    [authHeader.split('Bearer ')[1]]. *)
Definition bearer_token (authHeader : string) : jsval :=
  at_index (js_split "Bearer " authHeader) 1.

(** The authorization header is absent or does not start with
    'Bearer '. *)
Definition header_lacks_bearer (a : option string) : Prop :=
  match a with
  | None => True
  | Some h => String.prefix "Bearer " h = false
  end.

Definition lacks_bearer (req : request) : Prop :=
  header_lacks_bearer (r_authorization req).

(** The header carries the prefix and the verifier rejects its token. *)
Definition header_rejected (a : option string) : Prop :=
  match a with
  | None => False
  | Some h =>
      String.prefix "Bearer " h = true ∧
      match bearer_token h with
      | JStr s => verifyIdToken s = None
      | _ => True
      end
  end.

Definition verifier_rejects (req : request) : Prop :=
  header_rejected (r_authorization req).

(** What an inbound request without a valid credential is answered:
    401 when it gets as far as the routes, and what the middleware in front
    of them answers when it does not. *)
Definition refusal (i : inbound) : response :=
  match i with
  | Preflight _ _ => mkResponse 204 BEmpty
  | Unparsable _ _ _ s => mkResponse s BErrorPage
  | Parsed _ => unauthorized
  end.

Definition reaches_routes (i : inbound) : Prop :=
  match i with Parsed _ => True | _ => False end.

(** The interface table as the specification prints it. *)
Definition spec_interface : list (method * string) :=
  [ (GET, "/thoughts"); (POST, "/thoughts"); (PUT, "/thoughts");
    (DELETE, "/thoughts");
    (GET, "/folders"); (POST, "/folders"); (PUT, "/folders");
    (DELETE, "/folders") ].

(** The middleware followed by handler [h], as [app] composes them. *)
Definition guarded (h : handler) (req : request) : M response :=
  authenticateUser req (λ user, h user (r_body req)).

(** The statements of POST /api/thoughts, as they appear in the log. *)
Definition SELECT_USER : string := "SELECT * FROM users WHERE id = $1".
Definition INSERT_USER : string :=
  "INSERT INTO users (id, username, email, password_hash, created_at) VALUES ($1, $2, $3, $4, $5)".
Definition INSERT_THOUGHT : string :=
  "INSERT INTO thoughts (user_id, text, section, folder, timestamp) VALUES ($1, $2, $3, $4, $5) RETURNING *".

(** The local part of an address, in the specification's words: what
    stands before the first '@' (everything when there is none). *)
Fixpoint local_part (e : string) : string :=
  match e with
  | EmptyString => EmptyString
  | String c e' =>
      if Ascii.eqb c "@" then EmptyString else String c (local_part e')
  end.

(** The display name of an identity, in the specification's words: the
    local part of its email, "anonymous" when it has none. *)
Definition display_name (user : decoded_token) : string :=
  match email user with
  | Some (String c e) => local_part (String c e)
  | Some EmptyString | None => "anonymous"
  end.

(** The users row thought creation provisions for identity [who] at
    time [created_at]. *)
Definition provisioned (who : decoded_token) (created_at : string) : user :=
  mkUser (uid who) (display_name who) (email_or_null who) None
         (Some (timestamp_json created_at)).

(** The three statements of a thought creation for [user] with body [b]
    that starts at clock reading [k]. *)
Definition select_user_call (user : decoded_token) : event :=
  EQuery SELECT_USER [JStr (uid user)].

Definition insert_user_call (user : decoded_token) (k : nat) : event :=
  EQuery INSERT_USER
         [JStr (uid user); JStr (display_name user);
          js_of_option (email_or_null user); JNull; JStr (clock k)].

Definition insert_thought_call (user : decoded_token)
    (b : gmap string jsval) (k : nat) : event :=
  EQuery INSERT_THOUGHT
         [JStr (uid user); field b "text"; field b "section";
          or_null (field b "folder"); JStr (clock (S k))].

Definition UPDATE_THOUGHT : string :=
  "UPDATE thoughts SET text = COALESCE($1, text), section = COALESCE($2, section), folder = COALESCE($3, folder) WHERE id = $4 AND user_id = $5 RETURNING *".

(** Row [t] is the thought [i] of owner [u]: the scope [id = i AND
    user_id = u] of an update or a delete. *)
Definition owns_thought (i : Z) (u : string) (t : thought) : Prop :=
  t_id t = i ∧ t_user_id t = u.

#[global] Instance owns_thought_dec i u t : Decision (owns_thought i u t).
Proof. unfold owns_thought. apply _. Defined.

Definition owns_folder (i : Z) (u : string) (f : folder) : Prop :=
  f_id f = i ∧ f_user_id f = u.

#[global] Instance owns_folder_dec i u f : Decision (owns_folder i u f).
Proof. unfold owns_folder. apply _. Defined.

(** "Replaced if a new value was supplied, kept otherwise". *)
Definition replaced_if_supplied {A : Type} (supplied : option A)
    (old new : A) : Prop :=
  match supplied with
  | Some v => new = v
  | None => new = old
  end.

(** Row [t'] is row [t] after a coalescing update with the supplied
    text, section and folder: each of the three is replaced if supplied and
    kept otherwise; id, owner and timestamp stay. *)
Definition coalescing_update (tx se : option string) (fo : option Z)
    (t t' : thought) : Prop :=
  t_id t' = t_id t ∧ t_user_id t' = t_user_id t ∧
  t_timestamp t' = t_timestamp t ∧
  replaced_if_supplied tx (t_text t) (t_text t') ∧
  replaced_if_supplied se (t_section t) (t_section t') ∧
  replaced_if_supplied (Some <$> fo) (t_folder t) (t_folder t').

(** Two stores that differ at most in the thoughts table. *)
Definition same_but_thoughts (st st' : store) : Prop :=
  users st' = users st ∧ folders st' = folders st ∧
  thought_updates st' = thought_updates st ∧
  folders_id_seq st' = folders_id_seq st ∧
  thoughts_id_seq st' = thoughts_id_seq st.

(** The store rejects folder value [fo] for thought [i] of [u]: it names
    no folders row, and a row in scope would change to it. *)
Definition folder_key_broken (fo : option Z) (i : Z) (u : string)
    (st : store) : Prop :=
  fo ≠ None ∧ (fo ∉ folder_keys st)
  ∧ Exists (λ t, owns_thought i u t ∧ t_folder t ≠ fo) (thoughts st).

#[global] Instance folder_key_broken_dec fo i u st :
  Decision (folder_key_broken fo i u st).
Proof. unfold folder_key_broken. apply _. Defined.

Definition internal_error_response : response :=
  mkResponse 500 (BError "Internal Server Error").

Definition DELETE_THOUGHT : string :=
  "DELETE FROM thoughts WHERE id = $1 AND user_id = $2 RETURNING *".
Definition INSERT_FOLDER : string :=
  "INSERT INTO folders (user_id, name, timestamp) VALUES ($1, $2, $3) RETURNING *".
Definition UPDATE_FOLDER : string :=
  "UPDATE folders SET name = $1 WHERE id = $2 AND user_id = $3 RETURNING *".
Definition DETACH_FOLDER : string :=
  "UPDATE thoughts SET folder = NULL WHERE folder = $1 AND user_id = $2".
Definition DELETE_FOLDER : string :=
  "DELETE FROM folders WHERE id = $1 AND user_id = $2 RETURNING *".

Definition not_found (what : string) : response :=
  mkResponse 404 (BError (what +:+ " not found or unauthorized")).

(** Thought [t] of owner [u] points at folder [i]: the scope of the
    detach step of a folder deletion. *)
Definition files_under (i : Z) (u : string) (t : thought) : Prop :=
  t_user_id t = u ∧ t_folder t = Some i.

#[global] Instance files_under_dec i u t : Decision (files_under i u t).
Proof. unfold files_under. apply _. Defined.

(** Owner [u] has no thought (no folder) with id [i]: the id does not
    exist, or it belongs to somebody else. *)
Definition no_thought_of (i : Z) (u : string) (st : store) : Prop :=
  ∀ t, t ∈ thoughts st → ¬ owns_thought i u t.

Definition no_folder_of (i : Z) (u : string) (st : store) : Prop :=
  ∀ f, f ∈ folders st → ¬ owns_folder i u f.

(** Every folder reference of a thought points at a folder of the
    thought's own owner. *)
Definition folder_refs_owned (st : store) : Prop :=
  ∀ t i, t ∈ thoughts st → t_folder t = Some i →
         ∃ f, f ∈ folders st ∧ owns_folder i (t_user_id t) f.

(** No row of the new thoughts table has lost a folder reference it had
    in the old one (rows are told apart by id). *)
Definition never_detached (old new : list thought) : Prop :=
  ∀ t t', t ∈ old → t' ∈ new → t_id t' = t_id t →
          is_Some (t_folder t) → is_Some (t_folder t').

(** What a folder deletion by [u] for id [i] does to a thought row, the
    detach step and the store's ON DELETE SET NULL taken together: the
    reference is cleared on the thoughts of [u] filed under [i], and on
    every thought that references [i] when a folders row is deleted. *)
Definition cleared_by_delete (i : Z) (u : string) (fs : list folder)
    (t : thought) : thought :=
  if decide (files_under i u t
             ∨ (t_folder t = Some i ∧ Exists (owns_folder i u) fs))
  then with_folder None t else t.

(** Thought of [u] without a folder. *)
Definition unfiled (u : string) (t : thought) : Prop :=
  t_user_id t = u ∧ t_folder t = None.

#[global] Instance unfiled_dec u t : Decision (unfiled u t).
Proof. unfold unfiled. apply _. Defined.

(** The constraints of [db-setup.sql], as a predicate on stores: primary
    keys, UNIQUE(user_id, name), the four foreign keys, and ids that were
    drawn from their sequence. *)
Record consistent (st : store) : Prop := mkConsistent {
  users_pk : NoDup (u_id <$> users st);
  folders_pk : NoDup (f_id <$> folders st);
  thoughts_pk : NoDup (t_id <$> thoughts st);
  updates_pk : NoDup (tu_id <$> thought_updates st);
  folders_unique : NoDup ((λ f, (f_user_id f, f_name f)) <$> folders st);
  folders_user_fk : ∀ f, f ∈ folders st → f_user_id f ∈ u_id <$> users st;
  thoughts_user_fk : ∀ t, t ∈ thoughts st → t_user_id t ∈ u_id <$> users st;
  thoughts_folder_fk :
    ∀ t, t ∈ thoughts st → t_folder t = None ∨ t_folder t ∈ folder_keys st;
  updates_thought_fk :
    ∀ tu, tu ∈ thought_updates st → tu_thought_id tu ∈ t_id <$> thoughts st;
  folders_drawn : ∀ f, f ∈ folders st → f_id f ≤ folders_id_seq st;
  thoughts_drawn : ∀ t, t ∈ thoughts st → t_id t ≤ thoughts_id_seq st
}.

(** [sep] occurs somewhere in [s]. *)
Fixpoint occurs (sep s : string) : bool :=
  match s with
  | EmptyString => String.prefix sep EmptyString
  | String c s' => String.prefix sep s || occurs sep s'
  end.

(** Row of somebody else than [u]. *)
Definition foreign_thought (u : string) (t : thought) : Prop :=
  t_user_id t ≠ u.
Definition foreign_folder (u : string) (f : folder) : Prop :=
  f_user_id f ≠ u.
Definition foreign_user (u : string) (x : user) : Prop := u_id x ≠ u.

#[global] Instance foreign_thought_dec u t : Decision (foreign_thought u t).
Proof. unfold foreign_thought. apply _. Defined.
#[global] Instance foreign_folder_dec u f : Decision (foreign_folder u f).
Proof. unfold foreign_folder. apply _. Defined.
#[global] Instance foreign_user_dec u x : Decision (foreign_user u x).
Proof. unfold foreign_user. apply _. Defined.

(** The statement [e] carries the verified owner id [u] among its
    parameters. *)
Definition scoped_to (u : string) (e : event) : Prop :=
  match e with
  | EQuery _ params => JStr u ∈ params
  | EVerify _ => False
  end.

(** Thought [t'] is thought [t], or [t] with its reference to a folder
    of owner [u] cleared. *)
Definition same_or_unfiled (u : string) (fs : list folder) (t t' : thought)
    : Prop :=
  t' = t
  ∨ (t' = with_folder None t
     ∧ ∃ f, f ∈ fs ∧ f_user_id f = u ∧ t_folder t = Some (f_id f)).

(** ** Properties *)

(** A lemma depends on the collaborators its statement mentions, and on
    no other. *)
#[local] Set Default Proof Using "Type*".

(** Keeps the propositional solvers from picking up a collaborator the
    goal does not mention. *)
Ltac tidy :=
  try clear verifyIdToken; try clear int4in; try clear clock;
  try clear timestamp_json.

(** *** The monad, step by step *)

Lemma run_bind {A B : Type} (m : M A) (f : A → M B) (w : world) :
  (m ≫= f) w = match m w with
               | (Some a, w') => f a w'
               | (None, w') => (None, w')
               end.
Proof. reflexivity. Qed.

Lemma run_query {A : Type} sql params (run : store → option A * store) w :
  query sql params run w =
  (fst (run (db w)),
   mkWorld (snd (run (db w))) (log w ++ [EQuery sql params]) (ticks w)).
Proof. unfold query. by destruct (run (db w)). Qed.

Lemma run_ret {A : Type} (a : A) (w : world) :
  (mret a : M A) w = (Some a, w).
Proof. reflexivity. Qed.

Lemma run_date_now (w : world) :
  date_now w = (Some (clock (ticks w)), mkWorld (db w) (log w) (S (ticks w))).
Proof. reflexivity. Qed.

(** Runs a handler body up to the next case distinction. *)
Ltac run_steps :=
  unfold try_catch, internal_error, send;
  repeat first
    [ rewrite run_bind | rewrite run_query | rewrite run_ret
    | rewrite run_date_now | progress cbn beta iota
    | progress cbn [fst snd db log ticks negb orb andb] ].

(** *** Facts about tables *)

Lemma filter_none {A : Type} (P : A → Prop) `{∀ x, Decision (P x)}
    (l : list A) :
  (∀ x, x ∈ l → ¬ P x) → filter P l = [].
Proof.
  induction l as [|a l IH]; intros HP; [done|].
  rewrite filter_cons_False by (apply HP; left).
  apply IH. intros x Hx. apply HP. by right.
Qed.

Lemma filter_all {A : Type} (P : A → Prop) `{∀ x, Decision (P x)}
    (l : list A) :
  (∀ x, x ∈ l → P x) → filter P l = l.
Proof.
  induction l as [|a l IH]; intros HP; [done|].
  rewrite filter_cons_True by (apply HP; left).
  f_equal. apply IH. intros x Hx. apply HP. by right.
Qed.

Lemma fmap_unchanged {A : Type} (f : A → A) (l : list A) :
  (∀ x, x ∈ l → f x = x) → f <$> l = l.
Proof.
  induction l as [|a l IH]; intros Hf; [done|].
  rewrite fmap_cons, Hf by left. f_equal. apply IH.
  intros x Hx. apply Hf. by right.
Qed.

Lemma Forall2_unchanged {A : Type} (R : A → A → Prop) (l l' : list A) :
  Forall2 R l l' → (∀ x y, x ∈ l → R x y → y = x) → l' = l.
Proof.
  induction 1 as [|x y l l' HR _ IH]; intros Heq; [done|].
  rewrite (Heq x y) by (done || left). f_equal. apply IH.
  intros x' y' Hin. apply Heq. by right.
Qed.

Lemma Forall2_elem_of_r {A : Type} (R : A → A → Prop) (l l' : list A) y :
  Forall2 R l l' → y ∈ l' → ∃ x, x ∈ l ∧ R x y.
Proof.
  induction 1 as [|x y' l l' HR _ IH]; intros Hin.
  - by apply elem_of_nil in Hin.
  - apply elem_of_cons in Hin as [->|Hin].
    + exists x. split; [left | done].
    + destruct (IH Hin) as (x0 & Hx0 & HR0). exists x0. split; [by right|done].
Qed.

Lemma store_eta (st : store) :
  mkStore (users st) (folders st) (thoughts st) (thought_updates st)
          (folders_id_seq st) (thoughts_id_seq st) = st.
Proof. by destruct st. Qed.

(** *** Facts about text *)

(** A text of at most [n] bytes has at most [n] characters and is stored
    as it is. *)
Lemma varchar_fits (n : nat) (s : string) :
  (String.length s ≤ n)%nat → varchar n s = Some s.
Proof.
  revert n. induction s as [|c s IH]; intros n Hlen; [done|].
  cbn [varchar]. cbn [String.length] in Hlen. destruct (continuation c).
  - rewrite IH by lia. done.
  - destruct n as [|k]; [lia|]. rewrite IH by lia. done.
Qed.

Lemma pg_varchar_plain (n : nat) (s : string) :
  has_nul s = false → (String.length s ≤ n)%nat →
  pg_varchar n (JStr s) = Some (Some s).
Proof.
  intros Hnul Hlen. unfold pg_varchar, pg_text. cbn [prepareValue].
  rewrite Hnul. cbn [fmap option_fmap option_map]. by rewrite varchar_fits.
Qed.

(** *** The authentication middleware *)

Lemma app_guarded (req : request) (m : M response) :
  app req = Some m → ∃ h, m = guarded h req.
Proof.
  unfold app. destruct (find _ _) as [[[mth pth] h]|]; [|done].
  intros [= <-]. by exists h.
Qed.

Lemma world_eta (w : world) : mkWorld (db w) (log w) (ticks w) = w.
Proof. by destruct w. Qed.

Lemma guarded_lacks_bearer (h : handler) (req : request) (w : world) :
  lacks_bearer req → guarded h req w = (Some unauthorized, w).
Proof.
  unfold lacks_bearer, header_lacks_bearer, guarded, authenticateUser.
  destruct (r_authorization req) as [hdr|]; [|done].
  intros ->. by rewrite orb_true_r.
Qed.

Lemma guarded_verifier_rejects (h : handler) (req : request) (w : world) :
  verifier_rejects req →
  ∃ tok, guarded h req w = (Some unauthorized, emit (EVerify tok) w).
Proof.
  unfold verifier_rejects, header_rejected, guarded, authenticateUser.
  destruct (r_authorization req) as [hdr|]; [|done].
  intros [Hp Hrej].
  assert (truthy (JStr hdr) = true) as Ht.
  { destruct hdr; [discriminate Hp | done]. }
  rewrite Ht, Hp. simpl. exists (bearer_token hdr).
  rewrite run_bind. unfold try_catch. rewrite run_bind.
  fold (bearer_token hdr). unfold verify.
  destruct (bearer_token hdr) as [| | | |s|]; try done.
  by rewrite Hrej.
Qed.

(** C1, as amended.  An inbound request whose authorization header is
    absent or lacks the 'Bearer ' prefix, or whose token the verifier
    rejects, never gets to the store: no statement is sent and the store
    is left as it was.  When it reaches the routes it is answered 401
    Unauthorized, and the only call that may have been made is the one to
    the verifier, and not even that one when the prefix is missing.  When
    the middleware in front of the routes answers it (204 for an OPTIONS
    request, the status of the parser's error for a body [express.json()]
    does not accept) the credential is not looked at and no call is made
    at all. *)
Theorem unauthorized_without_store_access
    (i : inbound) (m : M response) (w : world) :
  listener i = Some m →
  header_lacks_bearer (i_authorization i)
  ∨ header_rejected (i_authorization i) →
  fst (m w) = Some (refusal i) ∧
  ∃ calls,
    snd (m w) = mkWorld (db w) (log w ++ calls) (ticks w) ∧
    Forall (λ e, is_query e = false) calls ∧
    (header_lacks_bearer (i_authorization i) ∨ ¬ reaches_routes i →
     calls = []).
Proof.
  destruct i as [pth a|mth pth a code|req]; cbn [listener refusal].
  - intros [= <-] _. split; [done|]. exists [].
    by rewrite app_nil_r, world_eta.
  - intros [= <-] _. split; [done|]. exists [].
    by rewrite app_nil_r, world_eta.
  - cbn [i_authorization reaches_routes].
    intros [h ->]%app_guarded [Hl | Hr].
    + rewrite (guarded_lacks_bearer h req w Hl). split; [done|].
      exists []. rewrite app_nil_r, world_eta. done.
    + destruct (guarded_verifier_rejects h req w Hr) as [tok ->].
      split; [done|]. exists [EVerify tok]. split; [done|].
      split; [by repeat constructor|].
      intros [Hl|Hn]; [|by destruct Hn].
      unfold header_lacks_bearer, header_rejected in *.
      destruct (r_authorization req); [|done].
      destruct Hr as [Hp _]. congruence.
Qed.

(** *** The route table *)

(** C8, as amended.  The eight operations are registered under the /api
    prefix: the four thought operations at /api/thoughts and the four
    folder operations at /api/folders, with the methods of the interface
    table, each behind the authentication middleware; nothing is
    registered at /thoughts or /folders. *)
Theorem routes_under_api_prefix :
  fst <$> routes = (λ mp, (fst mp, "/api" +:+ snd mp)) <$> spec_interface ∧
  ∀ (a : option string) (b : gmap string jsval),
    let on m p := app (mkRequest m p a b) in
    let to h m p := Some (guarded h (mkRequest m p a b)) in
    on GET "/api/thoughts" = to get_thoughts GET "/api/thoughts" ∧
    on POST "/api/thoughts" = to post_thoughts POST "/api/thoughts" ∧
    on PUT "/api/thoughts" = to put_thoughts PUT "/api/thoughts" ∧
    on DELETE "/api/thoughts" = to delete_thoughts DELETE "/api/thoughts" ∧
    on GET "/api/folders" = to get_folders GET "/api/folders" ∧
    on POST "/api/folders" = to post_folders POST "/api/folders" ∧
    on PUT "/api/folders" = to put_folders PUT "/api/folders" ∧
    on DELETE "/api/folders" = to delete_folders DELETE "/api/folders" ∧
    ∀ m, on m "/thoughts" = None ∧ on m "/folders" = None.
Proof.
  split; [reflexivity|]. intros a b. cbv zeta.
  repeat (split; [reflexivity|]). by intros [].
Qed.

(** *** Thought creation *)

Lemma append_snoc (a : string) (c : ascii) (r : string) :
  (a +:+ String c "") +:+ r = a +:+ String c r.
Proof.
  induction a as [|x a IH]; [done|].
  change (String x ((a +:+ String c "") +:+ r) = String x (a +:+ String c r)).
  by rewrite IH.
Qed.

Lemma append_empty_r (a : string) : a +:+ "" = a.
Proof.
  induction a as [|x a IH]; [done|].
  change (String x (a +:+ "") = String x a). by rewrite IH.
Qed.

Lemma split_at_head (s cur : string) :
  head (split_go "@" s O cur) = Some (cur +:+ local_part s).
Proof.
  revert cur. induction s as [|c s IH]; intros cur.
  - simpl. by rewrite append_empty_r.
  - cbn [split_go local_part String.prefix].
    destruct (ascii_dec "@" c) as [<- | Hne].
    + assert (String.prefix "" s = true) as -> by (by destruct s).
      simpl. by rewrite append_empty_r.
    + assert (Ascii.eqb c "@" = false) as ->.
      { apply Ascii.eqb_neq. congruence. }
      rewrite IH. by rewrite append_snoc.
Qed.

(** [userEmail.split('@')[0]] is the local part, and the username the
    handler computes is the display name. *)
Lemma user_name_display_name (user : decoded_token) :
  user_name (email_or_null user) = display_name user.
Proof.
  unfold user_name, email_or_null, display_name.
  destruct (email user) as [[|c e]|]; try done.
  cbn [truthy String.eqb negb]. unfold js_split.
  pose proof (split_at_head (String c e) "") as H.
  destruct (split_go "@" (String c e) 0 "") as [|x l]; [done|].
  by injection H as ->.
Qed.

Lemma no_user_row (id : string) (l : list user) :
  (length (filter (λ u, u_id u = id) l) =? 0)%nat
  = bool_decide (id ∉ u_id <$> l).
Proof.
  induction l as [|u l IH]; [done|].
  rewrite filter_cons, fmap_cons. destruct (decide (u_id u = id)) as [<-|Hne].
  - simpl. symmetry. apply bool_decide_eq_false. intros Hnot. apply Hnot. left.
  - rewrite IH. apply bool_decide_ext. rewrite !not_elem_of_cons.
    split; [intros ?; split; [congruence | done] | (tidy; tauto)].
Qed.

Lemma insert_user_new id username email password_hash created_at st :
  id ∉ u_id <$> users st →
  insert_user id username email password_hash created_at st =
  (Some [],
   set_users
     (users st ++ [mkUser id username email password_hash
                          (Some (timestamp_json created_at))])
     st).
Proof. intros Hnew. unfold insert_user. by rewrite decide_False. Qed.

Lemma insert_thought_frame user_id text section folder ts st :
  let st' := snd (insert_thought user_id text section folder ts st) in
  users st' = users st ∧ folders st' = folders st ∧
  thought_updates st' = thought_updates st ∧
  folders_id_seq st' = folders_id_seq st ∧
  match fst (insert_thought user_id text section folder ts st) with
  | Some rows => ∃ row, rows = [row] ∧ thoughts st' = thoughts st ++ [row]
  | None => thoughts st' = thoughts st
  end.
Proof.
  unfold insert_thought.
  destruct (pg_text text) as [[tx|]|], (pg_varchar 50 section) as [[se|]|],
    (pg_int folder) as [fo|]; try done.
  repeat case_decide; simpl; eauto 10.
Qed.

Ltac frame_insert_thought :=
  match goal with
  | |- context [snd (insert_thought ?u ?t ?s ?f ?ts ?st)] =>
      let H := fresh "Hframe" in
      pose proof (insert_thought_frame u t s f ts st) as H;
      cbv zeta in H; destruct H as (-> & ? & ? & ? & ?)
  end.

Lemma pg_text_null (v : jsval) : prepareValue v = None → pg_text v = Some None.
Proof. unfold pg_text. by intros ->. Qed.

Lemma pg_varchar_null (n : nat) (v : jsval) :
  prepareValue v = None → pg_varchar n v = Some None.
Proof. intros H. unfold pg_varchar. by rewrite (pg_text_null _ H). Qed.

(** A missing text or section violates NOT NULL. *)
Lemma insert_thought_not_null user_id text section folder ts st :
  prepareValue text = None ∨ prepareValue section = None →
  fst (insert_thought user_id text section folder ts st) = None.
Proof.
  unfold insert_thought. intros [H | H].
  - rewrite (pg_text_null _ H).
    by destruct (pg_varchar 50 section) as [[?|]|], (pg_int folder).
  - rewrite (pg_varchar_null _ _ H).
    by destruct (pg_text text) as [[?|]|], (pg_int folder).
Qed.

Lemma post_thoughts_run (user : decoded_token) (b : gmap string jsval)
    (w : world) :
  let k := ticks w in
  let seen := bool_decide (uid user ∈ u_id <$> users (db w)) in
  let st1 := if seen then db w
             else set_users (users (db w) ++ [provisioned user (clock k)])
                            (db w) in
  let ins := insert_thought (uid user) (field b "text") (field b "section")
                            (or_null (field b "folder")) (clock (S k)) st1 in
  post_thoughts user b w =
  (Some (match fst ins with
         | Some rows => mkResponse 201 (BThought (head rows))
         | None => mkResponse 500 (BError "Internal Server Error")
         end),
   mkWorld (snd ins)
           (log w ++ [select_user_call user]
                  ++ (if seen then [] else [insert_user_call user k])
                  ++ [insert_thought_call user b k])
           (S (S k))).
Proof.
  intros k seen st1 ins. unfold post_thoughts. run_steps.
  cbn [select_user fst snd]. rewrite no_user_row.
  subst seen st1 ins k. unfold provisioned.
  rewrite <- user_name_display_name.
  unfold select_user_call, insert_user_call, insert_thought_call,
    SELECT_USER, INSERT_USER, INSERT_THOUGHT.
  rewrite <- user_name_display_name.
  destruct (decide (uid user ∈ u_id <$> users (db w))) as [Hin|Hnin].
  - rewrite (bool_decide_eq_false_2 (uid user ∉ _)) by (tidy; tauto).
    rewrite (bool_decide_eq_true_2 _ Hin). run_steps.
    rewrite <- !app_assoc.
    by destruct (insert_thought _ _ _ _ _ _) as [[rows|] st']; run_steps.
  - rewrite (bool_decide_eq_true_2 (uid user ∉ _)) by done.
    rewrite (bool_decide_eq_false_2 _ Hnin). run_steps.
    rewrite !insert_user_new by done. run_steps.
    rewrite <- !app_assoc.
    by destruct (insert_thought _ _ _ _ _ _) as [[rows|] st']; run_steps.
Qed.

(** C3.  Thought creation sends, in this order, the lookup of the users
    row of the verified identity, the insert of a users row (display name:
    the local part of the email, "anonymous" without one) exactly when the
    lookup found none, and then the insert of the thought.  So the first
    creation of an unseen identity adds exactly one users row, and a
    creation that follows adds none. *)
Theorem thought_creation_provisions_user_once
    (user : decoded_token) (b b2 : gmap string jsval) (w : world) :
  let seen := bool_decide (uid user ∈ u_id <$> users (db w)) in
  let w1 := snd (post_thoughts user b w) in
  let w2 := snd (post_thoughts user b2 w1) in
  log w1 = log w ++ [select_user_call user]
                 ++ (if seen then [] else [insert_user_call user (ticks w)])
                 ++ [insert_thought_call user b (ticks w)] ∧
  users (db w1) = users (db w)
                  ++ (if seen then [] else [provisioned user (clock (ticks w))]) ∧
  log w2 = log w1 ++ [select_user_call user; insert_thought_call user b2 (ticks w1)] ∧
  users (db w2) = users (db w1).
Proof.
  intros seen w1 w2.
  assert (Hw1 : log w1 = log w ++ [select_user_call user]
                 ++ (if seen then [] else [insert_user_call user (ticks w)])
                 ++ [insert_thought_call user b (ticks w)] ∧
          users (db w1) = users (db w)
                  ++ (if seen then [] else [provisioned user (clock (ticks w))])).
  { subst w1 seen. rewrite post_thoughts_run. cbn [snd log db].
    split; [done|]. frame_insert_thought.
    case_bool_decide; simpl in *; [by rewrite app_nil_r | done]. }
  destruct Hw1 as [Hlog Husers]. split; [done|]. split; [done|].
  assert (Hseen : bool_decide (uid user ∈ u_id <$> users (db w1)) = true).
  { apply bool_decide_eq_true_2. rewrite Husers. subst seen.
    case_bool_decide as Hin.
    - by rewrite app_nil_r.
    - rewrite fmap_app. apply elem_of_app. right. simpl. left. }
  subst w2. rewrite post_thoughts_run. cbn [snd log db]. rewrite Hseen.
  split; [done|]. by frame_insert_thought.
Qed.

(** C10.  Thought creation is not atomic: when the identity has no
    users row and the insert of the thought fails (a missing text or
    section is one way, see [insert_thought_not_null]), the answer is
    500 Internal Server Error, no thought is stored, and the users row
    inserted just before stays. *)
Theorem failed_creation_keeps_user
    (user : decoded_token) (b : gmap string jsval) (w : world) :
  uid user ∉ u_id <$> users (db w) →
  fst (insert_thought (uid user) (field b "text") (field b "section")
         (or_null (field b "folder")) (clock (S (ticks w)))
         (set_users (users (db w) ++ [provisioned user (clock (ticks w))])
                    (db w))) = None →
  let r := fst (post_thoughts user b w) in
  let w' := snd (post_thoughts user b w) in
  r = Some (mkResponse 500 (BError "Internal Server Error")) ∧
  users (db w') = users (db w) ++ [provisioned user (clock (ticks w))] ∧
  thoughts (db w') = thoughts (db w).
Proof.
  intros Hnew Hfail r w'. subst r w'. rewrite post_thoughts_run.
  rewrite (bool_decide_eq_false_2 _ Hnew). cbn [fst snd db].
  rewrite Hfail. split; [done|].
  pose proof (insert_thought_frame (uid user) (field b "text")
                (field b "section") (or_null (field b "folder"))
                (clock (S (ticks w)))
                (set_users (users (db w) ++ [provisioned user (clock (ticks w))])
                           (db w))) as Hframe.
  cbv zeta in Hframe. rewrite Hfail in Hframe.
  destruct Hframe as (-> & _ & _ & _ & ->). done.
Qed.

(** *** Thought update *)

Lemma truthy_pg_int_not_null (v : jsval) : truthy v = true → pg_int v ≠ Some None.
Proof.
  destruct v as [| | |n|s|]; simpl; try done.
  - case_decide; done.
  - by destruct (has_nul s), (int4in s).
Qed.

Lemma Forall2_fmap_diag {A : Type} (R : A → A → Prop) (f : A → A)
    (l : list A) :
  (∀ x, R x (f x)) → Forall2 R l (f <$> l).
Proof. intros H. induction l; constructor; auto. Qed.

Lemma update_thought_row_coalesces tx se fo t :
  coalescing_update tx se fo t (update_thought_row tx se fo t).
Proof.
  unfold coalescing_update, update_thought_row. simpl.
  by destruct tx, se, fo.
Qed.

Lemma update_thought_run text section folder id user_id st :
  update_thought text section folder id user_id st =
  match pg_text text, pg_varchar 50 section, pg_int folder, pg_int id with
  | Some tx, Some se, Some fo, Some oi =>
      let i := default 0 oi in
      let mine t := oi ≠ None ∧ owns_thought i user_id t in
      let upd := update_thought_row tx se fo in
      if decide (oi ≠ None ∧ folder_key_broken fo i user_id st) then (None, st)
      else (Some (upd <$> filter mine (thoughts st)),
            set_thoughts
              ((λ t, if decide (mine t) then upd t else t) <$> thoughts st) st)
  | _, _, _, _ => (None, st)
  end.
Proof.
  unfold update_thought.
  destruct (pg_text text) as [tx|], (pg_varchar 50 section) as [se|],
    (pg_int folder) as [fo|], (pg_int id) as [oi|]; try done.
  assert (Hhit : ∀ t, (oi = Some (t_id t) ∧ t_user_id t = user_id)
                      ↔ (oi ≠ None ∧ owns_thought (default 0 oi) user_id t)).
  { intros t. unfold owns_thought. destruct oi as [i|]; simpl;
      (tidy; intuition congruence). }
  cbv zeta.
  assert (Hfilter : filter (λ t, oi = Some (t_id t) ∧ t_user_id t = user_id)
                           (thoughts st)
                    = filter (λ t, oi ≠ None ∧ owns_thought (default 0 oi) user_id t)
                             (thoughts st)).
  { apply list_filter_iff. intros t. apply Hhit. }
  rewrite Hfilter.
  assert (Hmap : (λ t, if decide (oi = Some (t_id t) ∧ t_user_id t = user_id)
                       then update_thought_row tx se fo t
                       else t) <$> thoughts st
                 = (λ t, if decide (oi ≠ None ∧ owns_thought (default 0 oi) user_id t)
                         then update_thought_row tx se fo t
                         else t) <$> thoughts st).
  { apply list_fmap_ext. intros _ t _. apply decide_ext, Hhit. }
  rewrite Hmap.
  apply decide_ext. unfold folder_key_broken.
  rewrite !Exists_exists. setoid_rewrite list_elem_of_filter.
  split.
  - intros (Hfo & Hkey & t & [[Hoi Hown] Hin] & Hch). eauto 10.
  - intros (Hoi & Hfo & Hkey & t & Hin & Hown & Hch). eauto 10.
Qed.

Lemma put_thoughts_run (user : decoded_token) (b : gmap string jsval)
    (w : world) :
  put_thoughts user b w =
  if truthy (field b "id") then
    let res := update_thought (field b "text") (field b "section")
                 (field b "folder") (field b "id") (uid user) (db w) in
    (Some match fst res with
          | Some [] => mkResponse 404 (BError "Thought not found or unauthorized")
          | Some (t :: _) => mkResponse 200 (BThought (Some t))
          | None => internal_error_response
          end,
     mkWorld (snd res)
       (log w ++ [EQuery UPDATE_THOUGHT
                    [field b "text"; field b "section"; field b "folder";
                     field b "id"; JStr (uid user)]])
       (ticks w))
  else (Some (mkResponse 400 (BError "Missing thought ID")), w).
Proof.
  unfold put_thoughts. destruct (truthy (field b "id")); run_steps; [|done].
  destruct (update_thought _ _ _ _ _ _) as [[[|t rows]|] st']; by run_steps.
Qed.

Lemma set_thoughts_same_but l st : same_but_thoughts st (set_thoughts l st).
Proof. by repeat split. Qed.

Lemma same_but_thoughts_refl st : same_but_thoughts st st.
Proof. by repeat split. Qed.

(** C4, as amended.  A thought update whose id is missing or falsy in
    another way (null, 0, the empty string, false: the handler's [!id]) is
    answered 400 and sends nothing to the store.  Otherwise exactly one
    statement is sent, the coalescing UPDATE scoped to the id and the
    verified owner.  When the store takes its parameters (id and folder
    integers, no NUL character in text or section, a section that fits
    VARCHAR(50)) and the folder key holds, every row in scope gets text,
    section and folder replaced if supplied (null counts as not supplied)
    and kept otherwise, every other row is untouched, and the answer is 200
    with an updated row, or 404 when no row is in scope (and then nothing
    changed).  When the store rejects the statement the answer is 500 and
    nothing changed.  In particular an update that supplies neither text
    nor folder leaves text and folder of every row as they were. *)
Theorem thought_update_coalesces
    (user : decoded_token) (b : gmap string jsval) (w : world) :
  let id := field b "id" in
  let text := field b "text" in
  let section := field b "section" in
  let folder := field b "folder" in
  let r := fst (put_thoughts user b w) in
  let w' := snd (put_thoughts user b w) in
  if truthy id then
    log w' = log w ++ [EQuery UPDATE_THOUGHT
                         [text; section; folder; id; JStr (uid user)]] ∧
    same_but_thoughts (db w) (db w') ∧
    match pg_int id, pg_int folder, pg_text text, pg_varchar 50 section with
    | Some (Some i), Some fo, Some tx, Some se =>
        if decide (folder_key_broken fo i (uid user) (db w))
        then r = Some internal_error_response ∧ db w' = db w
        else
          Forall2 (λ t t', if decide (owns_thought i (uid user) t)
                           then coalescing_update tx se fo t t'
                           else t' = t)
                  (thoughts (db w)) (thoughts (db w')) ∧
          if decide (Exists (owns_thought i (uid user)) (thoughts (db w)))
          then ∃ t', r = Some (mkResponse 200 (BThought (Some t'))) ∧
                     t' ∈ thoughts (db w') ∧ owns_thought i (uid user) t'
          else r = Some (mkResponse 404
                           (BError "Thought not found or unauthorized")) ∧
               db w' = db w
    | _, _, _, _ => r = Some internal_error_response ∧ db w' = db w
    end ∧
    (prepareValue text = None → pg_int folder = Some None →
     Forall2 (λ t t', t_text t' = t_text t ∧ t_folder t' = t_folder t)
             (thoughts (db w)) (thoughts (db w')))
  else r = Some (mkResponse 400 (BError "Missing thought ID")) ∧ w' = w.
Proof.
  intros id text section folder r w'. subst r w'.
  rewrite put_thoughts_run. fold id text section folder.
  destruct (truthy id) eqn:Hid; [|done]. cbn [fst snd log db].
  split; [done|].
  pose proof (truthy_pg_int_not_null id Hid) as Hnn.
  rewrite update_thought_run. fold id text section folder.
  destruct (pg_int id) as [[i|]|], (pg_int folder) as [fo|],
    (pg_text text) as [tx|] eqn:Htx, (pg_varchar 50 section) as [se|];
    try done;
    try (split; [apply same_but_thoughts_refl|]; split; [by split|];
         intros _ _; by apply Forall_Forall2_diag, Forall_forall).
  change (default 0 (Some i)) with i. cbv zeta.
  set (mine := λ t, Some i ≠ None ∧ owns_thought i (uid user) t).
  set (upd := update_thought_row tx se fo).
  assert (Hmine : ∀ t, mine t ↔ owns_thought i (uid user) t).
  { intros t. unfold mine. (tidy; intuition congruence). }
  destruct (decide (Some i ≠ None ∧ folder_key_broken fo i (uid user) (db w)))
    as [[_ Hbr]|Hok].
  { rewrite !decide_True by done. cbn [fst snd].
    split; [apply same_but_thoughts_refl|]. split; [by split|].
    intros _ _. by apply Forall_Forall2_diag, Forall_forall. }
  assert (Hnb : ¬ folder_key_broken fo i (uid user) (db w)).
  { intros ?. by apply Hok. }
  rewrite !decide_False by done.
  cbn [fst snd]. split; [apply set_thoughts_same_but|].
  cbn [thoughts set_thoughts].
  assert (Hrows : Forall2 (λ t t', if decide (owns_thought i (uid user) t)
                           then coalescing_update tx se fo t t'
                           else t' = t)
                  (thoughts (db w))
                  ((λ t, if decide (mine t) then upd t else t) <$> thoughts (db w))).
  { apply Forall2_fmap_diag. intros t.
    rewrite (decide_ext (mine t) (owns_thought i (uid user) t)) by apply Hmine.
    case_decide; [apply update_thought_row_coalesces | done]. }
  split; [split; [done|]|].
  - destruct (decide (Exists (owns_thought i (uid user)) (thoughts (db w))))
      as [Hex|Hnex].
    + apply Exists_exists in Hex as (t0 & Hin0 & Hown0).
      destruct (filter mine (thoughts (db w))) as [|t rest] eqn:Hf.
      { exfalso. eapply (filter_nil_not_elem_of mine); [exact Hf| |exact Hin0].
        by apply Hmine. }
      assert (Ht : t ∈ filter mine (thoughts (db w))) by (rewrite Hf; left).
      apply list_elem_of_filter in Ht as [Htm Htin].
      exists (upd t). cbn [fmap list_fmap]. split; [done|]. split.
      * apply list_elem_of_fmap. exists t. split; [|done].
        by rewrite decide_True.
      * apply Hmine in Htm. destruct Htm as [Hi Hu].
        unfold owns_thought, upd, update_thought_row. done.
    + assert (Hnone : ∀ t, t ∈ thoughts (db w) → ¬ mine t).
      { intros t Hin [_ Hm]. apply Hnex, Exists_exists. by exists t. }
      assert (filter mine (thoughts (db w)) = []) as ->.
      { by apply filter_none. }
      cbn [fmap list_fmap]. split; [done|].
      rewrite fmap_unchanged; [apply store_eta|].
      intros t Hin. rewrite decide_False; [done|]. by apply Hnone.
  - intros Hpv Hfo. injection Hfo as ->.
    rewrite (pg_text_null _ Hpv) in Htx. injection Htx as <-.
    eapply Forall2_impl; [exact Hrows|]. intros t t'. simpl.
    case_decide; [|by intros ->].
    unfold coalescing_update. simpl.
    by intros (_ & _ & _ & Ht & _ & Hf).
Qed.

(** *** The other handlers, run *)

Lemma truthy_prepared (v : jsval) : truthy v = true → is_Some (prepareValue v).
Proof. destruct v as [| |[]| | |]; simpl; by eauto. Qed.

(** A truthy value is never sent as NULL. *)
Lemma truthy_pg_text (v : jsval) : truthy v = true → pg_text v ≠ Some None.
Proof.
  intros [s Hs]%truthy_prepared. unfold pg_text. rewrite Hs.
  by destruct (has_nul s).
Qed.

Lemma truthy_pg_varchar (n : nat) (v : jsval) :
  truthy v = true → pg_varchar n v ≠ Some None.
Proof.
  intros Hv. pose proof (truthy_pg_text v Hv) as Hnn. unfold pg_varchar.
  destruct (pg_text v) as [[s|]|]; [|done..]. by destruct (varchar n s).
Qed.

Lemma get_thoughts_run (user : decoded_token) (b : gmap string jsval)
    (w : world) :
  get_thoughts user b w =
  (Some (mkResponse 200
           (BThoughts (filter (λ t, t_user_id t = uid user) (thoughts (db w))))),
   emit (EQuery "SELECT * FROM thoughts WHERE user_id = $1" [JStr (uid user)]) w).
Proof. unfold get_thoughts. by run_steps. Qed.

Lemma get_folders_run (user : decoded_token) (b : gmap string jsval)
    (w : world) :
  get_folders user b w =
  (Some (mkResponse 200
           (BFolders (filter (λ f, f_user_id f = uid user) (folders (db w))))),
   emit (EQuery "SELECT * FROM folders WHERE user_id = $1" [JStr (uid user)]) w).
Proof. unfold get_folders. by run_steps. Qed.

Lemma delete_thoughts_run (user : decoded_token) (b : gmap string jsval)
    (w : world) :
  delete_thoughts user b w =
  if truthy (field b "id") then
    let res := delete_thought (field b "id") (uid user) (db w) in
    (Some match fst res with
          | Some [] => not_found "Thought"
          | Some (_ :: _) => mkResponse 200 BDeleted
          | None => internal_error_response
          end,
     mkWorld (snd res)
       (log w ++ [EQuery DELETE_THOUGHT [field b "id"; JStr (uid user)]])
       (ticks w))
  else (Some (mkResponse 400 (BError "Missing thought ID")), w).
Proof.
  unfold delete_thoughts. destruct (truthy (field b "id")); run_steps; [|done].
  destruct (delete_thought _ _ _) as [[[|t rows]|] st']; by run_steps.
Qed.

Lemma post_folders_run (user : decoded_token) (b : gmap string jsval)
    (w : world) :
  post_folders user b w =
  if truthy (field b "name") then
    let res := insert_folder (uid user) (field b "name") (clock (ticks w))
                             (db w) in
    (Some match fst res with
          | Some rows => mkResponse 201 (BFolder (head rows))
          | None => internal_error_response
          end,
     mkWorld (snd res)
       (log w ++ [EQuery INSERT_FOLDER
                    [JStr (uid user); field b "name"; JStr (clock (ticks w))]])
       (S (ticks w)))
  else (Some (mkResponse 400 (BError "Folder name is required")), w).
Proof.
  unfold post_folders. destruct (truthy (field b "name")); run_steps; [|done].
  destruct (insert_folder _ _ _ _) as [[rows|] st']; by run_steps.
Qed.

Lemma put_folders_run (user : decoded_token) (b : gmap string jsval)
    (w : world) :
  put_folders user b w =
  if truthy (field b "id") && truthy (field b "name") then
    let res := update_folder (field b "name") (field b "id") (uid user)
                             (db w) in
    (Some match fst res with
          | Some [] => not_found "Folder"
          | Some (f :: _) => mkResponse 200 (BFolder (Some f))
          | None => internal_error_response
          end,
     mkWorld (snd res)
       (log w ++ [EQuery UPDATE_FOLDER
                    [field b "name"; field b "id"; JStr (uid user)]])
       (ticks w))
  else (Some (mkResponse 400 (BError "Folder ID and name are required")), w).
Proof.
  unfold put_folders.
  destruct (truthy (field b "id")), (truthy (field b "name"));
    run_steps; try done.
  destruct (update_folder _ _ _ _) as [[[|f rows]|] st']; by run_steps.
Qed.

Lemma delete_folders_run (user : decoded_token) (b : gmap string jsval)
    (w : world) :
  delete_folders user b w =
  if truthy (field b "id") then
    let detach := EQuery DETACH_FOLDER [field b "id"; JStr (uid user)] in
    let delete := EQuery DELETE_FOLDER [field b "id"; JStr (uid user)] in
    match fst (detach_folder (field b "id") (uid user) (db w)) with
    | Some _ =>
        let st1 := snd (detach_folder (field b "id") (uid user) (db w)) in
        let res := delete_folder (field b "id") (uid user) st1 in
        (Some match fst res with
              | Some [] => not_found "Folder"
              | Some (_ :: _) => mkResponse 200 BDeleted
              | None => internal_error_response
              end,
         mkWorld (snd res) (log w ++ [detach; delete]) (ticks w))
    | None =>
        (Some internal_error_response,
         mkWorld (snd (detach_folder (field b "id") (uid user) (db w)))
                 (log w ++ [detach]) (ticks w))
    end
  else (Some (mkResponse 400 (BError "Folder ID is required")), w).
Proof.
  unfold delete_folders. destruct (truthy (field b "id")); run_steps; [|done].
  destruct (detach_folder _ _ _) as [[rows0|] st1]; run_steps; [|done].
  rewrite <- app_assoc.
  destruct (delete_folder _ _ _) as [[[|f rows]|] st']; by run_steps.
Qed.

(** *** The statements, in the vocabulary of the properties *)

Lemma delete_thought_run id i u st :
  pg_int id = Some (Some i) →
  delete_thought id u st =
  (Some (filter (owns_thought i u) (thoughts st)),
   set_thought_updates
     (filter (λ tu, tu_thought_id tu
                    ∉ t_id <$> filter (owns_thought i u) (thoughts st))
             (thought_updates st))
     (set_thoughts (filter (λ t, ¬ owns_thought i u t) (thoughts st)) st)).
Proof.
  intros Hid. unfold delete_thought. rewrite Hid. cbv zeta.
  assert (Hhit : ∀ t, (Some i = Some (t_id t) ∧ t_user_id t = u)
                      ↔ owns_thought i u t).
  { intros t. unfold owns_thought. (tidy; intuition congruence). }
  rewrite (list_filter_iff _ (owns_thought i u)) by apply Hhit.
  rewrite (list_filter_iff (λ t, ¬ _) (λ t, ¬ owns_thought i u t)); [done|].
  intros t. by rewrite Hhit.
Qed.

Lemma detach_folder_run id i u st :
  pg_int id = Some (Some i) →
  detach_folder id u st =
  (Some [],
   set_thoughts
     ((λ t, if decide (files_under i u t) then with_folder None t else t)
        <$> thoughts st) st).
Proof.
  intros Hid. unfold detach_folder. rewrite Hid. cbv zeta.
  do 2 f_equal. apply list_fmap_ext. intros _ t _.
  apply decide_ext. unfold files_under. (tidy; intuition congruence).
Qed.

Lemma delete_folder_run id i u st :
  pg_int id = Some (Some i) →
  delete_folder id u st =
  (Some (filter (owns_folder i u) (folders st)),
   set_thoughts
     ((λ t, if decide (t_folder t = Some i
                       ∧ Exists (owns_folder i u) (folders st))
            then with_folder None t else t) <$> thoughts st)
     (set_folders (filter (λ f, ¬ owns_folder i u f) (folders st)) st)).
Proof.
  intros Hid. unfold delete_folder. rewrite Hid. cbv zeta.
  assert (Hhit : ∀ f, (Some i = Some (f_id f) ∧ f_user_id f = u)
                      ↔ owns_folder i u f).
  { intros f. unfold owns_folder. (tidy; intuition congruence). }
  rewrite (list_filter_iff _ (owns_folder i u)) by apply Hhit.
  rewrite (list_filter_iff (λ f, ¬ _) (λ f, ¬ owns_folder i u f))
    by (intros f; by rewrite Hhit).
  do 2 f_equal. apply list_fmap_ext. intros _ t _.
  apply decide_ext. rewrite list_elem_of_fmap, Exists_exists.
  setoid_rewrite list_elem_of_filter. split.
  - intros (f & Hf & [Hi Hu] & Hin). simpl in Hf.
    split; [|by exists f]. rewrite Hf. f_equal. apply Hi.
  - intros (Hf & f & Hin & Hown). exists f. simpl.
    split; [|done]. rewrite Hf. f_equal. symmetry. apply Hown.
Qed.

Lemma update_folder_none name id i u st :
  pg_int id = Some (Some i) → is_Some (pg_varchar 255 name) →
  no_folder_of i u st →
  update_folder name id u st = (Some [], st).
Proof.
  intros Hid [on Hn] Hno. unfold update_folder. rewrite Hid, Hn. cbv zeta.
  assert (filter (λ f, Some i = Some (f_id f) ∧ f_user_id f = u) (folders st)
          = []) as Hnil.
  { apply filter_none. intros f Hin [Hi Hu]. apply (Hno f Hin).
    split; [congruence | done]. }
  rewrite Hnil. destruct on as [n|]; [|by rewrite decide_True].
  rewrite decide_False by (by intros [? _]).
  cbn [fmap list_fmap]. f_equal.
  unfold set_folders. rewrite fmap_unchanged; [apply store_eta|].
  intros f Hin. rewrite decide_False; [done|].
  intros [Hi Hu]. apply (Hno f Hin). split; [congruence | done].
Qed.

(** *** Folder deletion *)

Lemma delete_folders_ok (user : decoded_token) (b : gmap string jsval)
    (w : world) (i : Z) :
  truthy (field b "id") = true → pg_int (field b "id") = Some (Some i) →
  delete_folders user b w =
  (Some (if decide (Exists (owns_folder i (uid user)) (folders (db w)))
         then mkResponse 200 BDeleted else not_found "Folder"),
   mkWorld
     (mkStore (users (db w))
        (filter (λ f, ¬ owns_folder i (uid user) f) (folders (db w)))
        (cleared_by_delete i (uid user) (folders (db w)) <$> thoughts (db w))
        (thought_updates (db w)) (folders_id_seq (db w))
        (thoughts_id_seq (db w)))
     (log w ++ [EQuery DETACH_FOLDER [field b "id"; JStr (uid user)];
                EQuery DELETE_FOLDER [field b "id"; JStr (uid user)]])
     (ticks w)).
Proof.
  intros Hid Hi. rewrite delete_folders_run, Hid.
  rewrite (detach_folder_run _ i) by done. cbn [fst snd]. cbv zeta.
  rewrite (delete_folder_run _ i) by done.
  unfold set_thoughts, set_folders.
  cbn [fst snd folders thoughts users thought_updates folders_id_seq
       thoughts_id_seq].
  f_equal.
  - f_equal. destruct (decide (Exists _ _)) as [Hex|Hnex].
    + apply Exists_exists in Hex as (f & Hin & Hown).
      destruct (filter _ _) as [|f' rest] eqn:Hf; [|done].
      exfalso. by eapply (filter_nil_not_elem_of (owns_folder i (uid user))).
    + rewrite filter_none; [done|]. intros f Hin Hown.
      apply Hnex, Exists_exists. by exists f.
  - f_equal. f_equal. rewrite <- ?list_fmap_compose.
    apply list_fmap_ext. intros _ t _. unfold cleared_by_delete, compose.
    destruct (decide (files_under i (uid user) t)) as [Hf|Hnf].
    + rewrite decide_False.
      * by rewrite decide_True by (by left).
      * by intros [? _].
    + apply decide_ext. (tidy; intuition).
Qed.

Lemma cleared_by_delete_cases i u fs t :
  (files_under i u t → cleared_by_delete i u fs t = with_folder None t) ∧
  (t_folder t ≠ Some i → cleared_by_delete i u fs t = t) ∧
  (cleared_by_delete i u fs t = t
   ∨ cleared_by_delete i u fs t = with_folder None t).
Proof.
  unfold cleared_by_delete, files_under.
  tidy. case_decide as Hc; (split; [|split]); auto; intuition.
Qed.

Lemma cleared_by_delete_spec i u fs t :
  (files_under i u t ∧ cleared_by_delete i u fs t = with_folder None t)
  ∨ (¬ files_under i u t ∧ t_folder t = Some i
     ∧ cleared_by_delete i u fs t = with_folder None t)
  ∨ (¬ files_under i u t ∧ cleared_by_delete i u fs t = t).
Proof.
  unfold cleared_by_delete.
  destruct (decide (files_under i u t)) as [Hf|Hnf].
  - left. split; [done|]. by rewrite decide_True by (by left).
  - right. case_decide as Hc; [left|right; done].
    destruct Hc as [?|[? _]]; done.
Qed.

Lemma count_shift {A : Type} (P Q P' : A → Prop)
    `{∀ x, Decision (P x), ∀ x, Decision (Q x), ∀ x, Decision (P' x)}
    (g : A → A) (l : list A) :
  (∀ x, Q x → P' (g x) ∧ ¬ P x) →
  (∀ x, ¬ Q x → (P' (g x) ↔ P x)) →
  length (filter P' (g <$> l))
  = (length (filter P l) + length (filter Q l))%nat.
Proof.
  intros HQ HnQ. induction l as [|x l IH]; [done|].
  rewrite fmap_cons, !filter_cons.
  destruct (decide (Q x)) as [Hq|Hq].
  - destruct (HQ x Hq) as [Hp' Hp].
    rewrite decide_True, decide_False by done. simpl. lia.
  - specialize (HnQ x Hq). destruct (decide (P x)) as [Hp|Hp].
    + rewrite decide_True by (tidy; tauto). simpl. lia.
    + rewrite decide_False by (tidy; tauto). simpl. lia.
Qed.

(** C5.  A folder deletion whose id the store accepts sends two
    statements in this order: the UPDATE that clears the folder reference
    of the owner's thoughts filed under the id, then the DELETE of the
    folders row scoped to the id and the owner.  Afterwards each of the N
    thoughts of the owner that referenced the id has its reference cleared
    (and is otherwise the same row), thoughts that did not reference the id
    are untouched, and a folder list requested next by the owner does not
    contain the id. *)
Theorem folder_deletion_detaches_then_deletes
    (user : decoded_token) (b : gmap string jsval) (w : world) (i : Z) :
  truthy (field b "id") = true →
  pg_int (field b "id") = Some (Some i) →
  let u := uid user in
  let r := fst (delete_folders user b w) in
  let w' := snd (delete_folders user b w) in
  log w' = log w ++ [EQuery DETACH_FOLDER [field b "id"; JStr u];
                     EQuery DELETE_FOLDER [field b "id"; JStr u]] ∧
  Forall2 (λ t t', (files_under i u t → t' = with_folder None t) ∧
                   (t_folder t ≠ Some i → t' = t) ∧
                   (t' = t ∨ t' = with_folder None t))
          (thoughts (db w)) (thoughts (db w')) ∧
  length (filter (unfiled u) (thoughts (db w')))
  = (length (filter (unfiled u) (thoughts (db w)))
     + length (filter (files_under i u) (thoughts (db w))))%nat ∧
  filter (files_under i u) (thoughts (db w')) = [] ∧
  folders (db w') = filter (λ f, ¬ owns_folder i u f) (folders (db w)) ∧
  r = Some (if decide (Exists (owns_folder i u) (folders (db w)))
            then mkResponse 200 BDeleted else not_found "Folder") ∧
  ∃ rows, fst (get_folders user ∅ w') = Some (mkResponse 200 (BFolders rows))
          ∧ i ∉ f_id <$> rows.
Proof.
  intros Hid Hi u r w'. subst r w'.
  rewrite (delete_folders_ok user b w i Hid Hi). fold u.
  cbn [fst snd log db thoughts folders].
  split; [done|]. split.
  { apply Forall2_fmap_diag. intros t. apply cleared_by_delete_cases. }
  split.
  { apply count_shift.
    - intros t [Hu Hfo].
      destruct (cleared_by_delete_spec i u (folders (db w)) t)
        as [[_ ->]|[[Hn _]|[Hn _]]]; [|by destruct Hn..].
      unfold unfiled. simpl. split; [done|]. intros [_ ?]. congruence.
    - intros t Hnf.
      destruct (cleared_by_delete_spec i u (folders (db w)) t)
        as [[Hf _]|[(_ & Hfo & ->)|[_ ->]]]; [done| |done].
      unfold unfiled. simpl. split; intros [Hu Hx]; [|congruence].
      by destruct Hnf. }
  split.
  { apply filter_none. intros t' Hin Hf.
    apply list_elem_of_fmap in Hin as (t & -> & Hin).
    destruct (cleared_by_delete_cases i u (folders (db w)) t)
      as (Hclr & Hkeep & _).
    destruct (decide (t_folder t = Some i)) as [Hfo|Hfo].
    - destruct (decide (t_user_id t = u)) as [Hu|Hu].
      + rewrite Hclr in Hf by done. by destruct Hf.
      + destruct Hf as [Hu' _]. apply Hu. revert Hu'.
        unfold cleared_by_delete. by case_decide.
    - rewrite Hkeep in Hf by done. by destruct Hf. }
  split; [done|]. split; [done|].
  rewrite get_folders_run. cbn [fst db folders]. eexists. split; [done|].
  rewrite list_elem_of_fmap. intros (f & -> & Hin).
  apply list_elem_of_filter in Hin as [Hu Hin].
  apply list_elem_of_filter in Hin as [Hno _]. by apply Hno.
Qed.

Lemma delete_folders_not_found (user : decoded_token)
    (b : gmap string jsval) (w : world) :
  fst (delete_folders user b w) = Some (not_found "Folder") →
  ∃ i, truthy (field b "id") = true ∧ pg_int (field b "id") = Some (Some i)
       ∧ no_folder_of i (uid user) (db w).
Proof.
  intros Hr. destruct (truthy (field b "id")) eqn:Hid.
  2:{ rewrite delete_folders_run, Hid in Hr. discriminate Hr. }
  pose proof (truthy_pg_int_not_null _ Hid) as Hnn.
  destruct (pg_int (field b "id")) as [[i|]|] eqn:Hi; [|done|].
  - exists i. split; [done|]. split; [done|].
    rewrite (delete_folders_ok user b w i Hid Hi) in Hr. cbn [fst] in Hr.
    case_decide as Hex; [discriminate Hr|].
    intros f Hin Hown. apply Hex, Exists_exists. by exists f.
  - rewrite delete_folders_run, Hid in Hr. unfold detach_folder in Hr.
    rewrite Hi in Hr. discriminate Hr.
Qed.

Lemma cleared_by_delete_no_folder i u fs t :
  ¬ Exists (owns_folder i u) fs →
  cleared_by_delete i u fs t
  = if decide (files_under i u t) then with_folder None t else t.
Proof.
  intros Hno. unfold cleared_by_delete. apply decide_ext. (tidy; tauto).
Qed.

Lemma no_folder_of_Exists i u st :
  no_folder_of i u st ↔ ¬ Exists (owns_folder i u) (folders st).
Proof.
  unfold no_folder_of. rewrite Exists_exists. split.
  - intros H (f & Hin & Hown). by apply (H f).
  - intros H f Hin Hown. apply H. by exists f.
Qed.

(** What a folder deletion leaves behind when the owner has no folder
    with the id. *)
Lemma delete_folders_foreign (user : decoded_token) (b : gmap string jsval)
    (w : world) (i : Z) :
  truthy (field b "id") = true → pg_int (field b "id") = Some (Some i) →
  no_folder_of i (uid user) (db w) →
  let w' := snd (delete_folders user b w) in
  fst (delete_folders user b w) = Some (not_found "Folder") ∧
  same_but_thoughts (db w) (db w') ∧
  Forall2 (λ t t', if decide (files_under i (uid user) t)
                   then t' = with_folder None t else t' = t)
          (thoughts (db w)) (thoughts (db w')).
Proof.
  intros Hid Hi Hno w'. subst w'.
  rewrite (delete_folders_ok user b w i Hid Hi). cbn [fst snd db].
  apply no_folder_of_Exists in Hno as Hnex.
  rewrite decide_False by done. split; [done|]. split.
  - unfold same_but_thoughts. cbn. repeat split.
    apply filter_all. intros f Hin. by apply Hno.
  - cbn [thoughts]. apply Forall2_fmap_diag. intros t.
    rewrite cleared_by_delete_no_folder by done. by case_decide.
Qed.

(** C6, as amended.  When a folder deletion is answered not-found, the
    detach step that ran before it has changed nothing but the folder
    reference of the requester's own thoughts that pointed at the
    requested id; no other row of any table is changed.  If every folder
    reference in the store points at a folder of the thought's own owner,
    no such thought exists and the store is left exactly as it was. *)
Theorem not_found_deletion_touches_own_refs_only
    (user : decoded_token) (b : gmap string jsval) (w : world) :
  fst (delete_folders user b w) = Some (not_found "Folder") →
  let w' := snd (delete_folders user b w) in
  same_but_thoughts (db w) (db w') ∧
  (∃ i, pg_int (field b "id") = Some (Some i) ∧
        Forall2 (λ t t', if decide (files_under i (uid user) t)
                         then t' = with_folder None t else t' = t)
                (thoughts (db w)) (thoughts (db w'))) ∧
  (folder_refs_owned (db w) → db w' = db w).
Proof.
  intros Hr w'.
  destruct (delete_folders_not_found user b w Hr) as (i & Hid & Hi & Hno).
  destruct (delete_folders_foreign user b w i Hid Hi Hno) as (_ & Hsame & Hrows).
  fold w' in Hsame, Hrows. split; [done|]. split; [by exists i|].
  intros Hown.
  assert (Hth : thoughts (db w') = thoughts (db w)).
  { eapply Forall2_unchanged; [exact Hrows|].
    intros t t' Hin. simpl. case_decide as Hf; [|done].
    destruct Hf as [Hu Hfo].
    destruct (Hown t i Hin Hfo) as (f & Hfin & Hfown).
    rewrite Hu in Hfown. by destruct (Hno f Hfin). }
  destruct Hsame as (Hu & Hf & Htu & Hs1 & Hs2).
  destruct (db w'), (db w). simpl in *. congruence.
Qed.

(** *** Ids that are not the requester's *)

Lemma put_thoughts_foreign (user : decoded_token) (b : gmap string jsval)
    (w : world) (i : Z) :
  truthy (field b "id") = true → pg_int (field b "id") = Some (Some i) →
  no_thought_of i (uid user) (db w) →
  fst (put_thoughts user b w)
  = Some match pg_text (field b "text"), pg_varchar 50 (field b "section"),
               pg_int (field b "folder") with
         | Some _, Some _, Some _ => not_found "Thought"
         | _, _, _ => internal_error_response
         end ∧
  db (snd (put_thoughts user b w)) = db w.
Proof.
  intros Hid Hi Hno. rewrite put_thoughts_run, Hid, update_thought_run, Hi.
  destruct (pg_text (field b "text")) as [tx|],
    (pg_varchar 50 (field b "section")) as [se|],
    (pg_int (field b "folder")) as [fo|]; try done.
  change (default 0 (Some i)) with i. cbv zeta.
  rewrite decide_False.
  2:{ intros (_ & _ & _ & Hex). apply Exists_exists in Hex as (t & Hin & Hown & _).
      by apply (Hno t Hin). }
  rewrite filter_none by (intros t Hin [_ Hown]; by apply (Hno t Hin)).
  cbn [fst snd fmap list_fmap db]. split; [done|].
  unfold set_thoughts. rewrite fmap_unchanged; [apply store_eta|].
  intros t Hin. rewrite decide_False; [done|].
  intros [_ Hown]. by apply (Hno t Hin).
Qed.

Lemma delete_thoughts_foreign (user : decoded_token) (b : gmap string jsval)
    (w : world) (i : Z) :
  truthy (field b "id") = true → pg_int (field b "id") = Some (Some i) →
  no_thought_of i (uid user) (db w) →
  fst (delete_thoughts user b w) = Some (not_found "Thought") ∧
  db (snd (delete_thoughts user b w)) = db w.
Proof.
  intros Hid Hi Hno.
  rewrite delete_thoughts_run, Hid, (delete_thought_run _ i) by done.
  cbv zeta. rewrite (filter_none (owns_thought i (uid user))) by exact Hno.
  cbn [fst snd db fmap list_fmap]. split; [done|].
  unfold set_thought_updates, set_thoughts.
  cbn [users folders thoughts thought_updates folders_id_seq thoughts_id_seq].
  rewrite (filter_all (λ t, ¬ owns_thought i (uid user) t)) by exact Hno.
  rewrite filter_all; [apply store_eta|].
  intros tu _. apply not_elem_of_nil.
Qed.

Lemma put_folders_foreign (user : decoded_token) (b : gmap string jsval)
    (w : world) (i : Z) :
  truthy (field b "id") = true → pg_int (field b "id") = Some (Some i) →
  no_folder_of i (uid user) (db w) →
  fst (put_folders user b w)
  = Some match truthy (field b "name"), pg_varchar 255 (field b "name") with
         | false, _ => mkResponse 400 (BError "Folder ID and name are required")
         | true, Some _ => not_found "Folder"
         | true, None => internal_error_response
         end ∧
  db (snd (put_folders user b w)) = db w.
Proof.
  intros Hid Hi Hno. rewrite put_folders_run, Hid.
  destruct (truthy (field b "name")) eqn:Hname; [|done].
  cbn [andb]. cbv zeta.
  destruct (pg_varchar 255 (field b "name")) as [on|] eqn:Hn.
  - by rewrite (update_folder_none _ _ i) by (done || by rewrite Hn).
  - unfold update_folder. by rewrite Hi, Hn.
Qed.

(** C2, as amended.  Take an update or delete request of owner B whose id
    is truthy and an integer the store accepts, and two stores in neither
    of which B has a row with that id (in one the id may not exist at all,
    in the other it may belong to another owner).  The handlers answer the
    same in both stores, whatever else the request carries.  The answer is
    not-found (404) when the store takes the other parameters of the
    statement (for a thought update: a folder that is an integer, text and
    section without NUL character, a section that fits VARCHAR(50); for a
    folder update: a name without NUL character that fits VARCHAR(255));
    a folder update without a name is answered 400.  Thought update,
    thought delete and folder update change no row; folder delete changes
    no folders row and, besides the sequences, nothing but the thoughts
    table, in which its detach step clears the folder reference of B's
    own thoughts that point at the id. *)
Theorem foreign_id_answered_like_missing_id
    (user : decoded_token) (b : gmap string jsval) (i : Z) (w1 w2 : world) :
  truthy (field b "id") = true →
  pg_int (field b "id") = Some (Some i) →
  (no_thought_of i (uid user) (db w1) → no_thought_of i (uid user) (db w2) →
   fst (put_thoughts user b w1) = fst (put_thoughts user b w2) ∧
   (is_Some (pg_text (field b "text")) →
    is_Some (pg_varchar 50 (field b "section")) →
    is_Some (pg_int (field b "folder")) →
    fst (put_thoughts user b w1) = Some (not_found "Thought")) ∧
   db (snd (put_thoughts user b w1)) = db w1 ∧
   fst (delete_thoughts user b w1) = fst (delete_thoughts user b w2) ∧
   fst (delete_thoughts user b w1) = Some (not_found "Thought") ∧
   db (snd (delete_thoughts user b w1)) = db w1) ∧
  (no_folder_of i (uid user) (db w1) → no_folder_of i (uid user) (db w2) →
   fst (put_folders user b w1) = fst (put_folders user b w2) ∧
   (truthy (field b "name") = false →
    fst (put_folders user b w1)
    = Some (mkResponse 400 (BError "Folder ID and name are required"))) ∧
   (truthy (field b "name") = true →
    is_Some (pg_varchar 255 (field b "name")) →
    fst (put_folders user b w1) = Some (not_found "Folder")) ∧
   db (snd (put_folders user b w1)) = db w1 ∧
   fst (delete_folders user b w1) = fst (delete_folders user b w2) ∧
   fst (delete_folders user b w1) = Some (not_found "Folder") ∧
   same_but_thoughts (db w1) (db (snd (delete_folders user b w1))) ∧
   Forall2 (λ t t', if decide (files_under i (uid user) t)
                    then t' = with_folder None t else t' = t)
           (thoughts (db w1)) (thoughts (db (snd (delete_folders user b w1))))).
Proof.
  intros Hid Hi. split.
  - intros Ht1 Ht2.
    destruct (put_thoughts_foreign user b w1 i) as [Ha1 Ha1']; [done..|].
    destruct (put_thoughts_foreign user b w2 i) as [Ha2 _]; [done..|].
    destruct (delete_thoughts_foreign user b w1 i) as [Hb1 Hb1']; [done..|].
    destruct (delete_thoughts_foreign user b w2 i) as [Hb2 _]; [done..|].
    rewrite Ha1, Ha2, Hb1, Hb2. repeat split; try done.
    by intros [? ->] [? ->] [? ->].
  - intros Hf1 Hf2.
    destruct (put_folders_foreign user b w1 i) as [Hc1 Hc1']; [done..|].
    destruct (put_folders_foreign user b w2 i) as [Hc2 _]; [done..|].
    destruct (delete_folders_foreign user b w1 i) as (Hd1 & Hd1' & Hd1'');
      [done..|].
    destruct (delete_folders_foreign user b w2 i) as (Hd2 & _ & _); [done..|].
    rewrite Hc1, Hc2, Hd1, Hd2. repeat split; try done.
    + by intros ->.
    + by intros -> [? ->].
    + apply Hd1'.
    + apply Hd1'.
    + apply Hd1'.
    + apply Hd1'.
    + apply Hd1'.
Qed.

(** *** Folder references survive everything but a folder deletion *)

Lemma same_id_same_row (l : list thought) (t t' : thought) :
  NoDup (t_id <$> l) → t ∈ l → t' ∈ l → t_id t' = t_id t → t' = t.
Proof.
  induction l as [|x l IH]; intros Hnd Ht Ht' Hid.
  - by apply elem_of_nil in Ht.
  - rewrite fmap_cons in Hnd. apply NoDup_cons in Hnd as [Hx Hnd].
    apply elem_of_cons in Ht as [->|Ht], Ht' as [->|Ht']; [done| | |by apply IH].
    + exfalso. apply Hx. rewrite <- Hid. by apply list_elem_of_fmap_2.
    + exfalso. apply Hx. rewrite Hid. by apply list_elem_of_fmap_2.
Qed.

Lemma never_detached_intro (old new : list thought) :
  NoDup (t_id <$> old) →
  (∀ t', t' ∈ new →
         (∃ t0, t0 ∈ old ∧ t_id t' = t_id t0
                ∧ (is_Some (t_folder t0) → is_Some (t_folder t')))
         ∨ t_id t' ∉ t_id <$> old) →
  never_detached old new.
Proof.
  intros Hnd Hnew t t' Ht Ht' Hid Hsome.
  destruct (Hnew t' Ht') as [(t0 & Ht0 & Hid0 & Hkeep)|Hfresh].
  - assert (t0 = t) as -> by (apply (same_id_same_row old); congruence).
    by apply Hkeep.
  - exfalso. apply Hfresh. rewrite Hid. by apply list_elem_of_fmap_2.
Qed.

Lemma never_detached_refl (l : list thought) :
  NoDup (t_id <$> l) → never_detached l l.
Proof.
  intros Hnd. apply never_detached_intro; [done|].
  intros t' Ht'. left. by exists t'.
Qed.

Lemma put_thoughts_rows (user : decoded_token) (b : gmap string jsval)
    (w : world) :
  Forall2 (λ t t', t' = t
                   ∨ ∃ tx se fo, pg_int (field b "folder") = Some fo
                                 ∧ t' = update_thought_row tx se fo t)
          (thoughts (db w)) (thoughts (db (snd (put_thoughts user b w)))).
Proof.
  assert (Hsame : Forall2 (λ t t', t' = t
                   ∨ ∃ tx se fo, pg_int (field b "folder") = Some fo
                                 ∧ t' = update_thought_row tx se fo t)
          (thoughts (db w)) (thoughts (db w))).
  { apply Forall_Forall2_diag, Forall_forall. by left. }
  rewrite put_thoughts_run. destruct (truthy _); [|done].
  rewrite update_thought_run. cbn [snd db].
  destruct (pg_text (field b "text")) as [tx|]; [|done].
  destruct (pg_varchar 50 (field b "section")) as [se|]; [|done].
  destruct (pg_int (field b "folder")) as [fo|]; [|done].
  destruct (pg_int (field b "id")) as [oi|]; [|done].
  cbv zeta. case_decide; [done|]. cbn [snd thoughts set_thoughts].
  apply Forall2_fmap_diag. intros t. case_decide; [right|by left].
  by exists tx, se, fo.
Qed.

Lemma post_thoughts_rows (user : decoded_token) (b : gmap string jsval)
    (w : world) :
  let new := thoughts (db (snd (post_thoughts user b w))) in
  new = thoughts (db w)
  ∨ ∃ row, new = thoughts (db w) ++ [row]
           ∧ t_id row ∉ t_id <$> thoughts (db w).
Proof.
  rewrite post_thoughts_run. cbn [snd db]. cbv zeta.
  set (st1 := if bool_decide _ then _ else _).
  assert (Hst1 : thoughts st1 = thoughts (db w)).
  { subst st1. by case_bool_decide. }
  unfold insert_thought.
  destruct (pg_text (field b "text")) as [[tx|]|],
    (pg_varchar 50 (field b "section")) as [[se|]|],
    (pg_int (or_null (field b "folder"))) as [fo|];
    try (left; exact Hst1).
  repeat case_decide; try (left; exact Hst1).
  right. eexists. cbn [snd thoughts set_thoughts set_thoughts_id_seq].
  rewrite <- Hst1. split; [done|]. simpl. done.
Qed.

Lemma delete_thoughts_rows (user : decoded_token) (b : gmap string jsval)
    (w : world) :
  ∀ t', t' ∈ thoughts (db (snd (delete_thoughts user b w))) →
        t' ∈ thoughts (db w).
Proof.
  intros t'. rewrite delete_thoughts_run. destruct (truthy _); [|done].
  cbn [snd db]. unfold delete_thought.
  destruct (pg_int _); [|done].
  cbn [snd thoughts set_thought_updates set_thoughts].
  by intros [_ ?]%list_elem_of_filter.
Qed.

Lemma post_folders_thoughts (user : decoded_token) (b : gmap string jsval)
    (w : world) :
  thoughts (db (snd (post_folders user b w))) = thoughts (db w).
Proof.
  rewrite post_folders_run. destruct (truthy _); [|done].
  cbn [snd db]. unfold insert_folder.
  destruct (pg_varchar _ _) as [[n|]|]; [|done..].
  by repeat case_decide.
Qed.

Lemma put_folders_thoughts (user : decoded_token) (b : gmap string jsval)
    (w : world) :
  thoughts (db (snd (put_folders user b w))) = thoughts (db w).
Proof.
  rewrite put_folders_run. destruct (_ && _); [|done].
  cbn [snd db]. unfold update_folder.
  destruct (pg_int _); [|done].
  destruct (pg_varchar _ _) as [[n|]|]; by repeat case_decide.
Qed.

(** C9.  A thought update never clears a folder reference: every row
    keeps its id, a row that had a folder still has one afterwards, and
    when the request supplies folder as null the folder of every row is
    exactly what it was.  The same holds for the handlers of all routes
    but DELETE /api/folders: rows being told apart by their primary key,
    none of them leaves a thought that had a folder without one. *)
Theorem thought_update_never_detaches
    (user : decoded_token) (b : gmap string jsval) (w : world) :
  NoDup (t_id <$> thoughts (db w)) →
  Forall2 (λ t t', t_id t' = t_id t ∧
                   (is_Some (t_folder t) → is_Some (t_folder t')) ∧
                   (field b "folder" = JNull → t_folder t' = t_folder t))
          (thoughts (db w)) (thoughts (db (snd (put_thoughts user b w)))) ∧
  ∀ m p h, (m, p, h) ∈ routes → (m, p) ≠ (DELETE, "/api/folders") →
           never_detached (thoughts (db w)) (thoughts (db (snd (h user b w)))).
Proof.
  intros Hnd.
  assert (Hput : Forall2 (λ t t', t_id t' = t_id t ∧
                   (is_Some (t_folder t) → is_Some (t_folder t')) ∧
                   (field b "folder" = JNull → t_folder t' = t_folder t))
          (thoughts (db w)) (thoughts (db (snd (put_thoughts user b w))))).
  { eapply Forall2_impl; [apply put_thoughts_rows|].
    intros t t' [->|(tx & se & fo & Hfo & ->)]; [done|].
    unfold update_thought_row. simpl. split; [done|]. split.
    - by destruct fo.
    - intros Hnull. rewrite Hnull in Hfo. simpl in Hfo. by injection Hfo as <-. }
  split; [done|]. intros m p h Hin Hne.
  unfold routes in Hin.
  repeat (apply elem_of_cons in Hin as [Hin|Hin];
          [injection Hin as -> -> ->|]); try done.
  - rewrite get_thoughts_run. by apply never_detached_refl.
  - apply never_detached_intro; [done|]. intros t' Ht'.
    destruct (post_thoughts_rows user b w) as [Heq|(row & Heq & Hfresh)];
      cbv zeta in Heq; rewrite Heq in Ht'.
    + left. by exists t'.
    + apply elem_of_app in Ht' as [Ht'|Ht'%list_elem_of_singleton].
      * left. by exists t'.
      * right. by subst t'.
  - apply never_detached_intro; [done|]. intros t' Ht'.
    destruct (Forall2_elem_of_r _ _ _ t' Hput Ht') as (t0 & Hin0 & Hid & Hk & _).
    left. by exists t0.
  - apply never_detached_intro; [done|]. intros t' Ht'.
    left. exists t'. split; [by eapply delete_thoughts_rows|done].
  - rewrite get_folders_run. by apply never_detached_refl.
  - rewrite post_folders_thoughts. by apply never_detached_refl.
  - rewrite put_folders_thoughts. by apply never_detached_refl.
  - by apply elem_of_nil in Hin.
Qed.

(** *** Folder creation *)

Lemma insert_folder_thoughts_users user_id name ts st :
  users (snd (insert_folder user_id name ts st)) = users st.
Proof.
  unfold insert_folder. destruct (pg_varchar 255 name) as [[n|]|]; [|done..].
  by repeat case_decide.
Qed.

(** The outcomes of a folder creation: 400 without a name; otherwise one
    INSERT, rejected when the store cannot take the name, when the owner
    already has a folder of that name, when the owner has no users row or
    when the drawn id is taken, and accepted otherwise. *)
Lemma folder_creation_outcomes
    (user : decoded_token) (b : gmap string jsval) (w : world) :
  let name := field b "name" in
  let r := fst (post_folders user b w) in
  let w' := snd (post_folders user b w) in
  if truthy name then
    log w' = log w ++ [EQuery INSERT_FOLDER
                         [JStr (uid user); name; JStr (clock (ticks w))]] ∧
    match pg_varchar 255 name with
    | Some (Some n) =>
      let row := mkFolder (folders_id_seq (db w) + 1) (uid user) n
                          (Some (timestamp_json (clock (ticks w)))) in
      if decide (Exists (λ f, f_user_id f = uid user ∧ f_name f = n)
                        (folders (db w)))
      then r = Some internal_error_response
           ∧ folders (db w') = folders (db w)
      else if decide (uid user ∈ u_id <$> users (db w)
                      ∧ f_id row ∉ f_id <$> folders (db w))
      then r = Some (mkResponse 201 (BFolder (Some row)))
           ∧ folders (db w') = folders (db w) ++ [row]
      else r = Some internal_error_response
           ∧ folders (db w') = folders (db w)
    | _ => r = Some internal_error_response ∧ folders (db w') = folders (db w)
    end
  else r = Some (mkResponse 400 (BError "Folder name is required")) ∧ w' = w.
Proof.
  intros name r w'. subst r w'. rewrite post_folders_run. fold name.
  destruct (truthy name) eqn:Hname; [|done]. cbn [fst snd log db].
  split; [done|]. cbv zeta. unfold insert_folder.
  destruct (pg_varchar 255 name) as [[n|]|]; [|done..].
  cbn [f_id]. repeat case_decide; cbn [fst snd folders set_folders
    set_folders_id_seq head]; try done; (tidy; tauto).
Qed.

(** C7.  Folder creation does not provision the users row that
    folders.user_id references: for an identity without a users row a
    creation with a name is answered 500 Internal Server Error and stores
    no folder, whether or not anybody else uses that name. *)
Theorem folder_creation_needs_user_row
    (user : decoded_token) (b : gmap string jsval) (w : world) :
  truthy (field b "name") = true →
  uid user ∉ u_id <$> users (db w) →
  fst (post_folders user b w) = Some internal_error_response ∧
  folders (db (snd (post_folders user b w))) = folders (db w) ∧
  users (db (snd (post_folders user b w))) = users (db w).
Proof.
  intros Hname Hnew.
  pose proof (folder_creation_outcomes user b w) as H. cbv zeta in H.
  rewrite Hname in H. destruct H as (_ & H).
  split; [|split].
  - destruct (pg_varchar 255 _) as [[n|]|]; [|apply H..].
    repeat case_decide; (tidy; tauto).
  - destruct (pg_varchar 255 _) as [[n|]|]; [|apply H..].
    repeat case_decide; (tidy; tauto).
  - rewrite post_folders_run, Hname. cbn [snd db].
    apply insert_folder_thoughts_users.
Qed.

(** *** Every request gets an answer *)

Lemma try_catch_responds {A : Type} (body : M A) (a : A) (w : world) :
  is_Some (fst (try_catch body (mret a) w)).
Proof. unfold try_catch. destruct (body w) as [[r|] w']; by eexists. Qed.

(** A handler never throws: whatever goes wrong inside its try block is
    answered by its catch block. *)
Lemma handlers_respond (m : method) (p : string) (h : handler)
    (user : decoded_token) (b : gmap string jsval) (w : world) :
  (m, p, h) ∈ routes → is_Some (fst (h user b w)).
Proof.
  unfold routes. intros Hin.
  repeat (apply elem_of_cons in Hin as [Hin|Hin];
          [injection Hin as -> -> ->; apply try_catch_responds|]).
  by apply elem_of_nil in Hin.
Qed.

(** Neither does the middleware in front of it. *)
Lemma app_responds (req : request) (m : M response) (w : world) :
  app req = Some m → is_Some (fst (m w)).
Proof.
  unfold app. destruct (find _ _) as [[[mth pth] h]|] eqn:Hfind; [|done].
  intros [= <-]. apply find_some in Hfind as [Hin _].
  apply list_elem_of_In in Hin.
  unfold authenticateUser.
  destruct (r_authorization req) as [hdr|]; [|by eexists].
  destruct (_ || _); [by eexists|].
  rewrite run_bind. unfold try_catch at 1. rewrite run_bind. unfold verify.
  destruct (match at_index _ _ with JStr s => verifyIdToken s | _ => None end)
    as [tok|]; [|by eexists].
  cbn beta iota. rewrite run_ret. by eapply handlers_respond.
Qed.

(** *** The statements keep the constraints of the schema *)

Lemma NoDup_fmap_inj_on {A B : Type} (k : A → B) (l : list A) (x y : A) :
  NoDup (k <$> l) → x ∈ l → y ∈ l → k x = k y → x = y.
Proof.
  induction l as [|a l IH]; intros Hnd Hx Hy Hk.
  - by apply elem_of_nil in Hx.
  - rewrite fmap_cons in Hnd. apply NoDup_cons in Hnd as [Ha Hnd].
    apply elem_of_cons in Hx as [->|Hx], Hy as [->|Hy]; [done| | |by apply IH].
    + exfalso. apply Ha. rewrite Hk. by apply list_elem_of_fmap_2.
    + exfalso. apply Ha. rewrite <- Hk. by apply list_elem_of_fmap_2.
Qed.

Lemma NoDup_fmap_snoc {A B : Type} (k : A → B) (l : list A) (x : A) :
  NoDup (k <$> l) → k x ∉ k <$> l → NoDup (k <$> (l ++ [x])).
Proof.
  intros Hnd Hx. rewrite fmap_app. apply NoDup_app. split; [done|]. split.
  - intros y Hy Hin. apply list_elem_of_singleton in Hin. by subst y.
  - apply NoDup_singleton.
Qed.

Lemma NoDup_fmap_filter {A B : Type} (k : A → B) (P : A → Prop)
    `{∀ x, Decision (P x)} (l : list A) :
  NoDup (k <$> l) → NoDup (k <$> filter P l).
Proof.
  intros Hnd. apply (sublist_NoDup _ (k <$> l)); [exact Hnd|].
  apply fmap_sublist, sublist_filter.
Qed.

Lemma fmap_key_unchanged {A B : Type} (k : A → B) (g : A → A) (l : list A) :
  (∀ x, x ∈ l → k (g x) = k x) → k <$> (g <$> l) = k <$> l.
Proof.
  induction l as [|a l IH]; intros Hk; [done|].
  rewrite !fmap_cons, Hk by left. f_equal. apply IH.
  intros x Hx. apply Hk. by right.
Qed.

Lemma consistent_empty : consistent empty_store.
Proof.
  constructor; simpl; try apply NoDup_nil_2;
    intros x Hx; by apply elem_of_nil in Hx.
Qed.

Lemma consistent_thoughts_seq (n : Z) (st : store) :
  thoughts_id_seq st ≤ n → consistent st →
  consistent (set_thoughts_id_seq n st).
Proof.
  intros Hn [].
  constructor; simpl; try done.
  intros t Ht. etrans; [by apply thoughts_drawn0 | done].
Qed.

Lemma consistent_folders_seq (n : Z) (st : store) :
  folders_id_seq st ≤ n → consistent st →
  consistent (set_folders_id_seq n st).
Proof.
  intros Hn [].
  constructor; simpl; try done.
  intros f Hf. etrans; [by apply folders_drawn0 | done].
Qed.

Lemma insert_user_consistent id username email password_hash created_at st :
  consistent st →
  consistent (snd (insert_user id username email password_hash created_at st)).
Proof.
  intros Hc. unfold insert_user. case_decide as Hid; [done|].
  destruct Hc. constructor; simpl; try done.
  - by apply NoDup_fmap_snoc.
  - intros f Hf. rewrite fmap_app. apply elem_of_app. left. auto.
  - intros t Ht. rewrite fmap_app. apply elem_of_app. left. auto.
Qed.

Lemma insert_thought_consistent user_id text section folder ts st :
  consistent st →
  consistent (snd (insert_thought user_id text section folder ts st)).
Proof.
  intros Hc. unfold insert_thought.
  assert (Hbump : consistent (set_thoughts_id_seq (thoughts_id_seq st + 1) st)).
  { apply consistent_thoughts_seq; [lia | done]. }
  destruct (pg_text text) as [[tx|]|], (pg_varchar 50 section) as [[se|]|],
    (pg_int folder) as [fo|]; try done. cbv zeta.
  case_decide as Hid; [done|]. case_decide as Hu; [done|].
  case_decide as Hfo; [done|]. cbn [snd].
  destruct Hc. constructor; simpl; try done.
  - by apply NoDup_fmap_snoc.
  - intros t [Ht| ->%list_elem_of_singleton]%elem_of_app; [auto|]. simpl.
    by destruct (decide (user_id ∈ u_id <$> users st)).
  - intros t [Ht| ->%list_elem_of_singleton]%elem_of_app; [auto|]. simpl.
    destruct (decide (fo = None)); [by left|]. right.
    destruct (decide (fo ∈ folder_keys st)); [done|]. by destruct Hfo.
  - intros tu Htu. rewrite fmap_app. apply elem_of_app. left. auto.
  - intros t [Ht| ->%list_elem_of_singleton]%elem_of_app; simpl; [|lia].
    specialize (thoughts_drawn0 t Ht). lia.
Qed.

Ltac proj_store :=
  unfold set_users, set_folders, set_thoughts, set_thought_updates,
    set_folders_id_seq, set_thoughts_id_seq;
  cbn [users folders thoughts thought_updates folders_id_seq
       thoughts_id_seq].

Lemma update_thought_consistent text section folder id user_id st :
  consistent st →
  consistent (snd (update_thought text section folder id user_id st)).
Proof.
  intros Hc. unfold update_thought.
  destruct (pg_text text) as [tx|], (pg_varchar 50 section) as [se|],
    (pg_int folder) as [fo|], (pg_int id) as [oi|]; try done. cbv zeta.
  case_decide as Hbr; [done|]. cbn [snd].
  destruct Hc. constructor; proj_store; try done.
  - rewrite fmap_key_unchanged; [done|]. intros t _. by case_decide.
  - intros t' (t & -> & Ht)%list_elem_of_fmap. case_decide; simpl; auto.
  - intros t' (t & -> & Ht)%list_elem_of_fmap.
    case_decide as Hh; [|auto]. unfold update_thought_row. simpl.
    destruct fo as [f|]; [|auto]. right.
    destruct (decide (Some f ∈ folder_keys st)) as [|Hnk]; [done|].
    destruct (decide (t_folder t = Some f)) as [Heq|Hne].
    + destruct (thoughts_folder_fk0 t Ht) as [Hn|Hk]; congruence.
    + exfalso. apply Hbr. split; [done|]. split; [done|].
      apply Exists_exists. exists t. split; [|done].
      by apply list_elem_of_filter.
  - intros tu Htu. rewrite fmap_key_unchanged; [auto|].
    intros t _. by case_decide.
  - intros t' (t & -> & Ht)%list_elem_of_fmap. case_decide; simpl; auto.
Qed.

Lemma delete_thought_consistent id user_id st :
  consistent st → consistent (snd (delete_thought id user_id st)).
Proof.
  intros Hc. unfold delete_thought.
  destruct (pg_int id) as [oi|]; [|done]. cbv zeta. cbn [snd].
  destruct Hc. constructor; proj_store; try done.
  - by apply NoDup_fmap_filter.
  - by apply NoDup_fmap_filter.
  - intros t [_ Ht]%list_elem_of_filter. auto.
  - intros t [_ Ht]%list_elem_of_filter. auto.
  - intros tu [Hkeep Htu]%list_elem_of_filter.
    destruct (list_elem_of_fmap_1 _ _ _ (updates_thought_fk0 tu Htu))
      as (t & Hid & Ht).
    rewrite Hid. apply list_elem_of_fmap_2, list_elem_of_filter.
    split; [|done]. intros Hh. apply Hkeep. rewrite Hid.
    apply list_elem_of_fmap_2, list_elem_of_filter. done.
  - intros t [_ Ht]%list_elem_of_filter. auto.
Qed.

Lemma insert_folder_consistent user_id name ts st :
  consistent st → consistent (snd (insert_folder user_id name ts st)).
Proof.
  intros Hc. unfold insert_folder. cbv zeta.
  assert (Hbump : consistent (set_folders_id_seq (folders_id_seq st + 1) st)).
  { apply consistent_folders_seq; [lia | done]. }
  destruct (pg_varchar 255 name) as [[n|]|]; [|done..].
  case_decide as Hid; [done|]. case_decide as Hu; [done|].
  case_decide as Hdup; [done|]. cbn [snd].
  destruct Hc. constructor; proj_store; try done.
  - by apply NoDup_fmap_snoc.
  - apply NoDup_fmap_snoc; [done|]. simpl.
    intros (f & Hk & Hf)%list_elem_of_fmap. apply Hdup, Exists_exists.
    exists f. split; [done|]. by injection Hk as <- <-.
  - intros f [Hf| ->%list_elem_of_singleton]%elem_of_app; [auto|]. simpl.
    by destruct (decide (user_id ∈ u_id <$> users st)).
  - intros t Ht. destruct (thoughts_folder_fk0 t Ht) as [|Hk]; [by left|].
    right. unfold folder_keys in *. proj_store. rewrite fmap_app.
    apply elem_of_app. by left.
  - intros f [Hf| ->%list_elem_of_singleton]%elem_of_app; simpl; [|lia].
    specialize (folders_drawn0 f Hf). lia.
Qed.

Lemma update_folder_consistent name id user_id st :
  consistent st → consistent (snd (update_folder name id user_id st)).
Proof.
  intros Hc. unfold update_folder.
  destruct (pg_int id) as [oi|]; [|done].
  destruct (pg_varchar 255 name) as [[n|]|]; [|by case_decide|done]. cbv zeta.
  case_decide as Hbad; [done|]. cbn [snd].
  destruct Hc. constructor; proj_store; try done.
  - rewrite fmap_key_unchanged; [done|]. intros f _. by case_decide.
  - rewrite <- list_fmap_compose.
    apply NoDup_fmap_2_strong; [|by eapply NoDup_fmap_1].
    intros x y Hx Hy. unfold compose.
    destruct (decide (oi = Some (f_id x) ∧ f_user_id x = user_id))
      as [Hhx|Hhx],
      (decide (oi = Some (f_id y) ∧ f_user_id y = user_id)) as [Hhy|Hhy];
      simpl; intros Hk.
    + apply (NoDup_fmap_inj_on f_id (folders st)); try done.
      destruct Hhx as [Hx1 _], Hhy as [Hy1 _]. congruence.
    + exfalso. apply Hbad. split.
      * intros Hnil.
        by apply (filter_nil_not_elem_of _ _ x Hnil Hhx).
      * left. apply Exists_exists. exists y. split; [done|].
        destruct Hhx as [_ Hux]. injection Hk as Hu Hn.
        split; [done|]. split; congruence.
    + exfalso. apply Hbad. split.
      * intros Hnil.
        by apply (filter_nil_not_elem_of _ _ y Hnil Hhy).
      * left. apply Exists_exists. exists x. split; [done|].
        destruct Hhy as [_ Huy]. injection Hk as Hu Hn.
        split; [done|]. split; congruence.
    + by apply (NoDup_fmap_inj_on (λ f, (f_user_id f, f_name f)) (folders st)).
  - intros f' (f & -> & Hf)%list_elem_of_fmap. case_decide; simpl; auto.
  - intros t Ht. destruct (thoughts_folder_fk0 t Ht) as [|Hk]; [by left|].
    right. unfold folder_keys in *. proj_store.
    rewrite fmap_key_unchanged; [done|]. intros f _. simpl. by case_decide.
  - intros f' (f & -> & Hf)%list_elem_of_fmap. case_decide; simpl; auto.
Qed.

Lemma detach_folder_consistent id user_id st :
  consistent st → consistent (snd (detach_folder id user_id st)).
Proof.
  intros Hc. unfold detach_folder.
  destruct (pg_int id) as [oi|]; [|done]. cbv zeta. cbn [snd].
  destruct Hc. constructor; proj_store; try done.
  - rewrite fmap_key_unchanged; [done|]. intros t _. by case_decide.
  - intros t' (t & -> & Ht)%list_elem_of_fmap. case_decide; simpl; auto.
  - intros t' (t & -> & Ht)%list_elem_of_fmap.
    case_decide; simpl; [by left | auto].
  - intros tu Htu. rewrite fmap_key_unchanged; [auto|].
    intros t _. by case_decide.
  - intros t' (t & -> & Ht)%list_elem_of_fmap. case_decide; simpl; auto.
Qed.

Lemma delete_folder_consistent id user_id st :
  consistent st → consistent (snd (delete_folder id user_id st)).
Proof.
  intros Hc. unfold delete_folder.
  destruct (pg_int id) as [oi|]; [|done]. cbv zeta. cbn [snd].
  destruct Hc. constructor; proj_store; try done.
  - by apply NoDup_fmap_filter.
  - rewrite fmap_key_unchanged; [done|]. intros t _. by case_decide.
  - by apply NoDup_fmap_filter.
  - intros f [_ Hf]%list_elem_of_filter. auto.
  - intros t' (t & -> & Ht)%list_elem_of_fmap. case_decide; simpl; auto.
  - intros t' (t & -> & Ht)%list_elem_of_fmap.
    case_decide as Hg; simpl; [by left|].
    destruct (thoughts_folder_fk0 t Ht) as [|Hk]; [by left|]. right.
    unfold folder_keys in *. proj_store.
    apply list_elem_of_fmap in Hk as (f & Hfo & Hf).
    apply list_elem_of_fmap. exists f. split; [done|].
    apply list_elem_of_filter. split; [|done]. intros Hh. apply Hg.
    rewrite Hfo. apply list_elem_of_fmap. exists f.
    split; [done|]. by apply list_elem_of_filter.
  - intros tu Htu. rewrite fmap_key_unchanged; [auto|].
    intros t _. by case_decide.
  - intros f [_ Hf]%list_elem_of_filter. auto.
  - intros t' (t & -> & Ht)%list_elem_of_fmap. case_decide; simpl; auto.
Qed.

(** *** The routes keep the constraints of the schema *)

Lemma guarded_verified (h : handler) (req : request) (w : world)
    (hdr s : string) (user : decoded_token) :
  r_authorization req = Some hdr → String.prefix "Bearer " hdr = true →
  bearer_token hdr = JStr s → verifyIdToken s = Some user →
  guarded h req w = h user (r_body req) (emit (EVerify (JStr s)) w).
Proof.
  intros Hh Hp Ht Hv. unfold guarded, authenticateUser. rewrite Hh.
  assert (truthy (JStr hdr) = true) as Htr.
  { destruct hdr; [discriminate Hp | done]. }
  rewrite Htr, Hp. cbn [negb orb].
  rewrite run_bind. unfold try_catch. rewrite run_bind.
  fold (bearer_token hdr). rewrite Ht. unfold verify. by rewrite Hv.
Qed.

Lemma guarded_cases (h : handler) (req : request) (w : world) :
  guarded h req w = (Some unauthorized, w)
  ∨ (∃ tok, guarded h req w = (Some unauthorized, emit (EVerify tok) w))
  ∨ (∃ hdr s user,
       r_authorization req = Some hdr ∧
       String.prefix "Bearer " hdr = true ∧
       bearer_token hdr = JStr s ∧ verifyIdToken s = Some user ∧
       guarded h req w = h user (r_body req) (emit (EVerify (JStr s)) w)).
Proof.
  destruct (r_authorization req) as [hdr|] eqn:Hh.
  2:{ left. apply guarded_lacks_bearer.
      unfold lacks_bearer, header_lacks_bearer. by rewrite Hh. }
  destruct (String.prefix "Bearer " hdr) eqn:Hp.
  2:{ left. apply guarded_lacks_bearer.
      unfold lacks_bearer, header_lacks_bearer. by rewrite Hh. }
  destruct (bearer_token hdr) as [| | | |s|] eqn:Ht;
    try (right; left; apply guarded_verifier_rejects;
         unfold verifier_rejects, header_rejected; rewrite Hh, Ht; by split).
  destruct (verifyIdToken s) as [user|] eqn:Hv.
  - right. right. exists hdr, s, user.
    repeat (split; [done|]). by apply (guarded_verified h req w hdr s user).
  - right. left. apply guarded_verifier_rejects.
    unfold verifier_rejects, header_rejected. rewrite Hh, Ht. by split.
Qed.

Lemma handlers_keep_consistent (m : method) (p : string) (h : handler)
    (user : decoded_token) (b : gmap string jsval) (w : world) :
  (m, p, h) ∈ routes → consistent (db w) →
  consistent (db (snd (h user b w))).
Proof.
  unfold routes. intros Hin Hc.
  repeat (apply elem_of_cons in Hin as [Hin|Hin];
          [injection Hin as -> -> ->|]).
  - by rewrite get_thoughts_run.
  - rewrite post_thoughts_run. cbn [snd db].
    apply insert_thought_consistent. case_bool_decide as Hseen; [done|].
    pose proof (insert_user_consistent (uid user) (display_name user)
                  (email_or_null user) None (clock (ticks w)) (db w) Hc) as Hu.
    by rewrite insert_user_new in Hu.
  - rewrite put_thoughts_run. destruct (truthy _); [|done].
    by apply update_thought_consistent.
  - rewrite delete_thoughts_run. destruct (truthy _); [|done].
    by apply delete_thought_consistent.
  - by rewrite get_folders_run.
  - rewrite post_folders_run. destruct (truthy _); [|done].
    by apply insert_folder_consistent.
  - rewrite put_folders_run. destruct (_ && _); [|done].
    by apply update_folder_consistent.
  - rewrite delete_folders_run. destruct (truthy _); [|done]. cbv zeta.
    destruct (fst (detach_folder _ _ _)); cbn [snd db].
    + by apply delete_folder_consistent, detach_folder_consistent.
    + by apply detach_folder_consistent.
  - by apply elem_of_nil in Hin.
Qed.

Lemma app_keeps_consistent (req : request) (m : M response) (w : world) :
  app req = Some m → consistent (db w) → consistent (db (snd (m w))).
Proof.
  unfold app. destruct (find _ _) as [[[mth pth] h]|] eqn:Hfind; [|done].
  intros [= <-] Hc. apply find_some in Hfind as [Hin _].
  apply list_elem_of_In in Hin. fold (guarded h req).
  destruct (guarded_cases h req w)
    as [->|[[tok ->]|(hdr & s & user & _ & _ & _ & _ & ->)]]; try done.
  by apply (handlers_keep_consistent mth pth).
Qed.

Lemma serve_keeps_consistent (reqs : list request) (w : world) :
  consistent (db w) → consistent (db (snd (serve reqs w))).
Proof.
  revert w. induction reqs as [|req reqs IH]; intros w Hc; [done|].
  cbn [serve]. destruct (app req) as [m|] eqn:Happ.
  - pose proof (app_keeps_consistent req m w Happ Hc) as Hc1.
    destruct (m w) as [r w1]. specialize (IH w1 Hc1).
    by destruct (serve reqs w1).
  - specialize (IH w Hc). by destruct (serve reqs w).
Qed.

(** Whatever requests are served, starting from the empty store, the
    store that results satisfies every constraint of [db-setup.sql]:
    primary keys, the per-owner uniqueness of folder names, the foreign
    keys, and ids no greater than their sequence. *)
Theorem reachable_stores_consistent (reqs : list request) :
  consistent (db (snd (serve reqs (fresh empty_store)))).
Proof. apply serve_keeps_consistent, consistent_empty. Qed.

(** *** The verified path through the middleware *)

Lemma split_skip (sep pre s cur : string) :
  split_go sep (pre +:+ s) (String.length pre) cur = split_go sep s O cur.
Proof.
  induction pre as [|c pre IH]; [done|].
  change (String c pre +:+ s) with (String c (pre +:+ s)).
  cbn [split_go String.length]. apply IH.
Qed.

Lemma split_no_occurrence (sep s cur : string) :
  occurs sep s = false → split_go sep s O cur = [cur +:+ s].
Proof.
  revert cur. induction s as [|c s IH]; intros cur Hocc.
  - cbn [split_go]. by rewrite append_empty_r.
  - cbn [occurs] in Hocc. apply orb_false_elim in Hocc as [Hp Hs].
    cbn [split_go]. rewrite Hp, IH by done. by rewrite append_snoc.
Qed.

(** [authHeader.split('Bearer ')[1]] of a header 'Bearer ' + token is the
    token, when the token does not itself contain 'Bearer '. *)
Lemma bearer_token_plain (tok : string) :
  occurs "Bearer " tok = false → bearer_token ("Bearer " +:+ tok) = JStr tok.
Proof.
  intros Hocc. unfold bearer_token, js_split.
  change ("Bearer " +:+ tok) with (String "B" ("earer " +:+ tok)).
  cbn [split_go].
  assert (String.prefix "Bearer " (String "B" ("earer " +:+ tok)) = true)
    as -> by (by destruct tok).
  change (Nat.pred (String.length "Bearer ")) with (String.length "earer ").
  rewrite split_skip, split_no_occurrence by done. reflexivity.
Qed.

(** A request to a registered route whose authorization header is
    'Bearer ' followed by a token (free of 'Bearer ') that the verifier
    accepts is handed to the handler of a matching route, as the identity
    the verifier returned, after exactly one call, the one to the verifier
    with that token. *)
Theorem verified_request_reaches_handler
    (req : request) (m : M response) (w : world) (tok : string)
    (user : decoded_token) :
  app req = Some m →
  r_authorization req = Some ("Bearer " +:+ tok) →
  occurs "Bearer " tok = false →
  verifyIdToken tok = Some user →
  ∃ mth p h, (mth, p, h) ∈ routes ∧ route_matches req (mth, p, h) = true ∧
             m w = h user (r_body req) (emit (EVerify (JStr tok)) w).
Proof.
  unfold app. destruct (find _ _) as [[[mth pth] h]|] eqn:Hfind; [|done].
  intros [= <-] Hh Hocc Hv. apply find_some in Hfind as [Hin Hmatch].
  apply list_elem_of_In in Hin. exists mth, pth, h.
  split; [done|]. split; [done|]. fold (guarded h req).
  apply (guarded_verified h req w ("Bearer " +:+ tok) tok user);
    [done | by destruct tok | by apply bearer_token_plain | done].
Qed.

(** *** Every statement is scoped to the verified owner *)

Ltac find_param :=
  cbn [scoped_to];
  first [ apply list_elem_of_here
        | apply list_elem_of_further; find_param ].

(** Whatever the body of the request, every statement a handler sends to
    the store carries the verified owner id among its parameters, and a
    handler sends at most three statements. *)
Theorem statements_scoped_to_owner (m : method) (p : string) (h : handler)
    (user : decoded_token) (b : gmap string jsval) (w : world) :
  (m, p, h) ∈ routes →
  ∃ calls, log (snd (h user b w)) = log w ++ calls ∧
           Forall (scoped_to (uid user)) calls ∧ (length calls ≤ 3)%nat.
Proof.
  unfold routes. intros Hin.
  repeat (apply elem_of_cons in Hin as [Hin|Hin];
          [injection Hin as -> -> ->|]).
  - rewrite get_thoughts_run. eexists. split; [done|].
    split; [repeat constructor; find_param | simpl; lia].
  - rewrite post_thoughts_run. cbn [snd log]. eexists. split; [done|].
    case_bool_decide; (split; [repeat constructor; find_param | simpl; lia]).
  - rewrite put_thoughts_run. destruct (truthy _).
    + eexists. split; [done|].
      split; [repeat constructor; find_param | simpl; lia].
    + exists []. rewrite app_nil_r. split; [done|]. split; [done | simpl; lia].
  - rewrite delete_thoughts_run. destruct (truthy _).
    + eexists. split; [done|].
      split; [repeat constructor; find_param | simpl; lia].
    + exists []. rewrite app_nil_r. split; [done|]. split; [done | simpl; lia].
  - rewrite get_folders_run. eexists. split; [done|].
    split; [repeat constructor; find_param | simpl; lia].
  - rewrite post_folders_run. destruct (truthy _).
    + eexists. split; [done|].
      split; [repeat constructor; find_param | simpl; lia].
    + exists []. rewrite app_nil_r. split; [done|]. split; [done | simpl; lia].
  - rewrite put_folders_run. destruct (_ && _).
    + eexists. split; [done|].
      split; [repeat constructor; find_param | simpl; lia].
    + exists []. rewrite app_nil_r. split; [done|]. split; [done | simpl; lia].
  - rewrite delete_folders_run. destruct (truthy _).
    + cbv zeta. destruct (fst (detach_folder _ _ _)); eexists;
        (split; [done|]);
        (split; [repeat constructor; find_param | simpl; lia]).
    + exists []. rewrite app_nil_r. split; [done|]. split; [done | simpl; lia].
  - by apply elem_of_nil in Hin.
Qed.

(** *** What the handlers do to the tables *)

Lemma insert_thought_success user_id text section folder ts st rows :
  fst (insert_thought user_id text section folder ts st) = Some rows →
  ∃ tx se fo,
    pg_text text = Some (Some tx) ∧ pg_varchar 50 section = Some (Some se) ∧
    pg_int folder = Some fo ∧
    rows = [mkThought (thoughts_id_seq st + 1) user_id tx se fo
                      (Some (timestamp_json ts))] ∧
    thoughts (snd (insert_thought user_id text section folder ts st))
    = thoughts st ++ rows.
Proof.
  unfold insert_thought.
  destruct (pg_text text) as [[tx|]|], (pg_varchar 50 section) as [[se|]|],
    (pg_int folder) as [fo|]; try done.
  cbv zeta. repeat case_decide; try done.
  intros [= <-]. by exists tx, se, fo.
Qed.

(** Opens a handler: its run lemma, the test on the body, then the
    statement with every test the store makes. *)
Ltac open_handler :=
  rewrite ?get_thoughts_run, ?get_folders_run, ?post_thoughts_run,
    ?put_thoughts_run, ?delete_thoughts_run, ?post_folders_run,
    ?put_folders_run, ?delete_folders_run;
  cbv zeta;
  repeat match goal with
         | |- context [truthy ?v] => destruct (truthy v) eqn:?
         end;
  cbn [andb emit fst snd db];
  unfold insert_thought, update_thought, delete_thought, insert_folder,
    update_folder, detach_folder, delete_folder;
  repeat match goal with
         | |- context [pg_int ?v] => destruct (pg_int v) eqn:?
         | |- context [pg_text ?v] => destruct (pg_text v) as [[?|]|] eqn:?
         | |- context [pg_varchar ?n ?v] =>
             destruct (pg_varchar n v) as [[?|]|] eqn:?
         end;
  cbv zeta; repeat case_bool_decide; repeat case_decide;
  cbn [fst snd db]; proj_store.

(** No route deletes or changes a users row, and none writes a
    thought_updates row: after any handler the users table is the old one,
    possibly with rows added at the end, and the thought_updates table has
    lost rows at most. *)
Theorem users_kept_updates_never_written (m : method) (p : string)
    (h : handler) (user : decoded_token) (b : gmap string jsval) (w : world) :
  (m, p, h) ∈ routes →
  users (db w) `prefix_of` users (db (snd (h user b w))) ∧
  thought_updates (db (snd (h user b w)))
    `sublist_of` thought_updates (db w).
Proof.
  unfold routes. intros Hin.
  repeat (apply elem_of_cons in Hin as [Hin|Hin];
          [injection Hin as -> -> ->|]);
    [..|by apply elem_of_nil in Hin];
    open_handler;
    (split; [first [done | by apply prefix_app_r]
            | first [done | apply sublist_filter]]).
Qed.

(** A request answered 400 has sent nothing to the store and left the
    world as it was; a request answered 500 has left every row of
    thoughts, folders and thought_updates as it was. *)
Theorem rejected_requests_change_no_row (m : method) (p : string)
    (h : handler) (user : decoded_token) (b : gmap string jsval) (w : world)
    (resp : response) :
  (m, p, h) ∈ routes →
  fst (h user b w) = Some resp →
  (status resp = 400 → snd (h user b w) = w) ∧
  (status resp = 500 →
   thoughts (db (snd (h user b w))) = thoughts (db w) ∧
   folders (db (snd (h user b w))) = folders (db w) ∧
   thought_updates (db (snd (h user b w))) = thought_updates (db w)).
Proof.
  unfold routes. intros Hin.
  repeat (apply elem_of_cons in Hin as [Hin|Hin];
          [injection Hin as -> -> ->|]);
    [..|by apply elem_of_nil in Hin];
    open_handler;
    repeat match goal with
           | |- context [match ?l with [] => _ | _ :: _ => _ end] =>
               destruct l
           end;
    intros [= <-]; (split; intros Hs; try discriminate Hs; try done).
Qed.

(** *** Rows of other owners *)

Lemma filter_fmap_commute {A : Type} (P : A → Prop) `{∀ x, Decision (P x)}
    (g : A → A) (l : list A) :
  (∀ x, P (g x) ↔ P x) → filter P (g <$> l) = g <$> filter P l.
Proof.
  intros HP. induction l as [|a l IH]; [done|].
  rewrite fmap_cons, !filter_cons, IH.
  destruct (decide (P a)) as [Ha|Ha].
  - by rewrite decide_True by (by apply HP).
  - by rewrite decide_False by (by rewrite HP).
Qed.

Lemma filter_fmap_fixed {A : Type} (P : A → Prop) `{∀ x, Decision (P x)}
    (g : A → A) (l : list A) :
  (∀ x, P (g x) ↔ P x) → (∀ x, P x → g x = x) →
  filter P (g <$> l) = filter P l.
Proof.
  intros HP Hfix. rewrite filter_fmap_commute by done.
  apply fmap_unchanged. intros x [Hx _]%list_elem_of_filter. by apply Hfix.
Qed.

Lemma filter_filter_sub {A : Type} (P Q : A → Prop)
    `{∀ x, Decision (P x), ∀ x, Decision (Q x)} (l : list A) :
  (∀ x, P x → Q x) → filter P (filter Q l) = filter P l.
Proof.
  intros HPQ. induction l as [|a l IH]; [done|].
  rewrite !filter_cons. destruct (decide (Q a)) as [Hq|Hq].
  - rewrite filter_cons. by rewrite IH.
  - rewrite IH. rewrite decide_False; [done|]. intros Hp. by apply Hq, HPQ.
Qed.

Lemma filter_snoc_out {A : Type} (P : A → Prop) `{∀ x, Decision (P x)}
    (l : list A) (x : A) :
  ¬ P x → filter P (l ++ [x]) = filter P l.
Proof.
  intros Hx. rewrite filter_app, filter_cons_False by done.
  by rewrite filter_nil, app_nil_r.
Qed.

Lemma same_or_unfiled_refl u fs (l : list thought) :
  Forall2 (same_or_unfiled u fs) l l.
Proof. apply Forall_Forall2_diag, Forall_forall. intros t _. by left. Qed.

(** A request of owner B leaves the rows of everybody else alone: the
    users and folders rows of other owners are what they were, and so are
    their thoughts, except that a thought filed under a folder of B loses
    that reference when B deletes the folder (the store's ON DELETE SET
    NULL); no route but DELETE /api/folders changes another owner's
    thought at all. *)
Theorem other_owners_rows_untouched (m : method) (p : string) (h : handler)
    (user : decoded_token) (b : gmap string jsval) (w : world) :
  (m, p, h) ∈ routes →
  let u := uid user in
  let st := db w in
  let st' := db (snd (h user b w)) in
  filter (foreign_user u) (users st') = filter (foreign_user u) (users st) ∧
  filter (foreign_folder u) (folders st')
  = filter (foreign_folder u) (folders st) ∧
  Forall2 (same_or_unfiled u (folders st))
          (filter (foreign_thought u) (thoughts st))
          (filter (foreign_thought u) (thoughts st')) ∧
  ((m, p) ≠ (DELETE, "/api/folders") →
   filter (foreign_thought u) (thoughts st')
   = filter (foreign_thought u) (thoughts st)).
Proof.
  unfold routes. intros Hin.
  repeat (apply elem_of_cons in Hin as [Hin|Hin];
          [injection Hin as -> -> ->|]);
    [..|by apply elem_of_nil in Hin].
  - open_handler. auto using same_or_unfiled_refl.
  - open_handler;
      rewrite ?(filter_snoc_out (foreign_user (uid user)))
        by (unfold foreign_user; simpl; congruence);
      rewrite ?(filter_snoc_out (foreign_thought (uid user)))
        by (unfold foreign_thought; simpl; congruence);
      auto using same_or_unfiled_refl.
  - open_handler; auto using same_or_unfiled_refl;
      rewrite (filter_fmap_fixed (foreign_thought (uid user)));
      auto using same_or_unfiled_refl;
      intros t; unfold foreign_thought; case_decide; simpl; try done;
      (tidy; intuition congruence).
  - open_handler; auto using same_or_unfiled_refl;
      rewrite (filter_filter_sub (foreign_thought (uid user)));
      auto using same_or_unfiled_refl;
      intros t; unfold foreign_thought; (tidy; intuition congruence).
  - open_handler. auto using same_or_unfiled_refl.
  - open_handler;
      rewrite ?(filter_snoc_out (foreign_folder (uid user)))
        by (unfold foreign_folder; simpl; congruence);
      auto using same_or_unfiled_refl.
  - open_handler; auto using same_or_unfiled_refl;
      rewrite (filter_fmap_fixed (foreign_folder (uid user)));
      auto using same_or_unfiled_refl;
      intros f; unfold foreign_folder; case_decide; simpl; try done;
      (tidy; intuition congruence).
  - open_handler; auto using same_or_unfiled_refl.
    split; [done|]. split; [|split; [|done]].
    + apply filter_filter_sub. intros f. unfold foreign_folder.
      (tidy; intuition congruence).
    + rewrite (filter_fmap_commute (foreign_thought (uid user)))
        by (intros t; unfold foreign_thought; by case_decide).
      rewrite (filter_fmap_fixed (foreign_thought (uid user))).
      * apply Forall2_fmap_diag. intros t.
        case_decide as Hg; [right|by left]. split; [done|].
        apply list_elem_of_fmap in Hg as (f & Hfo & Hf).
        apply list_elem_of_filter in Hf as [[_ Hu] Hf].
        exists f. by repeat split.
      * intros t. unfold foreign_thought. by case_decide.
      * intros t. unfold foreign_thought. case_decide; [|done].
        (tidy; intuition congruence).
Qed.

(** *** Creating, listing and deleting thoughts *)

Lemma post_thoughts_accepted
    (user : decoded_token) (b : gmap string jsval) (w : world)
    (tx se : string) (fo : option Z) :
  consistent (db w) →
  pg_text (field b "text") = Some (Some tx) →
  pg_varchar 50 (field b "section") = Some (Some se) →
  pg_int (or_null (field b "folder")) = Some fo →
  fo = None ∨ fo ∈ folder_keys (db w) →
  let row := mkThought (thoughts_id_seq (db w) + 1) (uid user) tx se fo
                       (Some (timestamp_json (clock (S (ticks w))))) in
  fst (post_thoughts user b w) = Some (mkResponse 201 (BThought (Some row))) ∧
  thoughts (db (snd (post_thoughts user b w))) = thoughts (db w) ++ [row] ∧
  Forall (λ t, t_id t < t_id row) (thoughts (db w)).
Proof.
  intros Hc Htx Hse Hfo Hkey row.
  assert (Hlt : Forall (λ t, t_id t < t_id row) (thoughts (db w))).
  { apply Forall_forall. intros t Ht. simpl.
    pose proof (thoughts_drawn _ Hc t Ht). lia. }
  assert (Hfresh : t_id row ∉ t_id <$> thoughts (db w)).
  { intros (t & Hid & Ht)%list_elem_of_fmap.
    eapply Forall_forall in Hlt; [|exact Ht]. lia. }
  rewrite post_thoughts_run. cbv zeta. cbn [fst snd db].
  unfold insert_thought. rewrite Hfo, Htx, Hse. cbv zeta.
  case_bool_decide as Hseen; proj_store.
  - rewrite decide_False by exact Hfresh.
    rewrite decide_False by (by intros Hn; apply Hn).
    rewrite decide_False by (intros [? ?]; by destruct Hkey).
    done.
  - rewrite decide_False by exact Hfresh.
    rewrite decide_False.
    2:{ intros Hn. apply Hn. rewrite fmap_app. apply elem_of_app. right.
        simpl. left. }
    rewrite decide_False by (intros [? ?]; by destruct Hkey).
    done.
Qed.

(** In a consistent store a thought creation whose text and section the
    store takes (neither is missing or null, neither holds a NUL
    character, and the section fits VARCHAR(50); [se] is the section as it
    is stored), and whose folder is nothing or the id of any existing
    folder (its owner is not looked at), is answered 201 with the new row,
    whether or not the identity was known before: the row carries the next
    id of the sequence, greater than every id in the table, and the
    timestamp as the driver reads it back, and is added at the end of the
    table. *)
Theorem thought_creation_succeeds
    (user : decoded_token) (b : gmap string jsval) (w : world)
    (tx se : string) (fo : option Z) :
  consistent (db w) →
  pg_text (field b "text") = Some (Some tx) →
  pg_varchar 50 (field b "section") = Some (Some se) →
  pg_int (or_null (field b "folder")) = Some fo →
  fo = None ∨ fo ∈ folder_keys (db w) →
  let row := mkThought (thoughts_id_seq (db w) + 1) (uid user) tx se fo
                       (Some (timestamp_json (clock (S (ticks w))))) in
  fst (post_thoughts user b w) = Some (mkResponse 201 (BThought (Some row))) ∧
  thoughts (db (snd (post_thoughts user b w))) = thoughts (db w) ++ [row] ∧
  Forall (λ t, t_id t < t_id row) (thoughts (db w)).
Proof. apply post_thoughts_accepted. Qed.

(** On creation a folder that is falsy in JavaScript (absent, null, 0,
    the empty string, false) is stored as no folder: in a consistent store
    such a creation with a text and a section the store takes is answered
    201 with a row whose folder is NULL. *)
Theorem falsy_folder_stored_as_null
    (user : decoded_token) (b : gmap string jsval) (w : world)
    (tx se : string) :
  consistent (db w) →
  pg_text (field b "text") = Some (Some tx) →
  pg_varchar 50 (field b "section") = Some (Some se) →
  truthy (field b "folder") = false →
  fst (post_thoughts user b w)
  = Some (mkResponse 201 (BThought (Some
      (mkThought (thoughts_id_seq (db w) + 1) (uid user) tx se None
                 (Some (timestamp_json (clock (S (ticks w))))))))).
Proof.
  intros Hc Htx Hse Hfalsy.
  apply (post_thoughts_accepted user b w tx se None); try done.
  - unfold or_null. by rewrite Hfalsy.
  - by left.
Qed.

(** Ids are never handed out twice: after any handler neither sequence
    has gone back, and a thought or folder id that was not in its table
    before is the next value of its sequence. *)
Theorem ids_never_reused (m : method) (p : string) (h : handler)
    (user : decoded_token) (b : gmap string jsval) (w : world) :
  (m, p, h) ∈ routes →
  let st := db w in
  let st' := db (snd (h user b w)) in
  thoughts_id_seq st ≤ thoughts_id_seq st' ∧
  folders_id_seq st ≤ folders_id_seq st' ∧
  (∀ t, t ∈ thoughts st' →
        t_id t ∈ t_id <$> thoughts st ∨ t_id t = thoughts_id_seq st + 1) ∧
  (∀ f, f ∈ folders st' →
        f_id f ∈ f_id <$> folders st ∨ f_id f = folders_id_seq st + 1).
Proof.
  unfold routes. intros Hin.
  repeat (apply elem_of_cons in Hin as [Hin|Hin];
          [injection Hin as -> -> ->|]);
    [..|by apply elem_of_nil in Hin];
    cbv zeta; open_handler;
    (split; [lia|]); (split; [lia|]);
    (split; intros x Hx;
     repeat first
       [ apply elem_of_app in Hx as [Hx| ->%list_elem_of_singleton];
         [|by right]
       | apply list_elem_of_fmap in Hx as (? & -> & Hx)
       | apply list_elem_of_filter in Hx as [_ Hx] ];
     left; apply list_elem_of_fmap;
     match type of Hx with
     | ?y ∈ _ => exists y; split; [by repeat case_decide | exact Hx]
     end).
Qed.

(** A thought that was created (201) is what the owner's next list ends
    with, after the owner's older thoughts; the list of any other identity
    is what it was and does not contain it; listing changes nothing in the
    store. *)
Theorem created_thought_listed_to_owner_only
    (user other : decoded_token) (b : gmap string jsval) (w : world)
    (row : thought) :
  fst (post_thoughts user b w) = Some (mkResponse 201 (BThought (Some row))) →
  uid other ≠ uid user →
  let w1 := snd (post_thoughts user b w) in
  fst (get_thoughts user ∅ w1)
  = Some (mkResponse 200 (BThoughts
            (filter (λ t, t_user_id t = uid user) (thoughts (db w)) ++ [row]))) ∧
  fst (get_thoughts other ∅ w1)
  = Some (mkResponse 200 (BThoughts
            (filter (λ t, t_user_id t = uid other) (thoughts (db w))))) ∧
  db (snd (get_thoughts user ∅ w1)) = db w1.
Proof.
  intros Hr Hother w1. subst w1. rewrite !get_thoughts_run.
  rewrite post_thoughts_run in *. cbv zeta in *. cbn [fst snd db emit] in *.
  set (st1 := if bool_decide _ then _ else _) in *.
  assert (Hst1 : thoughts st1 = thoughts (db w)).
  { subst st1. by case_bool_decide. }
  destruct (fst (insert_thought _ _ _ _ _ st1)) as [rows|] eqn:Hins;
    [|discriminate Hr].
  apply insert_thought_success in Hins
    as (tx & se & fo & _ & _ & _ & -> & ->).
  injection Hr as <-. rewrite Hst1, !filter_app.
  rewrite (filter_cons_True (λ t, t_user_id t = uid user)) by done.
  rewrite (filter_cons_False (λ t, t_user_id t = uid other)) by (simpl; congruence).
  rewrite !filter_nil, app_nil_r. done.
Qed.

Lemma same_but_thoughts_eq (st st' : store) :
  same_but_thoughts st st' → thoughts st' = thoughts st → st' = st.
Proof.
  intros (Hu & Hf & Htu & Hs1 & Hs2) Ht.
  destruct st, st'. simpl in *. congruence.
Qed.

(** Deleting a thought by an id the store accepts removes exactly the
    rows with that id and the verified owner, together with their
    thought_updates rows; it is answered 200 when there was such a row and
    404 otherwise.  Sending the same request again is answered 404 and
    changes nothing. *)
Theorem thought_deletion_removes_once
    (user : decoded_token) (b : gmap string jsval) (w : world) (i : Z) :
  truthy (field b "id") = true →
  pg_int (field b "id") = Some (Some i) →
  let u := uid user in
  let gone := filter (owns_thought i u) (thoughts (db w)) in
  let w1 := snd (delete_thoughts user b w) in
  fst (delete_thoughts user b w)
  = Some (if decide (Exists (owns_thought i u) (thoughts (db w)))
          then mkResponse 200 BDeleted else not_found "Thought") ∧
  thoughts (db w1) = filter (λ t, ¬ owns_thought i u t) (thoughts (db w)) ∧
  thought_updates (db w1)
  = filter (λ tu, tu_thought_id tu ∉ t_id <$> gone) (thought_updates (db w)) ∧
  users (db w1) = users (db w) ∧ folders (db w1) = folders (db w) ∧
  fst (delete_thoughts user b w1) = Some (not_found "Thought") ∧
  db (snd (delete_thoughts user b w1)) = db w1.
Proof.
  intros Hid Hi u gone w1.
  assert (Hw1 : no_thought_of i u (db w1)).
  { subst w1. rewrite delete_thoughts_run, Hid, (delete_thought_run _ i) by done.
    intros t Ht. cbn in Ht. by apply list_elem_of_filter in Ht as [? _]. }
  destruct (delete_thoughts_foreign user b w1 i Hid Hi Hw1) as [Hr2 Hdb2].
  split; [|repeat split; try done];
    subst w1 gone; rewrite delete_thoughts_run, Hid,
      (delete_thought_run _ i) by done; try done.
  cbn [fst]. destruct (decide (Exists _ _)) as [Hex|Hnex].
  - apply Exists_exists in Hex as (t & Hin & Hown).
    destruct (filter _ _) as [|t' rest] eqn:Hf; [|done].
    exfalso. by eapply (filter_nil_not_elem_of (owns_thought i u)).
  - rewrite filter_none; [done|]. intros t Hin Hown.
    apply Hnex, Exists_exists. by exists t.
Qed.

(** *** Folders: creation, renaming, deletion twice *)

(** In a consistent store, for an identity that has a users row, a
    folder creation with a name the store takes (no NUL character, within
    VARCHAR(255); [n] is the name as it is stored) is rejected (500,
    nothing stored) exactly when this owner already has a folder of that
    name (folders of that name under other owners do not matter);
    otherwise it is answered 201 with the new row, which the owner's next
    folder list ends with. *)
Theorem folder_names_unique_per_owner
    (user : decoded_token) (b : gmap string jsval) (w : world) (n : string) :
  consistent (db w) →
  truthy (field b "name") = true →
  pg_varchar 255 (field b "name") = Some (Some n) →
  uid user ∈ u_id <$> users (db w) →
  let row := mkFolder (folders_id_seq (db w) + 1) (uid user) n
                      (Some (timestamp_json (clock (ticks w)))) in
  let r := fst (post_folders user b w) in
  let w' := snd (post_folders user b w) in
  if decide (Exists (λ f, f_user_id f = uid user ∧ f_name f = n)
                    (folders (db w)))
  then r = Some internal_error_response ∧ folders (db w') = folders (db w)
  else r = Some (mkResponse 201 (BFolder (Some row))) ∧
       folders (db w') = folders (db w) ++ [row] ∧
       fst (get_folders user ∅ w')
       = Some (mkResponse 200 (BFolders
                 (filter (λ f, f_user_id f = uid user) (folders (db w))
                  ++ [row]))).
Proof.
  intros Hc Hname Hn Hu row r w'.
  pose proof (folder_creation_outcomes user b w) as H. cbv zeta in H.
  rewrite Hname, Hn in H. destruct H as (_ & H).
  fold row r w' in H. case_decide as Hdup; [done|].
  rewrite decide_True in H.
  2:{ split; [done|]. intros (f & Hidf & Hf)%list_elem_of_fmap.
      pose proof (folders_drawn _ Hc f Hf). simpl in Hidf. lia. }
  destruct H as [Hr Hf]. split; [done|]. split; [done|].
  rewrite get_folders_run. cbn [fst]. rewrite Hf, filter_app.
  by rewrite (filter_cons_True (λ f, f_user_id f = uid user)) by done.
Qed.

Lemma filter_at_most_one {A B : Type} (k : A → B) (c : B) (P : A → Prop)
    `{∀ x, Decision (P x)} (l : list A) :
  NoDup (k <$> l) → (∀ x, P x → k x = c) → (length (filter P l) ≤ 1)%nat.
Proof.
  intros Hnd Hk. induction l as [|a l IH]; [simpl; lia|].
  rewrite fmap_cons in Hnd. apply NoDup_cons in Hnd as [Ha Hnd].
  rewrite filter_cons. case_decide as HPa; [|by apply IH].
  rewrite filter_none; [simpl; lia|]. intros x Hx HPx. apply Ha.
  rewrite (Hk a HPa), <- (Hk x HPx). by apply list_elem_of_fmap_2.
Qed.

(** In a consistent store a folder update with a truthy id that is an
    integer the store accepts and a name the store takes (no NUL character,
    within VARCHAR(255); [n] is the name as it is stored): is answered
    404, changing nothing, when the owner has no folder with that id; 500,
    changing nothing, when another folder of the owner already has the
    name; and otherwise 200, with the name of that one folder replaced and
    every other folder, and every thought, as it was. *)
Theorem folder_rename
    (user : decoded_token) (b : gmap string jsval) (w : world)
    (i : Z) (n : string) :
  consistent (db w) →
  truthy (field b "id") = true →
  pg_int (field b "id") = Some (Some i) →
  pg_varchar 255 (field b "name") = Some (Some n) →
  truthy (field b "name") = true →
  let u := uid user in
  let r := fst (put_folders user b w) in
  let w' := snd (put_folders user b w) in
  if decide (Exists (owns_folder i u) (folders (db w))) then
    if decide (Exists (λ f, f_id f ≠ i ∧ f_user_id f = u ∧ f_name f = n)
                      (folders (db w)))
    then r = Some internal_error_response ∧ db w' = db w
    else (∃ f, f ∈ folders (db w) ∧ owns_folder i u f ∧
               r = Some (mkResponse 200 (BFolder (Some (with_name n f))))) ∧
         folders (db w')
         = (λ f, if decide (owns_folder i u f) then with_name n f else f)
             <$> folders (db w) ∧
         thoughts (db w') = thoughts (db w) ∧ users (db w') = users (db w)
  else r = Some (not_found "Folder") ∧ db w' = db w.
Proof.
  intros Hc Hid Hi Hn Hname u r w'. subst r w'.
  case_decide as Hex.
  2:{ destruct (put_folders_foreign user b w i Hid Hi) as [Hr Hdb];
        [by apply no_folder_of_Exists|].
      by rewrite Hname, Hn in Hr. }
  rewrite put_folders_run, Hid, Hname. cbn [andb]. cbv zeta.
  unfold update_folder. rewrite Hi, Hn. cbv zeta.
  assert (Hhit : ∀ f, (Some i = Some (f_id f) ∧ f_user_id f = u)
                      ↔ owns_folder i u f).
  { intros f. unfold owns_folder. (tidy; intuition congruence). }
  rewrite (list_filter_iff _ (owns_folder i u)) by apply Hhit.
  assert (Hone : (length (filter (owns_folder i u) (folders (db w))) ≤ 1)%nat).
  { apply (filter_at_most_one f_id i); [apply Hc | by intros f [? _]]. }
  apply Exists_exists in Hex as (f0 & Hf0 & Hown0).
  destruct (filter (owns_folder i u) (folders (db w))) as [|f rest] eqn:Hf.
  { exfalso. by eapply (filter_nil_not_elem_of (owns_folder i u)). }
  assert (Hfin : f ∈ folders (db w) ∧ owns_folder i u f).
  { assert (f ∈ f :: rest) as Hin by left. rewrite <- Hf in Hin.
    by apply list_elem_of_filter in Hin as [? ?]. }
  case_decide as Hdup.
  - rewrite decide_True; [done|]. split; [done|]. left.
    apply Exists_exists in Hdup as (g & Hg & Hgi & Hgu & Hgn).
    apply Exists_exists. exists g. split; [done|]. split; [|done].
    intros [Hgi' _]. congruence.
  - rewrite decide_False.
    2:{ intros [_ [Hother|Hlen]]; [|simpl in *; lia].
        apply Hdup. apply Exists_exists in Hother as (g & Hg & Hnh & Hgu & Hgn).
        apply Exists_exists. exists g. split; [done|]. split; [|done].
        intros Hgi. apply Hnh. split; [congruence|done]. }
    cbn [fst snd db fmap list_fmap]. proj_store.
    split; [exists f; by destruct Hfin|]. split; [|done].
    apply list_fmap_ext. intros _ g _. apply decide_ext, Hhit.
Qed.

(** A folder deletion sent a second time changes nothing, whatever the
    first one did, and is answered 404 when its id is truthy and an integer
    the store accepts; it is answered 500 when the store cannot read the
    id, and 400 when the id is missing or falsy. *)
Theorem folder_deletion_twice
    (user : decoded_token) (b : gmap string jsval) (w : world) :
  let w1 := snd (delete_folders user b w) in
  fst (delete_folders user b w1)
  = Some (if truthy (field b "id")
          then match pg_int (field b "id") with
               | Some _ => not_found "Folder"
               | None => internal_error_response
               end
          else mkResponse 400 (BError "Folder ID is required")) ∧
  db (snd (delete_folders user b w1)) = db w1.
Proof.
  intros w1. destruct (truthy (field b "id")) eqn:Hid.
  2:{ by rewrite delete_folders_run, Hid. }
  pose proof (truthy_pg_int_not_null _ Hid) as Hnn.
  destruct (pg_int (field b "id")) as [[i|]|] eqn:Hi; [|done|].
  2:{ rewrite delete_folders_run, Hid. unfold detach_folder. by rewrite Hi. }
  assert (Hdb : db w1 =
    mkStore (users (db w))
      (filter (λ f, ¬ owns_folder i (uid user) f) (folders (db w)))
      (cleared_by_delete i (uid user) (folders (db w)) <$> thoughts (db w))
      (thought_updates (db w)) (folders_id_seq (db w))
      (thoughts_id_seq (db w))).
  { subst w1. by rewrite (delete_folders_ok user b w i Hid Hi). }
  assert (Hno : no_folder_of i (uid user) (db w1)).
  { intros f Hf. rewrite Hdb in Hf. cbn in Hf.
    by apply list_elem_of_filter in Hf as [? _]. }
  destruct (delete_folders_foreign user b w1 i Hid Hi Hno)
    as (Hr & Hsame & Hrows).
  split; [done|]. apply same_but_thoughts_eq; [done|].
  eapply Forall2_unchanged; [exact Hrows|].
  intros t t' Hin. cbn beta. case_decide as Hfiled; [|done].
  exfalso. rewrite Hdb in Hin. cbn in Hin.
  apply list_elem_of_fmap in Hin as (t0 & -> & _).
  destruct Hfiled as [Hu Hfo].
  destruct (cleared_by_delete_spec i (uid user) (folders (db w)) t0)
    as [[_ Heq]|[(_ & _ & Heq)|[Hnf Heq]]];
    rewrite Heq in Hu, Hfo; try discriminate Hfo.
  by apply Hnf.
Qed.

End Server.

(** ** Examples *)

(** C1 at a request without an authorization header. *)
Lemma unauthorized_without_store_access_witness :
  let req := mkRequest DELETE "/api/thoughts" None {[ "id" := JNum 1 ]} in
  let m := guarded sample_verifier (delete_thoughts sample_int4in) req in
  fst (m (fresh empty_store)) = Some unauthorized ∧
  ∃ calls,
    snd (m (fresh empty_store)) = mkWorld empty_store ([] ++ calls) O ∧
    Forall (λ e, is_query e = false) calls ∧
    (header_lacks_bearer None ∨ ¬ reaches_routes (Parsed req) → calls = []).
Proof.
  intros req m.
  apply (unauthorized_without_store_access
           sample_verifier sample_int4in sample_clock sample_timestamp_json
           (Parsed req) m (fresh empty_store)).
  - reflexivity.
  - left. exact I.
Defined.

(** C1 as the specification states it fails: a POST to /api/thoughts
    without credentials whose body does not parse is answered by
    [express.json()] with 400, before the credential is looked at, and not
    with 401. *)
Lemma unparsable_body_answered_before_credentials :
  let i := Unparsable POST "/api/thoughts" None 400 in
  header_lacks_bearer (i_authorization i) ∧
  ∃ m, listener sample_verifier sample_int4in sample_clock
                sample_timestamp_json i = Some m ∧
       m (fresh empty_store)
       = (Some (mkResponse 400 BErrorPage), fresh empty_store) ∧
       fst (m (fresh empty_store)) ≠ Some unauthorized.
Proof.
  split; [exact I|]. eexists. split; [reflexivity|]. split; [reflexivity|].
  discriminate.
Qed.

(** C8 as the specification states it fails: no route answers at the
    paths of the interface table. *)
Lemma spec_paths_not_routed :
  ¬ Forall (λ mp, is_Some (app sample_verifier sample_int4in sample_clock sample_timestamp_json
                               (mkRequest (fst mp) (snd mp) None ∅)))
           spec_interface.
Proof.
  intros H. apply Forall_cons_1 in H as [[m Hm] _]. discriminate Hm.
Qed.

Lemma setup_reaches_filed_store :
  let out := serve sample_verifier sample_int4in sample_clock sample_timestamp_json setup_requests
                   (fresh empty_store) in
  (fst out, db (snd out))
  = ([ Some (mkResponse 201 (BThought (Some
         (mkThought 1 "A" "buy milk" "todo" None
                    (Some "2024-01-01T00:00:00.000Z")))));
       Some (mkResponse 201 (BFolder (Some
         (mkFolder 1 "A" "work" (Some "2024-01-01T00:00:00.000Z")))));
       Some (mkResponse 200 (BThought (Some
         (mkThought 1 "A" "buy milk" "todo" (Some 1)
                    (Some "2024-01-01T00:00:00.000Z")))));
       Some (mkResponse 201 (BThought (Some
         (mkThought 2 "A" "call home" "todo" (Some 1)
                    (Some "2024-01-01T00:00:00.000Z")))));
       Some (mkResponse 201 (BThought (Some
         (mkThought 3 "B" "plan" "ideas" (Some 1)
                    (Some "2024-01-01T00:00:00.000Z"))))) ],
     filed_store).
Proof. vm_compute. reflexivity. Qed.

(** C2 as the specification states it fails: bob asks to delete folder 1,
    which is alice's.  The answer is 404, as it is for the id 7 that does
    not exist, but the request was not without effect: bob's thought 3 has
    lost its folder reference, whereas the request for id 7 changes
    nothing. *)
Lemma foreign_folder_delete_changes_a_row :
  let del i := serve sample_verifier sample_int4in sample_clock sample_timestamp_json
                 [sent DELETE "/api/folders" "tokB" {[ "id" := JNum i ]}]
                 (fresh filed_store) in
  fst (del 1) = [Some (not_found "Folder")] ∧
  fst (del 7) = [Some (not_found "Folder")] ∧
  db (snd (del 7)) = filed_store ∧
  db (snd (del 1)) ≠ filed_store.
Proof. vm_compute. repeat split; try reflexivity. discriminate. Qed.

(** C2 at bob's request for id 1, in the empty store and in
    [filed_store]. *)
Lemma foreign_id_answered_like_missing_id_witness :
  let b : gmap string jsval := {[ "id" := JNum 1; "name" := JStr "mine" ]} in
  fst (put_thoughts sample_int4in bob b (fresh empty_store))
  = fst (put_thoughts sample_int4in bob b (fresh filed_store)) ∧
  fst (put_thoughts sample_int4in bob b (fresh empty_store))
  = Some (not_found "Thought") ∧
  fst (delete_folders sample_int4in bob b (fresh empty_store))
  = fst (delete_folders sample_int4in bob b (fresh filed_store)) ∧
  fst (delete_folders sample_int4in bob b (fresh empty_store))
  = Some (not_found "Folder").
Proof.
  intros b.
  destruct (foreign_id_answered_like_missing_id sample_int4in bob b 1
              (fresh empty_store) (fresh filed_store))
    as [Hthoughts Hfolders].
  - reflexivity.
  - reflexivity.
  - destruct Hthoughts as (Hsame & Hput & _).
    + intros t Hin. by apply elem_of_nil in Hin.
    + intros t Hin [Hi Hu]. vm_compute in Hin.
      repeat (apply elem_of_cons in Hin as [->|Hin]; [discriminate|]).
      by apply elem_of_nil in Hin.
    + destruct Hfolders as (_ & _ & _ & _ & Hsame' & Hdel & _).
      * intros f Hin. by apply elem_of_nil in Hin.
      * intros f Hin [Hi Hu]. vm_compute in Hin.
        repeat (apply elem_of_cons in Hin as [->|Hin]; [discriminate|]).
        by apply elem_of_nil in Hin.
      * split; [exact Hsame|]. split; [|done].
        apply Hput; eexists; reflexivity.
Defined.

(** C4 as the specification states it fails: an update that names thought
    0 carries an id, yet it is answered 400 and nothing is sent to the
    store. *)
Lemma zero_id_update_refused :
  let b : gmap string jsval := {[ "id" := JNum 0; "section" := JStr "done" ]} in
  b !! "id" = Some (JNum 0) ∧
  put_thoughts sample_int4in alice b (fresh filed_store)
  = (Some (mkResponse 400 (BError "Missing thought ID")), fresh filed_store).
Proof. split; reflexivity. Qed.

(** C10 at bob's first creation, sent without a text. *)
Lemma failed_creation_keeps_user_witness :
  let b : gmap string jsval := {[ "section" := JStr "todo" ]} in
  let out := post_thoughts sample_int4in sample_clock sample_timestamp_json bob b (fresh empty_store) in
  fst out = Some internal_error_response ∧
  users (db (snd out)) = [provisioned sample_timestamp_json bob (sample_clock 0)] ∧
  thoughts (db (snd out)) = [].
Proof.
  intros b out.
  apply (failed_creation_keeps_user sample_int4in sample_clock sample_timestamp_json bob b
           (fresh empty_store)).
  - apply not_elem_of_nil.
  - apply insert_thought_not_null. left. reflexivity.
Defined.

(** C5 at alice deleting her folder 1, under which two of her thoughts
    are filed: both end without a folder and the folder list is empty. *)
Lemma folder_deletion_detaches_then_deletes_witness :
  let b : gmap string jsval := {[ "id" := JNum 1 ]} in
  let out := delete_folders sample_int4in alice b (fresh filed_store) in
  length (filter (files_under 1 "A") (thoughts filed_store)) = 2%nat ∧
  length (filter (unfiled "A") (thoughts (db (snd out)))) = 2%nat ∧
  fst out = Some (mkResponse 200 BDeleted) ∧
  fst (get_folders alice ∅ (snd out)) = Some (mkResponse 200 (BFolders [])).
Proof.
  intros b out.
  destruct (folder_deletion_detaches_then_deletes sample_int4in alice b
              (fresh filed_store) 1)
    as (_ & _ & Hcount & _ & _ & Hr & _).
  - reflexivity.
  - reflexivity.
  - split; [reflexivity|]. split; [exact Hcount|]. split; [exact Hr|].
    reflexivity.
Defined.

(** C6 as the specification states it fails: after the five requests of
    [setup_requests], bob's request to delete folder 1 is answered 404, and
    the detach step that ran before has cleared the folder of bob's
    thought 3. *)
Lemma not_found_deletion_detached_a_thought :
  let before := snd (serve sample_verifier sample_int4in sample_clock sample_timestamp_json
                       setup_requests (fresh empty_store)) in
  let out := serve sample_verifier sample_int4in sample_clock sample_timestamp_json
               [sent DELETE "/api/folders" "tokB" {[ "id" := JNum 1 ]}]
               before in
  fst out = [Some (not_found "Folder")] ∧
  t_folder <$> thoughts (db before) = [Some 1; Some 1; Some 1] ∧
  t_folder <$> thoughts (db (snd out)) = [Some 1; Some 1; None].
Proof. vm_compute. repeat split; reflexivity. Qed.

(** C6 at the same request: only bob's own reference is cleared. *)
Lemma not_found_deletion_touches_own_refs_only_witness :
  let b : gmap string jsval := {[ "id" := JNum 1 ]} in
  let out := delete_folders sample_int4in bob b (fresh filed_store) in
  fst out = Some (not_found "Folder") ∧
  same_but_thoughts filed_store (db (snd out)).
Proof.
  intros b out. split; [reflexivity|].
  apply (not_found_deletion_touches_own_refs_only sample_int4in bob b
           (fresh filed_store)).
  reflexivity.
Defined.

(** C7 at the failing input: bob, who has no users row, creates folder
    "work" in a store where only alice has a folder of that name. *)
Lemma folder_creation_needs_user_row_witness :
  let b : gmap string jsval := {[ "name" := JStr "work" ]} in
  let out := post_folders sample_clock sample_timestamp_json bob b (fresh alice_store) in
  fst out = Some internal_error_response ∧
  folders (db (snd out)) = folders alice_store ∧
  users (db (snd out)) = users alice_store.
Proof.
  intros b out.
  apply (folder_creation_needs_user_row sample_clock sample_timestamp_json bob b (fresh alice_store)).
  - reflexivity.
  - vm_compute. intros Hin. apply list_elem_of_singleton in Hin. discriminate.
Defined.

(** The same request succeeds once bob has stored a thought, which
    provisions his users row. *)
Lemma folder_creation_after_first_thought :
  fst (serve sample_verifier sample_int4in sample_clock sample_timestamp_json
         [ sent POST "/api/folders" "tokB" {[ "name" := JStr "work" ]};
           sent POST "/api/thoughts" "tokB"
             {[ "text" := JStr "plan"; "section" := JStr "ideas" ]};
           sent POST "/api/folders" "tokB" {[ "name" := JStr "work" ]} ]
         (fresh alice_store))
  = [ Some internal_error_response;
      Some (mkResponse 201 (BThought (Some
        (mkThought 2 "B" "plan" "ideas" None
                   (Some "2024-01-01T00:00:00.000Z")))));
      Some (mkResponse 201 (BFolder (Some
        (mkFolder 3 "B" "work" (Some "2024-01-01T00:00:00.000Z"))))) ].
Proof. vm_compute. reflexivity. Qed.

(** C9 at alice's update of thought 1 with folder null. *)
Lemma thought_update_never_detaches_witness :
  let b : gmap string jsval := {[ "id" := JNum 1; "folder" := JNull ]} in
  never_detached (thoughts filed_store)
    (thoughts (db (snd (put_thoughts sample_int4in alice b
                          (fresh filed_store))))).
Proof.
  intros b.
  destruct (thought_update_never_detaches sample_int4in sample_clock sample_timestamp_json alice b
              (fresh filed_store)) as [_ Hall].
  - by apply (bool_decide_unpack _).
  - apply (Hall PUT "/api/thoughts" (put_thoughts sample_int4in)).
    + unfold routes. do 2 apply list_elem_of_further. apply list_elem_of_here.
    + discriminate.
Defined.


(** Round trip for a thought update that supplies only the section:
    alice's thought 1 comes back with the new section and with the text
    and the folder it had, in the answer to the update and in the list
    requested next (in which order the list gives her two thoughts is left
    open). *)
Lemma only_section_updated :
  let now := Some "2024-01-01T00:00:00.000Z" in
  let updated := mkThought 1 "A" "buy milk" "done" (Some 1) now in
  ∃ rows,
    fst (serve sample_verifier sample_int4in sample_clock sample_timestamp_json
           [ sent PUT "/api/thoughts" "tokA"
               {[ "id" := JNum 1; "section" := JStr "done" ]};
             sent GET "/api/thoughts" "tokA" ∅ ]
           (fresh filed_store))
    = [ Some (mkResponse 200 (BThought (Some updated)));
        Some (mkResponse 200 (BThoughts rows)) ] ∧
    rows ≡ₚ [ mkThought 2 "A" "call home" "todo" (Some 1) now; updated ].
Proof.
  intros now updated. eexists. split; [vm_compute; reflexivity|].
  apply perm_swap.
Qed.

(** What the store refuses: an update or a creation with a section of 51
    characters, or with a NUL character in the text, is answered 500 and
    changes nothing. *)
Lemma refused_texts_change_nothing :
  let put b := put_thoughts sample_int4in alice b (fresh filed_store) in
  let post b := post_thoughts sample_int4in sample_clock sample_timestamp_json
                  alice b (fresh filed_store) in
  let wide : gmap string jsval :=
    {[ "id" := JNum 1; "text" := JStr "milk"; "section" := JStr fifty_one ]} in
  let nul : gmap string jsval :=
    {[ "id" := JNum 1; "text" := JStr (String "000" "milk");
       "section" := JStr "todo" ]} in
  fst (put wide) = Some internal_error_response ∧
  db (snd (put wide)) = filed_store ∧
  fst (post wide) = Some internal_error_response ∧
  db (snd (post wide)) = filed_store ∧
  fst (put nul) = Some internal_error_response ∧
  db (snd (put nul)) = filed_store ∧
  fst (post nul) = Some internal_error_response ∧
  db (snd (post nul)) = filed_store.
Proof. vm_compute. repeat split; reflexivity. Qed.

(** What the store is sent and what it keeps: numbers as JavaScript
    prints them, and a text cut to the width of its column when only
    spaces stick out. *)
Lemma texts_as_stored :
  number_text <$> [1000; 10 ^ 21; 12345678901234567890; 2 ^ 53 + 1; -5]
  = ["1000"; "1e+21"; "12345678901234567000"; "9007199254740992"; "-5"] ∧
  varchar 5 "ideas" = Some "ideas" ∧
  varchar 5 "ideas  " = Some "ideas" ∧
  varchar 5 "ideas!" = None ∧
  t_text <$> thoughts (db (snd (post_thoughts sample_int4in sample_clock
                                  sample_timestamp_json alice
                                  {[ "text" := JNum (10 ^ 21);
                                     "section" := JStr "todo" ]}
                                  (fresh alice_store))))
  = ["buy milk"; "1e+21"].
Proof. vm_compute. repeat split; reflexivity. Qed.

(** A server process one hour east of UTC reads a stored timestamp as
    local time: the row comes back an hour before the instant that was
    sent. *)
Lemma timestamp_read_back_in_local_time :
  let b : gmap string jsval :=
    {[ "text" := JStr "plan"; "section" := JStr "ideas" ]} in
  let out := post_thoughts sample_int4in sample_clock east_timestamp_json
               alice b (fresh alice_store) in
  fst out
  = Some (mkResponse 201 (BThought (Some
      (mkThought 2 "A" "plan" "ideas" None
                 (Some "2023-12-31T23:00:00.000Z"))))) ∧
  last (log (snd out))
  = Some (EQuery INSERT_THOUGHT
            [JStr "A"; JStr "plan"; JStr "ideas"; JNull;
             JStr "2024-01-01T00:00:00.000Z"]).
Proof. vm_compute. split; reflexivity. Qed.

(** ** Examples of the further properties *)

Lemma filed_store_consistent : consistent filed_store.
Proof.
  pose proof (serve_keeps_consistent sample_verifier sample_int4in
                sample_clock sample_timestamp_json setup_requests (fresh empty_store)
                consistent_empty) as Hc.
  pose proof setup_reaches_filed_store as Hreach. cbv zeta in Hreach.
  apply (f_equal snd) in Hreach. cbn [snd] in Hreach. by rewrite Hreach in Hc.
Qed.

(** alice's list request, with a token the verifier accepts. *)
Lemma verified_request_reaches_handler_witness :
  let req := sent GET "/api/thoughts" "tokA" ∅ in
  ∃ mth p h,
    (mth, p, h) ∈ routes sample_int4in sample_clock sample_timestamp_json ∧
    route_matches req (mth, p, h) = true ∧
    guarded sample_verifier get_thoughts req (fresh filed_store)
    = h alice (r_body req) (emit (EVerify (JStr "tokA")) (fresh filed_store)).
Proof.
  intros req.
  apply (verified_request_reaches_handler sample_verifier sample_int4in
           sample_clock sample_timestamp_json req (guarded sample_verifier get_thoughts req)
           (fresh filed_store) "tokA" alice); reflexivity.
Defined.

(** bob's first thought creation: three statements, each with "B". *)
Lemma statements_scoped_to_owner_witness :
  let b : gmap string jsval :=
    {[ "text" := JStr "plan"; "section" := JStr "ideas" ]} in
  ∃ calls,
    log (snd (post_thoughts sample_int4in sample_clock sample_timestamp_json bob b
                (fresh empty_store))) = [] ++ calls ∧
    Forall (scoped_to "B") calls ∧ (length calls ≤ 3)%nat.
Proof.
  intros b.
  apply (statements_scoped_to_owner sample_int4in sample_clock sample_timestamp_json
           POST "/api/thoughts" (post_thoughts sample_int4in sample_clock sample_timestamp_json)
           bob b (fresh empty_store)).
  unfold routes. apply list_elem_of_further, list_elem_of_here.
Defined.

(** alice deleting thought 1 of [filed_store]. *)
Lemma users_kept_updates_never_written_witness :
  let b : gmap string jsval := {[ "id" := JNum 1 ]} in
  users filed_store
    `prefix_of` users (db (snd (delete_thoughts sample_int4in alice b
                                  (fresh filed_store)))).
Proof.
  intros b.
  apply (users_kept_updates_never_written sample_int4in sample_clock sample_timestamp_json
           DELETE "/api/thoughts" (delete_thoughts sample_int4in)
           alice b (fresh filed_store)).
  unfold routes. do 3 apply list_elem_of_further. apply list_elem_of_here.
Defined.

(** bob's thought creation without a text, answered 500. *)
Lemma rejected_requests_change_no_row_witness :
  let b : gmap string jsval := {[ "section" := JStr "ideas" ]} in
  let out := post_thoughts sample_int4in sample_clock sample_timestamp_json bob b
               (fresh filed_store) in
  thoughts (db (snd out)) = thoughts filed_store ∧
  folders (db (snd out)) = folders filed_store ∧
  thought_updates (db (snd out)) = thought_updates filed_store.
Proof.
  intros b out.
  apply (rejected_requests_change_no_row sample_int4in sample_clock sample_timestamp_json
           POST "/api/thoughts" (post_thoughts sample_int4in sample_clock sample_timestamp_json)
           bob b (fresh filed_store) internal_error_response).
  - unfold routes. apply list_elem_of_further, list_elem_of_here.
  - reflexivity.
  - reflexivity.
Defined.

(** alice deleting her folder 1, under which bob has filed thought 3. *)
Lemma other_owners_rows_untouched_witness :
  let b : gmap string jsval := {[ "id" := JNum 1 ]} in
  let st' := db (snd (delete_folders sample_int4in alice b
                        (fresh filed_store))) in
  filter (foreign_user "A") (users st')
  = filter (foreign_user "A") (users filed_store) ∧
  Forall2 (same_or_unfiled "A" (folders filed_store))
          (filter (foreign_thought "A") (thoughts filed_store))
          (filter (foreign_thought "A") (thoughts st')).
Proof.
  intros b st'.
  destruct (other_owners_rows_untouched sample_int4in sample_clock sample_timestamp_json
              DELETE "/api/folders" (delete_folders sample_int4in)
              alice b (fresh filed_store)) as (Hu & _ & Ht & _).
  - unfold routes. do 7 apply list_elem_of_further. apply list_elem_of_here.
  - split; [exact Hu | exact Ht].
Defined.

(** bob files a new thought under alice's folder 1. *)
Lemma thought_creation_succeeds_witness :
  let b : gmap string jsval :=
    {[ "text" := JStr "note"; "section" := JStr "ideas";
       "folder" := JNum 1 ]} in
  fst (post_thoughts sample_int4in sample_clock sample_timestamp_json bob b (fresh filed_store))
  = Some (mkResponse 201 (BThought (Some
      (mkThought 4 "B" "note" "ideas" (Some 1) (Some (sample_clock 1)))))).
Proof.
  intros b.
  apply (thought_creation_succeeds sample_int4in sample_clock sample_timestamp_json bob b
           (fresh filed_store) "note" "ideas" (Some 1)).
  - exact filed_store_consistent.
  - reflexivity.
  - reflexivity.
  - reflexivity.
  - right. apply list_elem_of_here.
Defined.

(** The thought of the previous example is listed to bob, not to
    alice. *)
Lemma created_thought_listed_to_owner_only_witness :
  let b : gmap string jsval :=
    {[ "text" := JStr "note"; "section" := JStr "ideas";
       "folder" := JNum 1 ]} in
  let w1 := snd (post_thoughts sample_int4in sample_clock sample_timestamp_json bob b
                   (fresh filed_store)) in
  let now := Some "2024-01-01T00:00:00.000Z" in
  fst (get_thoughts bob ∅ w1)
  = Some (mkResponse 200 (BThoughts
      [ mkThought 3 "B" "plan" "ideas" (Some 1) now;
        mkThought 4 "B" "note" "ideas" (Some 1) now ])) ∧
  fst (get_thoughts alice ∅ w1)
  = Some (mkResponse 200 (BThoughts
      [ mkThought 1 "A" "buy milk" "todo" (Some 1) now;
        mkThought 2 "A" "call home" "todo" (Some 1) now ])).
Proof.
  intros b w1 now.
  destruct (created_thought_listed_to_owner_only sample_int4in sample_clock sample_timestamp_json
              bob alice b (fresh filed_store)
              (mkThought 4 "B" "note" "ideas" (Some 1) now))
    as (Hown & Hother & _).
  - reflexivity.
  - discriminate.
  - split; [exact Hown | exact Hother].
Defined.

(** alice deletes her thought 2. *)
Lemma thought_deletion_removes_once_witness :
  let b : gmap string jsval := {[ "id" := JNum 2 ]} in
  let w1 := snd (delete_thoughts sample_int4in alice b (fresh filed_store)) in
  fst (delete_thoughts sample_int4in alice b (fresh filed_store))
  = Some (mkResponse 200 BDeleted) ∧
  fst (delete_thoughts sample_int4in alice b w1) = Some (not_found "Thought") ∧
  db (snd (delete_thoughts sample_int4in alice b w1)) = db w1.
Proof.
  intros b w1.
  destruct (thought_deletion_removes_once sample_int4in alice b
              (fresh filed_store) 2) as (_ & _ & _ & _ & _ & Hr2 & Hdb2).
  - reflexivity.
  - reflexivity.
  - split; [reflexivity|]. split; [exact Hr2 | exact Hdb2].
Defined.

(** alice creates a second folder "work", then a folder "home". *)
Lemma folder_names_unique_per_owner_witness :
  fst (post_folders sample_clock sample_timestamp_json alice {[ "name" := JStr "work" ]}
         (fresh filed_store)) = Some internal_error_response ∧
  fst (post_folders sample_clock sample_timestamp_json alice {[ "name" := JStr "home" ]}
         (fresh filed_store))
  = Some (mkResponse 201 (BFolder (Some
      (mkFolder 2 "A" "home" (Some (sample_clock 0)))))).
Proof.
  assert (Hin : "A" ∈ u_id <$> users filed_store) by apply list_elem_of_here.
  split.
  - pose proof (folder_names_unique_per_owner sample_clock sample_timestamp_json alice
                  {[ "name" := JStr "work" ]} (fresh filed_store) "work"
                  filed_store_consistent eq_refl eq_refl Hin) as H.
    cbv zeta in H. case_decide as Hdup; [apply H|].
    exfalso. apply Hdup. by apply (bool_decide_unpack _).
  - pose proof (folder_names_unique_per_owner sample_clock sample_timestamp_json alice
                  {[ "name" := JStr "home" ]} (fresh filed_store) "home"
                  filed_store_consistent eq_refl eq_refl Hin) as H.
    cbv zeta in H. case_decide as Hdup; [|apply H].
    exfalso. revert Hdup. by apply (bool_decide_unpack _).
Defined.

(** alice renames her folder 1 to "home". *)
Lemma folder_rename_witness :
  let b : gmap string jsval := {[ "id" := JNum 1; "name" := JStr "home" ]} in
  folders (db (snd (put_folders sample_int4in alice b (fresh filed_store))))
  = [mkFolder 1 "A" "home" (Some "2024-01-01T00:00:00.000Z")].
Proof.
  intros b.
  pose proof (folder_rename sample_int4in alice b (fresh filed_store) 1 "home"
                filed_store_consistent eq_refl eq_refl eq_refl eq_refl) as H.
  cbv zeta in H. case_decide as Hex.
  - case_decide as Hdup.
    + exfalso. revert Hdup. by apply (bool_decide_unpack _).
    + destruct H as (_ & -> & _). reflexivity.
  - exfalso. apply Hex. by apply (bool_decide_unpack _).
Defined.

(** alice deletes her folder 1 twice. *)
Lemma folder_deletion_twice_witness :
  let b : gmap string jsval := {[ "id" := JNum 1 ]} in
  let w1 := snd (delete_folders sample_int4in alice b (fresh filed_store)) in
  fst (delete_folders sample_int4in alice b (fresh filed_store))
  = Some (mkResponse 200 BDeleted) ∧
  fst (delete_folders sample_int4in alice b w1) = Some (not_found "Folder") ∧
  db (snd (delete_folders sample_int4in alice b w1)) = db w1.
Proof.
  intros b w1. split; [reflexivity|].
  apply (folder_deletion_twice sample_int4in alice b (fresh filed_store)).
Defined.

(** bob's creation with folder 0: the row has no folder. *)
Lemma falsy_folder_stored_as_null_witness :
  let b : gmap string jsval :=
    {[ "text" := JStr "note"; "section" := JStr "ideas";
       "folder" := JNum 0 ]} in
  fst (post_thoughts sample_int4in sample_clock sample_timestamp_json bob b (fresh filed_store))
  = Some (mkResponse 201 (BThought (Some
      (mkThought 4 "B" "note" "ideas" None (Some (sample_clock 1)))))).
Proof.
  intros b.
  apply (falsy_folder_stored_as_null sample_int4in sample_clock sample_timestamp_json bob b
           (fresh filed_store) "note" "ideas").
  - exact filed_store_consistent.
  - reflexivity.
  - reflexivity.
  - reflexivity.
Defined.

(** After alice has deleted her thought 1 the sequence still stands at
    3, so the next thought will be 4. *)
Lemma ids_never_reused_witness :
  let b : gmap string jsval := {[ "id" := JNum 1 ]} in
  thoughts_id_seq filed_store
  ≤ thoughts_id_seq (db (snd (delete_thoughts sample_int4in alice b
                                (fresh filed_store)))).
Proof.
  intros b.
  apply (ids_never_reused sample_int4in sample_clock sample_timestamp_json
           DELETE "/api/thoughts" (delete_thoughts sample_int4in)
           alice b (fresh filed_store)).
  unfold routes. do 3 apply list_elem_of_further. apply list_elem_of_here.
Defined.
